(** * xaven-sdk: request context, retrying clients and the cached fetch path

    A shallow embedding of

      - packages/core/xaven-context.ts     (module [XavenContext])
      - packages/lib/xaven-ai-engine.ts    (module [XavenAiEngine])
      - packages/lib/xaven-purchase-optimizer.ts
                                           (module [XavenPurchaseOptimizer])
      - packages/core/xaven-factory.ts     (module [XavenFactory])

    followed by the properties proved about them.

    Conventions.  A JavaScript string is a [string]; a thrown value is an
    [Error] carrying its [message]; an [async] function is a state-passing
    function returning a [Completion] (a rejected promise is [Throw]).
    Integers that the code only counts with are [Z] or [nat].  Console
    output is not part of the model. *)

From Stdlib Require Import ZArith NArith String Ascii List Bool Lia DecimalString.
From Stdlib Require Import Sorted Permutation.
From Stdlib Require Strings.Byte DecimalPos DecimalZ.
From stdpp Require Import gmap strings list.

Local Open Scope string_scope.
Local Open Scope Z_scope.
Local Open Scope list_scope.

(* ================================================================== *)
(** * JavaScript values shared by all modules *)
(* ================================================================== *)

Module Js.

(** [new Error(message)]; the only field the code reads is [message]. *)
Record Error : Type := mkError { message : string }.

(** Outcome of calling a function: a value, or a thrown [Error]. *)
Inductive Completion (A : Type) : Type :=
  | Return (a : A)
  | Throw (e : Error).
Arguments Return {A} a.
Arguments Throw {A} e.

(** Outcome of an awaited remote call. *)
Inductive Outcome (A : Type) : Type :=
  | Resolved (data : A)
  | Rejected (err : Error).
Arguments Resolved {A} data.
Arguments Rejected {A} err.

(** [`${n}`] for an integer [n]: its decimal rendering, the way
    JavaScript prints integers of magnitude below 10^21. *)
Definition string_of_number (n : Z) : string :=
  NilZero.string_of_int (Z.to_int n).

(** [`${lastError?.message}`]: optional chaining yields [undefined] on
    an [undefined] receiver, and the template prints it as such. *)
Definition string_of_optional_message (e : option Error) : string :=
  match e with
  | Some err => message err
  | None => "undefined"
  end.

(** [s.includes(t)]. *)
Fixpoint includes (s t : string) : bool :=
  if String.prefix t s then true
  else match s with
       | EmptyString => false
       | String _ s' => includes s' t
       end.

(** [a || b] on an optional string: [undefined] and [""] are falsy. *)
Definition or_string (a : option string) (b : string) : string :=
  match a with
  | Some (String c s) => String c s
  | Some EmptyString => b
  | None => b
  end.

(** What [n] successive calls of a remote operation answer, starting in
    world [w], and the world they leave behind. *)
Fixpoint replay {P W A : Type} (post : P -> W -> Outcome A * W)
         (payload : P) (n : nat) (w : W) : list (Outcome A) * W :=
  match n with
  | O => ([], w)
  | S n' =>
      let '(o, w1) := post payload w in
      let '(os, w2) := replay post payload n' w1 in
      (o :: os, w2)
  end.

(** The error a sequence of failures leaves in [lastError]. *)
Definition last_error (errs : list Error) (before : option Error)
  : option Error :=
  List.last (map Some errs) before.

End Js.
Export Js.

(* ================================================================== *)
(** * packages/core/xaven-context.ts *)
(* ================================================================== *)

Module XavenContext.

Record XavenContextData : Type := mkContext {
  correlationId : string;
  userId : option string
}.

(** Modelled from the spec: [AsyncLocalStorage.getStore] (Node's
    async_hooks, not part of the repository) returns the context bound by
    the enclosing [run], or [undefined] outside any [run] scope.  The
    binding in force where a piece of code executes is the argument
    [store]. *)
Definition getStore (store : option XavenContextData)
  : Completion (option XavenContextData) :=
  Return store.

(** [o?.f]: [undefined] on an [undefined] receiver, the field
    otherwise; never throws. *)
Definition optional_member {A B : Type} (o : option A) (f : A -> option B)
  : Completion (option B) :=
  match o with
  | None => Return None
  | Some a => Return (f a)
  end.

Definition bind {A B : Type} (c : Completion A) (k : A -> Completion B)
  : Completion B :=
  match c with
  | Return a => k a
  | Throw e => Throw e
  end.

Definition getXavenContext (store : option XavenContextData)
  : Completion (option XavenContextData) :=
  getStore store.

Definition getCorrelationId (store : option XavenContextData)
  : Completion (option string) :=
  bind (getStore store) (fun s => optional_member s (fun c => Some (correlationId c))).

Definition getUserId (store : option XavenContextData)
  : Completion (option string) :=
  bind (getStore store) (fun s => optional_member s userId).

(** *** The seeding policy of [xavenContextMiddleware] *)

(** A value of [req.headers[name]]: Node hands over a string, or an array
    of strings for a repeated header; an absent header is [undefined]. *)
Inductive HeaderValue : Type :=
| HString (s : string)
| HArray (l : list string).

Record Request : Type := mkRequest {
  headers : gmap string HeaderValue;
  reqUserId : option string        (* [(req as any).userId] *)
}.

(** White space and line terminators of ECMAScript among the code units
    0..255 that a [string] here holds: TAB, LF, VT, FF, CR, SP, NBSP. *)
Definition isWhiteSpace (c : ascii) : bool :=
  let n := N_of_ascii c in
  ((9 <=? n) && (n <=? 13) || (n =? 32) || (n =? 160))%N.

Fixpoint trimStart (s : string) : string :=
  match s with
  | EmptyString => EmptyString
  | String c s' => if isWhiteSpace c then trimStart s' else s
  end.

Fixpoint trimEnd (s : string) : string :=
  match s with
  | EmptyString => EmptyString
  | String c s' =>
      match trimEnd s' with
      | EmptyString => if isWhiteSpace c then EmptyString else String c EmptyString
      | String d r => String c (String d r)
      end
  end.

(** [String.prototype.trim]. *)
Definition trim (s : string) : string := trimEnd (trimStart s).

Definition hexDigit (n : N) : ascii :=
  match String.get (N.to_nat n) "0123456789abcdef" with
  | Some c => c
  | None => "?"%char
  end.

Definition hexByte (b : N) : string :=
  String (hexDigit (N.shiftr b 4)) (String (hexDigit (N.land b 15)) EmptyString).

(** Modelled from the spec: [randomUUID] of Node's crypto module (not part
    of the repository) returns a random identifier in UUID v4 format,
    version nibble 4 and variant nibble in 8..b.  [rnd] supplies the 16
    random bytes; bytes 6 and 8 get the version and the variant bits,
    and the bytes print in lower-case hexadecimal, grouped 8-4-4-4-12. *)
Definition randomUUID (rnd : nat -> Byte.byte) : string :=
  let b (i : nat) : N := Byte.to_N (rnd i) in
  let b6 := N.lor (N.land (b 6%nat) 15) 64 in
  let b8 := N.lor (N.land (b 8%nat) 63) 128 in
  hexByte (b 0%nat) +:+ hexByte (b 1%nat) +:+ hexByte (b 2%nat) +:+ hexByte (b 3%nat)
    +:+ "-" +:+ hexByte (b 4%nat) +:+ hexByte (b 5%nat)
    +:+ "-" +:+ hexByte b6 +:+ hexByte (b 7%nat)
    +:+ "-" +:+ hexByte b8 +:+ hexByte (b 9%nat)
    +:+ "-" +:+ hexByte (b 10%nat) +:+ hexByte (b 11%nat) +:+ hexByte (b 12%nat)
    +:+ hexByte (b 13%nat) +:+ hexByte (b 14%nat) +:+ hexByte (b 15%nat).

(** The classes of characters of the UUID v4 format. *)
Inductive CharClass : Type := Hex | Dash | Version4 | Variant.

Definition isHex (c : ascii) : bool :=
  let n := N_of_ascii c in
  ((48 <=? n) && (n <=? 57) || (97 <=? n) && (n <=? 102))%N.

Definition inClass (cl : CharClass) (c : ascii) : bool :=
  match cl with
  | Hex => isHex c
  | Dash => Ascii.eqb c "-"
  | Version4 => Ascii.eqb c "4"
  | Variant => Ascii.eqb c "8" || Ascii.eqb c "9" || Ascii.eqb c "a" || Ascii.eqb c "b"
  end.

Fixpoint matchesClasses (pat : list CharClass) (s : string) : bool :=
  match pat, s with
  | [], EmptyString => true
  | cl :: pat', String c s' => inClass cl c && matchesClasses pat' s'
  | _, _ => false
  end.

(** xxxxxxxx-xxxx-4xxx-Vxxx-xxxxxxxxxxxx with x hexadecimal and V one of
    8, 9, a, b. *)
Definition isUuidV4 (s : string) : bool :=
  matchesClasses
    (repeat Hex 8 ++ [Dash] ++ repeat Hex 4 ++ [Dash; Version4] ++ repeat Hex 3
       ++ [Dash; Variant] ++ repeat Hex 3 ++ [Dash] ++ repeat Hex 12) s.

(** [x || undefined] on an optional string. *)
Definition or_undefined (x : option string) : option string :=
  match x with
  | Some (String c s) => Some (String c s)
  | Some EmptyString => None
  | None => None
  end.

(** The context [xavenContextMiddleware] prepares for a request; [rnd] is
    the randomness [randomUUID] draws on when it is called. *)
Definition contextData (req : Request) (rnd : nat -> Byte.byte) : XavenContextData :=
  let incomingCorrelationId := headers req !! "x-correlation-id" in
  let correlationId :=
    match incomingCorrelationId with
    | Some (HString s) =>
        if (0 <? String.length (trim s))%nat then trim s else randomUUID rnd
    | Some (HArray _) => randomUUID rnd
    | None => randomUUID rnd
    end in
  let userId := or_undefined (reqUserId req) in
  mkContext correlationId userId.

(** *** Code running under the context store *)

(** What code learns when it calls the three accessors. *)
Record Observation : Type := mkObservation {
  seenContext : Completion (option XavenContextData);
  seenCorrelationId : Completion (option string);
  seenUserId : Completion (option string)
}.

Definition observe (store : option XavenContextData) : Observation :=
  mkObservation (getXavenContext store) (getCorrelationId store) (getUserId store).

(** Application code as far as the context store is concerned: it calls
    the accessors and goes on according to what they return, and it
    schedules callbacks ([setTimeout], promise continuations) to run in
    a later turn of the event loop. *)
Inductive Code : Type :=
| Done
| Observe (k : Observation -> Code)
| Defer (callback : Code) (k : Code).

(** On whose behalf a piece of code runs: the request with the given
    arrival number, or none. *)
Inductive Origin : Type :=
| FromRequest (rid : nat)
| Outside.

(** A scheduled callback.  [captured] is the store AsyncLocalStorage
    restores when the callback runs. *)
Record Task : Type := mkTask {
  origin : Origin;
  captured : option XavenContextData;
  body : Code
}.

(** Modelled from the spec: the propagation rule of [AsyncLocalStorage]
    (Node's async_hooks, not part of the repository): while [work] of
    [run(context, work)] executes, [getStore()] returns [context], and so
    it does in every asynchronous operation scheduled from there.  [exec]
    runs [c] to completion under [store]; a callback deferred on the way
    captures [store].  It returns the callbacks scheduled and the
    observations made. *)
Fixpoint exec (o : Origin) (store : option XavenContextData) (c : Code)
  : list Task * list (Origin * Observation) :=
  match c with
  | Done => ([], [])
  | Observe k =>
      let seen := observe store in
      let '(ts, obs) := exec o store (k seen) in
      (ts, (o, seen) :: obs)
  | Defer callback k =>
      let '(ts, obs) := exec o store k in
      (mkTask o store callback :: ts, obs)
  end.

(** The event loop: callbacks waiting for their turn, the contexts seeded
    so far (by arrival number) and everything observed so far. *)
Record Loop : Type := mkLoop {
  pending : list Task;
  seeded : list XavenContextData;
  observed : list (Origin * Observation)
}.

Definition idle : Loop := mkLoop [] [] [].

(** [xavenContextStore.run(contextData, () => { next(); })]. *)
Definition xavenContextMiddleware (req : Request) (rnd : nat -> Byte.byte)
           (next : Code) (l : Loop) : Loop :=
  let ctx := contextData req rnd in
  let '(ts, obs) := exec (FromRequest (length (seeded l))) (Some ctx) next in
  mkLoop (pending l ++ ts) (seeded l ++ [ctx]) (observed l ++ obs).

(** What the environment does: a request arrives and Express calls the
    middleware with the rest of the chain; the event loop runs the [i]-th
    waiting callback (timers expire in any order); or code that belongs
    to no request runs. *)
Inductive Event : Type :=
| Arrive (req : Request) (rnd : nat -> Byte.byte) (next : Code)
| Fire (i : nat)
| Background (c : Code).

Definition step (l : Loop) (e : Event) : Loop :=
  match e with
  | Arrive req rnd next => xavenContextMiddleware req rnd next l
  | Fire i =>
      match pending l !! i with
      | None => l
      | Some t =>
          let '(ts, obs) := exec (origin t) (captured t) (body t) in
          mkLoop (delete i (pending l) ++ ts) (seeded l) (observed l ++ obs)
      end
  | Background c =>
      let '(ts, obs) := exec Outside None c in
      mkLoop (pending l ++ ts) (seeded l) (observed l ++ obs)
  end.

Definition run_events (evs : list Event) (l : Loop) : Loop :=
  fold_left step evs l.

(** *** Notions used to state the properties *)

Fixpoint allWhiteSpace (s : string) : bool :=
  match s with
  | EmptyString => true
  | String c s' => isWhiteSpace c && allWhiteSpace s'
  end.

(** [store] is the binding that code of origin [o] is entitled to: the
    context seeded for its request, or none outside any request. *)
Definition bound_to (sd : list XavenContextData) (o : Origin)
           (store : option XavenContextData) : Prop :=
  match o with
  | FromRequest rid => exists c, sd !! rid = Some c /\ store = Some c
  | Outside => store = None
  end.

(** Every waiting callback has captured the binding of its origin, and
    every observation made so far reported the binding of its origin. *)
Definition consistent (l : Loop) : Prop :=
  Forall (fun t => bound_to (seeded l) (origin t) (captured t)) (pending l)
  /\ Forall (fun '(o, seen) =>
               exists store, bound_to (seeded l) o store /\ seen = observe store)
            (observed l).

End XavenContext.

(* ================================================================== *)
(** * packages/lib/xaven-ai-engine.ts *)
(* ================================================================== *)

Module XavenAiEngine.

(** The numeric fields are taken to hold integers. *)
Record XavenAiEngineConfig : Type := mkConfig {
  endpointUrl : string;
  requestTimeoutMs : Z;
  defaultLanguage : string;
  retryCount : Z;
  additionalHeaders : list (string * string)
}.

(** The constructor's merge of defaults: [config?.field ?? default]. *)
Definition defaultConfig : XavenAiEngineConfig :=
  {| endpointUrl := "https://api.xaven.com/ai-parse";
     requestTimeoutMs := 5000;
     defaultLanguage := "en";
     retryCount := 2;
     additionalHeaders := [] |}.

Record XavenAiParsedResult : Type := mkParsed {
  category : string;
  brand : option string;
  maxBudget : option Z;
  shippingUrgency : option string
}.

(** The object literal handed to [client.post("/", ...)]. *)
Record Payload : Type := mkPayload {
  correlationId : string;
  userQuery : string;
  language : string
}.

(** The process the engine runs in: the AsyncLocalStorage binding in
    force at the call, the state of everything behind [uuidv4] and the
    HTTP client, and the calls the client has received so far. *)
Record Process (W : Type) : Type := mkProcess {
  asyncStore : option XavenContext.XavenContextData;
  world : W;
  postCalls : list Payload
}.
Arguments mkProcess {W}.
Arguments asyncStore {W}.
Arguments world {W}.
Arguments postCalls {W}.

Section Engine.
Context {W : Type}.
(** [uuidv4()] of the uuid package. *)
Variable uuidv4 : W -> string * W.
(** [this.state.client.post("/", payload)], awaited. *)
Variable post : Payload -> W -> Outcome XavenAiParsedResult * W.

Definition call_uuidv4 (p : Process W) : string * Process W :=
  let '(u, w') := uuidv4 (world p) in
  (u, mkProcess (asyncStore p) w' (postCalls p)).

Definition client_post (payload : Payload) (p : Process W)
  : Outcome XavenAiParsedResult * Process W :=
  let '(o, w') := post payload (world p) in
  (o, mkProcess (asyncStore p) w' (postCalls p ++ [payload])).

Definition terminal_message (cfg : XavenAiEngineConfig)
           (lastError : option Error) : string :=
  "[XavenAiEngine] parseUserQuery failed after "
    +:+ string_of_number (retryCount cfg)
    +:+ " attempts. Last error: "
    +:+ string_of_optional_message lastError.

(** The [while (attempts < retryCount)] loop; [fuel] bounds the
    number of iterations unrolled. *)
Fixpoint parseUserQuery_loop (fuel : nat) (cfg : XavenAiEngineConfig)
         (payload : Payload) (attempts : Z) (lastError : option Error)
         (p : Process W)
  : option (Completion XavenAiParsedResult * Process W) :=
  match fuel with
  | O => None
  | S fuel' =>
      if (attempts <? retryCount cfg)%Z then
        match client_post payload p with
        | (Resolved data, p') => Some (Return data, p')
        | (Rejected err, p') =>
            parseUserQuery_loop fuel' cfg payload (attempts + 1) (Some err) p'
        end
      else
        Some (Throw (mkError (terminal_message cfg lastError)), p)
  end.

Definition parseUserQuery (fuel : nat) (cfg : XavenAiEngineConfig)
           (userQuery : string) (preferredLanguage : option string)
           (p : Process W)
  : option (Completion XavenAiParsedResult * Process W) :=
  let '(correlationId, p1) := call_uuidv4 p in
  let language := or_string preferredLanguage (defaultLanguage cfg) in
  parseUserQuery_loop fuel cfg
    (mkPayload correlationId userQuery language) 0 None p1.

(** The object literal [{ correlationId, userQuery, language }] that a call
    made in process [p] hands to [client.post]. *)
Definition payload_of (cfg : XavenAiEngineConfig) (userQuery : string)
           (preferredLanguage : option string) (p : Process W) : Payload :=
  mkPayload (fst (uuidv4 (world p))) userQuery
    (or_string preferredLanguage (defaultLanguage cfg)).

End Engine.

End XavenAiEngine.

(* ================================================================== *)
(** * packages/lib/xaven-purchase-optimizer.ts *)
(* ================================================================== *)

Module XavenPurchaseOptimizer.

(** The numeric fields are taken to hold integers. *)
Record XavenPurchaseOptimizerConfig : Type := mkConfig {
  endpointUrl : string;
  requestTimeoutMs : Z;
  concurrencyOverride : option Z;
  enableCacheInvalidation : bool;
  retryCount : Z;
  additionalHeaders : list (string * string)
}.

Definition defaultConfig : XavenPurchaseOptimizerConfig :=
  {| endpointUrl := "https://api.xaven.com/purchase-optimize";
     requestTimeoutMs := 7000;
     concurrencyOverride := None;
     enableCacheInvalidation := false;
     retryCount := 2;
     additionalHeaders := [] |}.

Record XavenOptimizedOffer : Type := mkOffer {
  partnerName : string;
  productName : string;
  price : Z;
  shippingCost : Z;
  shippingDays : Z;
  brand : option string;
  totalCost : Z;
  link : string
}.

Record XavenOptimizationResult : Type := mkResult {
  bestOffer : option XavenOptimizedOffer;
  offers : list XavenOptimizedOffer
}.

Record InnerPayload : Type := mkInner {
  aiParsed : XavenAiEngine.XavenAiParsedResult;
  concurrency : option Z;
  cacheInvalidation : bool
}.

Record Payload : Type := mkPayload {
  correlationId : string;
  userId : option string;
  payload : InnerPayload
}.

Record Process (W : Type) : Type := mkProcess {
  asyncStore : option XavenContext.XavenContextData;
  world : W;
  postCalls : list Payload
}.
Arguments mkProcess {W}.
Arguments asyncStore {W}.
Arguments world {W}.
Arguments postCalls {W}.

Section Optimizer.
Context {W : Type}.
Variable uuidv4 : W -> string * W.
Variable post : Payload -> W -> Outcome XavenOptimizationResult * W.

Definition call_uuidv4 (p : Process W) : string * Process W :=
  let '(u, w') := uuidv4 (world p) in
  (u, mkProcess (asyncStore p) w' (postCalls p)).

Definition client_post (body : Payload) (p : Process W)
  : Outcome XavenOptimizationResult * Process W :=
  let '(o, w') := post body (world p) in
  (o, mkProcess (asyncStore p) w' (postCalls p ++ [body])).

Definition terminal_message (cfg : XavenPurchaseOptimizerConfig)
           (lastError : option Error) : string :=
  "[XavenPurchaseOptimizer] optimizePurchase failed after "
    +:+ string_of_number (retryCount cfg)
    +:+ " attempts. Last error: "
    +:+ string_of_optional_message lastError.

Fixpoint optimizePurchase_loop (fuel : nat)
         (cfg : XavenPurchaseOptimizerConfig)
         (body : Payload) (attempts : Z) (lastError : option Error)
         (p : Process W)
  : option (Completion XavenOptimizationResult * Process W) :=
  match fuel with
  | O => None
  | S fuel' =>
      if (attempts <? retryCount cfg)%Z then
        match client_post body p with
        | (Resolved data, p') => Some (Return data, p')
        | (Rejected err, p') =>
            optimizePurchase_loop fuel' cfg body (attempts + 1) (Some err) p'
        end
      else
        Some (Throw (mkError (terminal_message cfg lastError)), p)
  end.

Definition optimizePurchase (fuel : nat)
           (cfg : XavenPurchaseOptimizerConfig)
           (aiParsed : XavenAiEngine.XavenAiParsedResult)
           (userId : option string) (p : Process W)
  : option (Completion XavenOptimizationResult * Process W) :=
  let '(correlationId, p1) := call_uuidv4 p in
  optimizePurchase_loop fuel cfg
    (mkPayload correlationId userId
       (mkInner aiParsed (concurrencyOverride cfg)
                (enableCacheInvalidation cfg)))
    0 None p1.

(** The object literal [{ correlationId, userId, payload: {...} }] that a
    call made in process [p] hands to [client.post]. *)
Definition payload_of (cfg : XavenPurchaseOptimizerConfig)
           (aiParsed : XavenAiEngine.XavenAiParsedResult)
           (userId : option string) (p : Process W) : Payload :=
  mkPayload (fst (uuidv4 (world p))) userId
    (mkInner aiParsed (concurrencyOverride cfg) (enableCacheInvalidation cfg)).

End Optimizer.

End XavenPurchaseOptimizer.

(* ================================================================== *)
(** * packages/core/xaven-factory.ts *)
(* ================================================================== *)

Module XavenFactory.

(** A response body ([T] of [fetchWithCache<T>]): any JSON value, or
    [undefined], which is also what a cache lookup that finds nothing
    returns.  Numbers are kept to the integers. *)
#[warnings="-register-all"]
Inductive Json : Type :=
| JUndefined
| JNull
| JBool (b : bool)
| JNumber (n : Z)
| JString (s : string)
| JArray (items : list Json)
| JObject (fields : list (string * Json)).

(** [if (cached)]: what JavaScript takes for true. *)
Definition truthy (v : Json) : bool :=
  match v with
  | JUndefined => false
  | JNull => false
  | JBool b => b
  | JNumber n => negb (n =? 0)
  | JString s => negb (String.eqb s "")
  | JArray _ => true
  | JObject _ => true
  end.

(** [new NodeCache({ stdTTL: 10, checkperiod: 20 })]: seconds. *)
Definition stdTTL : Z := 10.

(** [pLimit(3)]. *)
Definition concurrency : nat := 3.

(** Modelled from the spec: the cache (the node-cache package, not part of
    the repository) maps a key to a value and the time it expires, in
    milliseconds; an entry counts as absent once [now >= expiresAt], and
    expiry is evaluated at lookup time. *)
Definition cache_get (c : gmap string (Json * Z)) (key : string) (now : Z)
  : Json :=
  match c !! key with
  | Some (v, expiresAt) => if now <? expiresAt then v else JUndefined
  | None => JUndefined
  end.

(** Modelled from the spec: storing a value under [key] sets its expiry to
    [now + TTL] and replaces an earlier entry. *)
Definition cache_set (c : gmap string (Json * Z)) (key : string) (v : Json)
           (now : Z) : gmap string (Json * Z) :=
  <[key := (v, now + stdTTL * 1000)]> c.

(** One call of [fetchWithCache] that went to the gate: the number of the
    call and its [url]. *)
Record Task : Type := mkTask {
  taskId : nat;
  url : string
}.

(** The service between two turns of the event loop. *)
Record State : Type := mkState {
  cache : gmap string (Json * Z);
  now : Z;                               (* the clock, in milliseconds *)
  activeCount : nat;                     (* gate: slots taken *)
  queue : list Task;                     (* gate: callers waiting, oldest first *)
  running : list Task;                   (* bodies started, awaiting axios.get *)
  axiosCalls : list (nat * string);      (* every [axios.get(url)], by call *)
  releases : list nat;                   (* gate: calls whose slot was given back *)
  settled : list (nat * Completion Json);(* what each finished call returned *)
  nextId : nat                           (* calls of [fetchWithCache] so far *)
}.

Definition init : State := mkState ∅ 0 0 [] [] [] [] [] 0.

(** The body handed to [limit] starts: it logs the miss and issues
    [axios.get(url)], then waits for the response holding a slot. *)
Definition start_task (t : Task) (s : State) : State :=
  mkState (cache s) (now s) (S (activeCount s)) (queue s) (running s ++ [t])
          (axiosCalls s ++ [(taskId t, url t)]) (releases s) (settled s)
          (nextId s).

(** Modelled from the spec: [limit(task)] of the p-limit package (not part
    of the repository): with fewer than [concurrency] tasks running the
    task starts at once, otherwise it waits at the end of the queue. *)
Definition limit (t : Task) (s : State) : State :=
  if (activeCount s <? concurrency)%nat then start_task t s
  else mkState (cache s) (now s) (activeCount s) (queue s ++ [t]) (running s)
               (axiosCalls s) (releases s) (settled s) (nextId s).

(** Modelled from the spec: when a started task settles its slot is given
    back, once, and goes to the caller that has waited longest. *)
Definition release (id : nat) (s : State) : State :=
  let s1 := mkState (cache s) (now s) (pred (activeCount s)) (queue s)
                    (running s) (axiosCalls s) (releases s ++ [id]) (settled s)
                    (nextId s) in
  match queue s1 with
  | [] => s1
  | t :: waiting =>
      start_task t
        (mkState (cache s1) (now s1) (activeCount s1) waiting (running s1)
                 (axiosCalls s1) (releases s1) (settled s1) (nextId s1))
  end.

Definition settle (id : nat) (r : Completion Json) (s : State) : State :=
  mkState (cache s) (now s) (activeCount s) (queue s) (running s)
          (axiosCalls s) (releases s) (settled s ++ [(id, r)]) (nextId s).

(** [fetchWithCache(url)] up to its first suspension: the cache check,
    and on a miss the hand-over to [limit]. *)
Definition fetchWithCache (u : string) (s : State) : State :=
  let id := nextId s in
  let s1 := mkState (cache s) (now s) (activeCount s) (queue s) (running s)
                    (axiosCalls s) (releases s) (settled s) (S id) in
  let cached := cache_get (cache s1) u (now s1) in
  if truthy cached then settle id (Return cached) s1
  else limit (mkTask id u) s1.

Definition find_running (id : nat) (s : State) : option Task :=
  List.find (fun t => (taskId t =? id)%nat) (running s).

Definition remove_running (id : nat) (s : State) : State :=
  mkState (cache s) (now s) (activeCount s) (queue s)
          (List.filter (fun t => negb (taskId t =? id)%nat) (running s))
          (axiosCalls s) (releases s) (settled s) (nextId s).

(** The rest of the body of call [id], once [axios.get] answers: on a
    response the data is cached and returned; on a rejection the error
    leaves the body as it came.  Either way the task has settled and the
    gate gives its slot back.  An answer for a call that is not running
    changes nothing. *)
Definition respond (id : nat) (o : Outcome Json) (s : State) : State :=
  match find_running id s with
  | None => s
  | Some t =>
      let s1 := remove_running id s in
      let s2 :=
        match o with
        | Resolved data =>
            settle id (Return data)
              (mkState (cache_set (cache s1) (url t) data (now s1)) (now s1)
                       (activeCount s1) (queue s1) (running s1) (axiosCalls s1)
                       (releases s1) (settled s1) (nextId s1))
        | Rejected err => settle id (Throw err) s1
        end in
      release id s2
  end.

Definition tick (dt : N) (s : State) : State :=
  mkState (cache s) (now s + Z.of_N dt) (activeCount s) (queue s) (running s)
          (axiosCalls s) (releases s) (settled s) (nextId s).

(** What happens to the service: a caller invokes [fetchWithCache], the
    upstream answers a call in flight, or time passes. *)
Inductive Event : Type :=
| Call (u : string)
| Respond (id : nat) (o : Outcome Json)
| Tick (dt : N).

Definition step (s : State) (e : Event) : State :=
  match e with
  | Call u => fetchWithCache u s
  | Respond id o => respond id o s
  | Tick dt => tick dt s
  end.

Definition run_events (evs : list Event) (s : State) : State :=
  fold_left step evs s.

(** *** Notions used to state the properties *)

(** The calls that were started, in the order they started. *)
Definition started (s : State) : list nat := map fst (axiosCalls s).

Definition ids (ts : list Task) : list nat := map taskId ts.

(** The entry of [key], if it has one that has not expired. *)
Definition live_entry (s : State) (key : string) : option Json :=
  match cache s !! key with
  | Some (v, expiresAt) => if now s <? expiresAt then Some v else None
  | None => None
  end.

(** The bookkeeping of the gate and of the calls is in order. *)
Record gate_ok (s : State) : Prop := mkGateOk {
  ok_active : activeCount s = length (running s);
  ok_bound : (length (running s) <= concurrency)%nat;
  ok_full : queue s <> [] -> length (running s) = concurrency;
  ok_fifo : StronglySorted lt (started s ++ ids (queue s));
  ok_fresh : Forall (fun id => (id < nextId s)%nat) (started s ++ ids (queue s));
  ok_slots : Permutation (started s) (releases s ++ ids (running s));
  ok_calls : Permutation (seq 0 (nextId s))
             (map fst (settled s) ++ ids (running s) ++ ids (queue s));
  ok_released : Forall (fun id => In id (map fst (settled s))) (releases s)
}.

(** The upstream answers calls that are in flight, one after the other. *)
Fixpoint answers (s : State) (rs : list (nat * Outcome Json)) : Prop :=
  match rs with
  | [] => True
  | (id, o) :: rs' => In id (ids (running s)) /\ answers (respond id o s) rs'
  end.

Definition respond_all (rs : list (nat * Outcome Json)) (s : State) : State :=
  fold_left (fun s r => respond (fst r) (snd r) s) rs s.

End XavenFactory.

(* ================================================================== *)
(** * Concrete runs *)
(* ================================================================== *)

Module Scenario.

(** The remote side counts the calls it has answered; [uuidv4] always
    hands out the same identifier. *)
Definition uuid : nat -> string * nat :=
  fun w => ("f47ac10b-58cc-4372-a567-0e02b2c3d479", w).

Definition networkError : Error := mkError "Network error".
Definition unavailable : Error := mkError "Service unavailable".

Definition tablet : XavenAiEngine.XavenAiParsedResult :=
  XavenAiEngine.mkParsed "tablet" (Some "Samsung") (Some 800) (Some "standard").

Definition quote : XavenPurchaseOptimizer.XavenOptimizationResult :=
  XavenPurchaseOptimizer.mkResult None [].

(** Fails [fails] times, then succeeds. *)
Definition flakyParse (fails : nat) (_ : XavenAiEngine.Payload) (w : nat)
  : Outcome XavenAiEngine.XavenAiParsedResult * nat :=
  (if (w <? fails)%nat then Rejected networkError else Resolved tablet, S w).

Definition flakyOptimize (fails : nat) (_ : XavenPurchaseOptimizer.Payload)
           (w : nat)
  : Outcome XavenPurchaseOptimizer.XavenOptimizationResult * nat :=
  (if (w <? fails)%nat then Rejected networkError else Resolved quote, S w).

(** Always fails. *)
Definition downParse (_ : XavenAiEngine.Payload) (w : nat)
  : Outcome XavenAiEngine.XavenAiParsedResult * nat :=
  (Rejected unavailable, S w).

Definition downOptimize (_ : XavenPurchaseOptimizer.Payload) (w : nat)
  : Outcome XavenPurchaseOptimizer.XavenOptimizationResult * nat :=
  (Rejected unavailable, S w).

Definition aiConfig (n : Z) : XavenAiEngine.XavenAiEngineConfig :=
  XavenAiEngine.mkConfig "https://api.xaven.com/ai-parse" 5000 "en" n [].

Definition optimizerConfig (n : Z)
  : XavenPurchaseOptimizer.XavenPurchaseOptimizerConfig :=
  XavenPurchaseOptimizer.mkConfig "https://api.xaven.com/purchase-optimize"
    7000 None false n [].

(** A call made while the context of request "req-1" is active. *)
Definition activeContext : XavenContext.XavenContextData :=
  XavenContext.mkContext "req-1" (Some "user-123").

Definition aiInScope : XavenAiEngine.Process nat :=
  XavenAiEngine.mkProcess (Some activeContext) 0%nat [].

Definition optimizerInScope : XavenPurchaseOptimizer.Process nat :=
  XavenPurchaseOptimizer.mkProcess (Some activeContext) 0%nat [].

(** A call made outside any request. *)
Definition aiOutside : XavenAiEngine.Process nat :=
  XavenAiEngine.mkProcess None 0%nat [].

Definition optimizerOutside : XavenPurchaseOptimizer.Process nat :=
  XavenPurchaseOptimizer.mkProcess None 0%nat [].

(** The payloads the clients post when called in scope. *)
Definition sentByParse : list XavenAiEngine.Payload :=
  match XavenAiEngine.parseUserQuery uuid (flakyParse 0) 3
          XavenAiEngine.defaultConfig "Need a laptop under 1500" None aiInScope
  with
  | Some (_, p') => XavenAiEngine.postCalls p'
  | None => []
  end.

Definition sentByOptimize : list XavenPurchaseOptimizer.Payload :=
  match XavenPurchaseOptimizer.optimizePurchase uuid (flakyOptimize 0) 3
          XavenPurchaseOptimizer.defaultConfig tablet (Some "user-123")
          optimizerInScope
  with
  | Some (_, p') => XavenPurchaseOptimizer.postCalls p'
  | None => []
  end.

(** Two requests whose handlers observe the context at once and again
    from a timer; the timers fire in the reverse order. *)
Definition zeros : nat -> Byte.byte := fun _ => Byte.x00.

Definition requestA : XavenContext.Request :=
  XavenContext.mkRequest
    {[ "x-correlation-id" := XavenContext.HString "   trimmed-correlation-id   " ]}
    (Some "user-123").

Definition requestB : XavenContext.Request :=
  XavenContext.mkRequest ∅ None.

Definition handler : XavenContext.Code :=
  XavenContext.Observe (fun _ =>
    XavenContext.Defer (XavenContext.Observe (fun _ => XavenContext.Done))
                       XavenContext.Done).

Definition twoRequests : list XavenContext.Event :=
  [ XavenContext.Arrive requestA zeros handler;
    XavenContext.Arrive requestB zeros handler;
    XavenContext.Background handler;
    XavenContext.Fire 1; XavenContext.Fire 0; XavenContext.Fire 0 ].

(** Ten calls for ten resources hit the gate together; the upstream then
    answers them. *)
Definition tenCalls : list XavenFactory.Event :=
  map (fun i => XavenFactory.Call (string_of_number (Z.of_nat i))) (seq 0 10).

Definition tenAnswers : list (nat * Outcome XavenFactory.Json) :=
  [ (1, Resolved XavenFactory.JNull); (0, Rejected unavailable);
    (3, Resolved (XavenFactory.JNumber 3)); (2, Resolved (XavenFactory.JBool true));
    (4, Resolved XavenFactory.JNull); (5, Resolved XavenFactory.JNull);
    (7, Rejected networkError); (6, Resolved XavenFactory.JNull);
    (8, Resolved XavenFactory.JNull); (9, Resolved XavenFactory.JNull) ]%nat.

Definition post789 : XavenFactory.Json :=
  XavenFactory.JObject [("id", XavenFactory.JNumber 789);
                        ("title", XavenFactory.JString "Cached Post")].

Definition url789 : string := "https://api.xavenai.com//789".

Definition url456 : string := "https://api.xavenai.com//456".

End Scenario.

(* ================================================================== *)
(** * packages/lib/xaven-ai-engine.ts: the constructor *)
(* ================================================================== *)

Module XavenAiEngineCtor.
Import XavenAiEngine.

(** [Partial<XavenAiEngineConfig>]: every field may be left out. *)
Record PartialConfig : Type := mkPartial {
  endpointUrl_opt : option string;
  requestTimeoutMs_opt : option Z;
  defaultLanguage_opt : option string;
  retryCount_opt : option Z;
  additionalHeaders_opt : option (list (string * string))
}.

(** [a ?? b]: only [undefined] gives way to [b]. *)
Definition nullish {A : Type} (a : option A) (b : A) : A :=
  match a with
  | Some x => x
  | None => b
  end.

(** [finalConfig] of [new XavenAiEngine(config)]; [config] itself may be
    left out. *)
Definition finalConfig (config : option PartialConfig) : XavenAiEngineConfig :=
  mkConfig
    (nullish (config ≫= endpointUrl_opt) "https://api.xaven.com/ai-parse")
    (nullish (config ≫= requestTimeoutMs_opt) 5000)
    (nullish (config ≫= defaultLanguage_opt) "en")
    (nullish (config ≫= retryCount_opt) 2)
    (nullish (config ≫= additionalHeaders_opt) []).

End XavenAiEngineCtor.

(* ================================================================== *)
(** * packages/lib/xaven-purchase-optimizer.ts: the constructor and
      [forceCacheInvalidation] *)
(* ================================================================== *)

Module XavenPurchaseOptimizerCtor.
Import XavenPurchaseOptimizer.

Record PartialConfig : Type := mkPartial {
  endpointUrl_opt : option string;
  requestTimeoutMs_opt : option Z;
  concurrencyOverride_opt : option Z;
  enableCacheInvalidation_opt : option bool;
  retryCount_opt : option Z;
  additionalHeaders_opt : option (list (string * string))
}.

Definition finalConfig (config : option PartialConfig)
  : XavenPurchaseOptimizerConfig :=
  mkConfig
    (XavenAiEngineCtor.nullish (config ≫= endpointUrl_opt)
       "https://api.xaven.com/purchase-optimize")
    (XavenAiEngineCtor.nullish (config ≫= requestTimeoutMs_opt) 7000)
    (config ≫= concurrencyOverride_opt)
    (XavenAiEngineCtor.nullish (config ≫= enableCacheInvalidation_opt) false)
    (XavenAiEngineCtor.nullish (config ≫= retryCount_opt) 2)
    (XavenAiEngineCtor.nullish (config ≫= additionalHeaders_opt) []).

(** The HTTP client as [forceCacheInvalidation] uses it: the state of
    the remote side and the [delete] requests sent so far, each with its
    path and the [reason] in its body. *)
Record CacheClient (W : Type) : Type := mkCacheClient {
  remote : W;
  deleteCalls : list (string * string)
}.
Arguments mkCacheClient {W}.
Arguments remote {W}.
Arguments deleteCalls {W}.

Section Invalidation.
Context {W D : Type}.
(** [this.state.client.delete(path, { data: { reason } })], awaited. *)
Variable delete : string -> string -> W -> Outcome D * W.

Definition client_delete (path reason : string) (c : CacheClient W)
  : Outcome D * CacheClient W :=
  let '(o, w') := delete path reason (remote c) in
  (o, mkCacheClient w' (deleteCalls c ++ [(path, reason)])).

(** [forceCacheInvalidation(reason)]: nothing is sent when invalidation
    is disabled; otherwise one request, whose failure is caught. *)
Definition forceCacheInvalidation (cfg : XavenPurchaseOptimizerConfig)
           (reason : string) (c : CacheClient W)
  : Completion unit * CacheClient W :=
  if negb (enableCacheInvalidation cfg) then (Return tt, c)
  else
    match client_delete "/cache" reason c with
    | (Resolved _, c') => (Return tt, c')
    | (Rejected _, c') => (Return tt, c')
    end.

End Invalidation.

End XavenPurchaseOptimizerCtor.

(* ================================================================== *)
(** * packages/core/xaven-factory.ts: the services and the routes *)
(* ================================================================== *)

Module XavenFactoryRoutes.
Import XavenFactory.

Definition EXTERNAL_API_URL : string := "https://api.xavenai.com/".

(** [Number.isSafeInteger(id)]: the integers a JavaScript number holds
    exactly, and prints in plain decimal. *)
Definition safeInteger (id : Z) : Prop := Z.abs id <= 9007199254740991.

(** [`${EXTERNAL_API_URL}/${id}`], for a safe integer [id]. *)
Definition postUrl (id : Z) : string :=
  EXTERNAL_API_URL +:+ "/" +:+ string_of_number id.

(** [getPostById(id)] up to its [await]: the call of [fetchWithCache],
    which gets the number [nextId s]; the function returns what that
    call settles with. *)
Definition getPostById (id : Z) (s : State) : State :=
  fetchWithCache (postUrl id) s.

(** [getPostsInBulk(ids)] up to its [Promise.all]: [ids.map] makes the
    calls one after the other, numbered from [nextId s]. *)
Definition getPostsInBulk (ids : list Z) (s : State) : State :=
  fold_left (fun s id => getPostById id s) ids s.

(** The first rejection among [calls], in the order of settlement. *)
Fixpoint first_rejection (calls : list nat)
         (done : list (nat * Completion Json)) : option Error :=
  match done with
  | [] => None
  | (id, Throw e) :: rest =>
      if existsb (Nat.eqb id) calls then Some e else first_rejection calls rest
  | (_, Return _) :: rest => first_rejection calls rest
  end.

(** The value call [id] returned, if it has returned one. *)
Fixpoint value_of (id : nat) (done : list (nat * Completion Json))
  : option Json :=
  match done with
  | [] => None
  | (id', Return v) :: rest => if (id' =? id)%nat then Some v else value_of id rest
  | (_, Throw _) :: rest => value_of id rest
  end.

Fixpoint values_of (calls : list nat) (done : list (nat * Completion Json))
  : option (list Json) :=
  match calls with
  | [] => Some []
  | id :: calls' =>
      match value_of id done, values_of calls' done with
      | Some v, Some vs => Some (v :: vs)
      | _, _ => None
      end
  end.

(** [Promise.all] over the promises of [calls], as ECMAScript defines it:
    rejected with the first rejection to occur; fulfilled, once all have
    fulfilled, with the values in the order of [calls]; pending ([None])
    otherwise. *)
Definition promise_all (calls : list nat) (done : list (nat * Completion Json))
  : option (Completion (list Json)) :=
  match first_rejection calls done with
  | Some e => Some (Throw e)
  | None => option_map Return (values_of calls done)
  end.

(** One issue of a [ZodError]: one with a message the schema itself
    supplies, or a type mismatch worded by the zod package. *)
Inductive ZodIssue : Type :=
| CustomIssue (message : string)
| TypeIssue.

(** What a route can throw: a [XavenError] ([statusCode] is 400 unless
    given), a [ZodError], or anything else. *)
Inductive Thrown : Type :=
| XavenError (message : string) (statusCode : Z) (details : option Json)
| ZodError (issues : list ZodIssue)
| OtherError (e : Error).   (* not a XavenError, and not named "ZodError" *)

(** The JSON bodies the service answers with. *)
Inductive Body : Type :=
| PostBody (data : Json)                       (* { success: true, data } *)
| BulkBody (count : nat) (data : list Json)    (* { success: true, count, data } *)
| ErrorBody (error : string) (details : option Json)
| ValidationBody (issues : list ZodIssue)      (* error: "Validation failed" *)
| InternalErrorBody.                           (* error: "Internal Server Error" *)

Record Response : Type := mkResponse {
  status : Z;
  body : Body
}.

(** The error-handling middleware. *)
Definition errorHandler (error : Thrown) : Response :=
  match error with
  | XavenError message statusCode details =>
      mkResponse statusCode (ErrorBody message details)
  | ZodError issues => mkResponse 400 (ValidationBody issues)
  | OtherError _ => mkResponse 500 InternalErrorBody
  end.

(** A value of [req.query.postId]: a string, or an array or nested
    object; [None] stands for a missing parameter. *)
Inductive QueryValue : Type :=
| QString (s : string)
| QOther.

Definition isDigit (c : ascii) : bool :=
  let n := N_of_ascii c in ((48 <=? n) && (n <=? 57))%N.

Fixpoint allDigits (s : string) : bool :=
  match s with
  | EmptyString => true
  | String c s' => isDigit c && allDigits s'
  end.

(** [/^\d+$/.test(s)]. *)
Definition numericString (s : string) : bool :=
  match s with
  | EmptyString => false
  | String _ _ => allDigits s
  end.

(** [postByIdQuerySchema.parse(req.query)]: the [postId] on success, the
    [ZodError] it throws otherwise. *)
Definition postByIdQuerySchema_parse (postId : option QueryValue)
  : Thrown + string :=
  match postId with
  | Some (QString s) =>
      if numericString s then inr s
      else inl (ZodError [CustomIssue "postId must be a numeric string"])
  | Some QOther => inl (ZodError [TypeIssue])
  | None => inl (ZodError [TypeIssue])
  end.

Fixpoint digitsValue (acc : Z) (s : string) : Z :=
  match s with
  | EmptyString => acc
  | String c s' => digitsValue (10 * acc + (Z.of_N (N_of_ascii c) - 48)) s'
  end.

(** [parseInt(s, 10)] for a string of decimal digits.  JavaScript gives
    this integer exactly for up to 15 digits; for longer strings it
    rounds to a double, which is not modelled. *)
Definition parseInt10 (s : string) : Z := digitsValue 0 s.

(** Where a route handler stands after its synchronous part: it has
    answered, or it awaits the calls it made. *)
Inductive RouteStep : Type :=
| Responded (r : Response)
| AwaitingPost (call : nat) (postId : string)
| AwaitingPosts (calls : list nat).

(** [GET /post-by-id] up to its [await]. *)
Definition postByIdRoute (postId : option QueryValue) (s : State)
  : RouteStep * State :=
  match postByIdQuerySchema_parse postId with
  | inl error => (Responded (errorHandler error), s)
  | inr postId =>
      let numericId := parseInt10 postId in
      (AwaitingPost (nextId s) postId, getPostById numericId s)
  end.

(** [GET /post-by-id] from its [await] on: [post] is what the call
    settled with. *)
Definition postByIdRoute_resume (postId : string) (post : Completion Json)
  : Response :=
  match post with
  | Return post =>
      if negb (truthy post) then
        errorHandler
          (XavenError ("Post with ID " +:+ postId +:+ " not found") 404 None)
      else mkResponse 200 (PostBody post)
  | Throw e => errorHandler (OtherError e)
  end.

(** An element of [req.body.postIds]: a number, here an integer, or
    something else. *)
Inductive BodyItem : Type :=
| ItemNumber (n : Z)
| ItemOther.

Fixpoint numbers_of (items : list BodyItem) : option (list Z) :=
  match items with
  | [] => Some []
  | ItemNumber n :: items' => option_map (cons n) (numbers_of items')
  | ItemOther :: _ => None
  end.

(** [bulkFetchSchema.parse(req.body)]; [None] stands for a [postIds] that
    is missing or not an array. *)
Definition bulkFetchSchema_parse (postIds : option (list BodyItem))
  : Thrown + list Z :=
  match postIds with
  | None => inl (ZodError [TypeIssue])
  | Some [] => inl (ZodError [CustomIssue "Must provide at least one postId."])
  | Some items =>
      match numbers_of items with
      | Some ids => inr ids
      | None => inl (ZodError [TypeIssue])
      end
  end.

(** [POST /bulk-fetch] up to its [await]. *)
Definition bulkFetchRoute (postIds : option (list BodyItem)) (s : State)
  : RouteStep * State :=
  match bulkFetchSchema_parse postIds with
  | inl error => (Responded (errorHandler error), s)
  | inr ids =>
      (AwaitingPosts (seq (nextId s) (length ids)), getPostsInBulk ids s)
  end.

(** [POST /bulk-fetch] from its [await] on. *)
Definition bulkFetchRoute_resume (posts : Completion (list Json)) : Response :=
  match posts with
  | Return posts => mkResponse 200 (BulkBody (length posts) posts)
  | Throw e => errorHandler (OtherError e)
  end.

End XavenFactoryRoutes.

(* ================================================================== *)
(** * packages/core/interfaces/dependency-injector.ts *)
(* ================================================================== *)

Module DependencyInjector.
Import XavenFactory.

(** [Token<T> = string | symbol].  A symbol is told apart by its
    identity [id]; [description] is what [String(token)] prints. *)
Inductive Token : Type :=
| TString (s : string)
| TSymbol (id : nat) (description : string).

Definition token_eqb (a b : Token) : bool :=
  match a, b with
  | TString s, TString s' => String.eqb s s'
  | TSymbol i _, TSymbol j _ => (i =? j)%nat
  | _, _ => false
  end.

(** [String(token)]. *)
Definition string_of_token (t : Token) : string :=
  match t with
  | TString s => s
  | TSymbol _ description => "Symbol(" +:+ description +:+ ")"
  end.

(** A factory function [() => T]: it may change the world, return a
    value or throw.  [label] names it in the record of invocations. *)
Record Factory (W : Type) : Type := mkFactory {
  label : string;
  invoke : W -> Completion Json * W
}.
Arguments mkFactory {W}.
Arguments label {W}.
Arguments invoke {W}.

(** The provider objects that take no argument in [get()], with their
    private fields.  A value is any JavaScript value, here [Json]. *)
Inductive Provider (W : Type) : Type :=
| ValueProvider (value : Json)
| SingletonProvider (instance : Json) (factory : Factory W)
| FactoryProvider (factory : Factory W).
Arguments ValueProvider {W}.
Arguments SingletonProvider {W}.
Arguments FactoryProvider {W}.

(** [new SingletonProvider(factory)]: [instance] starts as [null]. *)
Definition newSingletonProvider {W : Type} (factory : Factory W) : Provider W :=
  SingletonProvider JNull factory.

(** The objects alive ([heap], a provider is referred to by its index),
    the [providers] map of one [SimpleInjector] in insertion order, the
    world the factories act on, and the factories invoked so far. *)
Record Injector (W : Type) : Type := mkInjector {
  heap : list (Provider W);
  providers : list (Token * nat);
  world : W;
  invoked : list string
}.
Arguments mkInjector {W}.
Arguments heap {W}.
Arguments providers {W}.
Arguments world {W}.
Arguments invoked {W}.

Section Injection.
Context {W : Type}.

(** [new ...Provider(...)]: the new object and the reference to it. *)
Definition allocate (p : Provider W) (st : Injector W) : nat * Injector W :=
  (length (heap st),
   mkInjector (heap st ++ [p]) (providers st) (world st) (invoked st)).

(** [this.providers.get(token)]. *)
Fixpoint map_get (token : Token) (m : list (Token * nat)) : option nat :=
  match m with
  | [] => None
  | (k, ref) :: m' => if token_eqb k token then Some ref else map_get token m'
  end.

(** [this.providers.has(token)]. *)
Definition map_has (token : Token) (m : list (Token * nat)) : bool :=
  match map_get token m with
  | Some _ => true
  | None => false
  end.

(** [register(token, provider)], [provider] given by reference. *)
Definition register (token : Token) (provider : nat) (st : Injector W)
  : Completion unit * Injector W :=
  if map_has token (providers st) then
    (Throw (mkError ("Provider for token " +:+ string_of_token token
                       +:+ " is already registered.")), st)
  else
    (Return tt,
     mkInjector (heap st) (providers st ++ [(token, provider)]) (world st)
                (invoked st)).

Definition call_factory (f : Factory W) (st : Injector W)
  : Completion Json * Injector W :=
  let '(r, w') := invoke f (world st) in
  (r, mkInjector (heap st) (providers st) w' (invoked st ++ [label f])).

(** [provider.get()] for the object at [ref], which is [p]. *)
Definition provider_get (ref : nat) (p : Provider W) (st : Injector W)
  : Completion Json * Injector W :=
  match p with
  | ValueProvider value => (Return value, st)
  | SingletonProvider instance factory =>
      if negb (truthy instance) then
        match call_factory factory st with
        | (Return v, st') =>
            (Return v,
             mkInjector (<[ref := SingletonProvider v factory]> (heap st'))
                        (providers st') (world st') (invoked st'))
        | (Throw e, st') => (Throw e, st')
        end
      else (Return instance, st)
  | FactoryProvider factory => call_factory factory st
  end.

(** [resolve(token)].  A reference to no object stands for a provider
    that is [undefined]. *)
Definition resolve (token : Token) (st : Injector W)
  : Completion Json * Injector W :=
  match map_get token (providers st) ≫= (fun ref =>
          heap st !! ref ≫= (fun p => Some (ref, p))) with
  | None =>
      (Throw (mkError ("No provider found for token: "
                         +:+ string_of_token token)), st)
  | Some (ref, p) => provider_get ref p st
  end.

(** [n] calls of [resolve(token)] one after the other. *)
Fixpoint resolve_times (n : nat) (token : Token) (st : Injector W)
  : list (Completion Json) * Injector W :=
  match n with
  | O => ([], st)
  | S n' =>
      let '(r, st1) := resolve token st in
      let '(rs, st2) := resolve_times n' token st1 in
      (r :: rs, st2)
  end.

End Injection.

(** [ScopedProvider]: its [get] takes the scope, so it is used on its
    own.  [instances] is its [Map<string, T>]. *)
Record ScopedProvider (W : Type) : Type := mkScoped {
  instances : list (string * Json);
  scopedFactory : string -> W -> Completion Json * W
}.
Arguments mkScoped {W}.
Arguments instances {W}.
Arguments scopedFactory {W}.

Fixpoint instances_get (scope : string) (m : list (string * Json))
  : option Json :=
  match m with
  | [] => None
  | (k, v) :: m' => if String.eqb k scope then Some v else instances_get scope m'
  end.

(** [get(scope)] of a [ScopedProvider]; the world comes back with the
    scopes the factory was invoked for appended to [log]. *)
Definition scoped_get {W : Type} (scope : string)
           (sp : ScopedProvider W) (w : W) (log : list string)
  : Completion Json * ScopedProvider W * W * list string :=
  match instances_get scope (instances sp) with
  | Some v => (Return v, sp, w, log)
  | None =>
      match scopedFactory sp scope w with
      | (Return v, w') =>
          (Return v, mkScoped (instances sp ++ [(scope, v)]) (scopedFactory sp),
           w', log ++ [scope])
      | (Throw e, w') => (Throw e, sp, w', log ++ [scope])
      end
  end.

End DependencyInjector.

(* ================================================================== *)
(** * More concrete runs *)
(* ================================================================== *)

Module MoreRuns.
Import XavenFactory DependencyInjector.

(** A [delete] endpoint that is down. *)
Definition downDelete (_ _ : string) (w : nat) : Outcome Json * nat :=
  (Rejected Scenario.unavailable, S w).

Definition invalidationOn : XavenPurchaseOptimizer.XavenPurchaseOptimizerConfig :=
  XavenPurchaseOptimizer.mkConfig "https://api.xaven.com/purchase-optimize"
    7000 None true 2 [].

Definition freshClient : XavenPurchaseOptimizerCtor.CacheClient nat :=
  XavenPurchaseOptimizerCtor.mkCacheClient 0%nat [].

(** A config that sets the retry ceiling to 0 and the default language
    to the empty string. *)
Definition zeroRetries : XavenAiEngineCtor.PartialConfig :=
  XavenAiEngineCtor.mkPartial None None (Some "") (Some 0) None.

(** A request with a user id and one with an empty user id. *)
Definition requestWithUser : XavenContext.Request :=
  XavenContext.mkRequest ∅ (Some "user-123").

Definition requestWithEmptyUser : XavenContext.Request :=
  XavenContext.mkRequest ∅ (Some "").

(** The service with call 0, for post 789, in flight. *)
Definition oneInFlight : State :=
  XavenFactoryRoutes.getPostById 789 init.

(** Two, and four, calls for post 789 made at once. *)
Definition twoInFlight : State :=
  XavenFactoryRoutes.getPostsInBulk [789; 789] init.

Definition fourForOne : State :=
  XavenFactoryRoutes.getPostsInBulk [789; 789; 789; 789] init.

(** Factories: one counts its invocations and returns the count, one
    always returns [null]. *)
Definition counter : Factory nat :=
  mkFactory "counter" (fun w => (Return (JNumber (Z.of_nat (S w))), S w)).

Definition nothing : Factory nat :=
  mkFactory "nothing" (fun w => (Return JNull, w)).

Definition emptyInjector : Injector nat := mkInjector [] [] 0%nat [].

Definition configToken : Token := TString "config".
Definition serviceToken : Token := TSymbol 1 "service".

(** An injector with a singleton of [counter] under two tokens, a
    singleton of [nothing] and a factory provider of [counter]. *)
Definition wired : Injector nat :=
  mkInjector
    [newSingletonProvider counter; newSingletonProvider nothing;
     FactoryProvider counter]
    [(serviceToken, 0%nat); (TString "alias", 0%nat); (TString "nothing", 1%nat);
     (TString "fresh", 2%nat)]
    0%nat [].

Definition perTenant : ScopedProvider nat :=
  mkScoped [] (fun scope w => (Return (JString scope), S w)).

End MoreRuns.
(** One script settles the loop of either client: [post], [step] and
    [world] name the client at hand. *)
Ltac unroll_replay H post payload w :=
  match type of H with
  | replay post payload (S ?n) w = _ =>
      change (replay post payload (S n) w)
        with (let '(o, w1) := post payload w in
              let '(os, w2) := replay post payload n w1 in
              (o :: os, w2)) in H
  end.

(** Turns a goal about permutations of call numbers into one about
    numbers of occurrences, with the permutations at hand as equations. *)
Ltac by_counting :=
  repeat match goal with
         | H : Permutation _ _ |- _ =>
             rewrite (Permutation_count_occ Nat.eq_dec) in H
         end;
  apply (Permutation_count_occ Nat.eq_dec); intros x;
  repeat match goal with
         | H : forall y : nat, count_occ Nat.eq_dec _ y = _ |- _ =>
             specialize (H x)
         | H : forall y : nat, (count_occ Nat.eq_dec _ y <= _)%nat |- _ =>
             specialize (H x)
         end;
  unfold XavenFactory.started, XavenFactory.ids in *;
  repeat first
    [ rewrite seq_S in *
    | rewrite map_app in *
    | rewrite count_occ_app in *
    | progress cbn [map count_occ fst XavenFactory.taskId] in * ];
  repeat match goal with
         | |- context [Nat.eq_dec ?a ?b] => destruct (Nat.eq_dec a b)
         | H : context [Nat.eq_dec ?a ?b] |- _ => destruct (Nat.eq_dec a b)
         end;
  repeat match goal with
         | H : @eq nat ?a ?b |- _ =>
             first [ is_var a; subst a | is_var b; subst b ]
         end;
  try lia.

(** Reads the fields of a state that is written out. *)
Ltac fields :=
  unfold XavenFactory.started, XavenFactory.ids in *;
  cbn [XavenFactory.cache XavenFactory.now XavenFactory.activeCount
       XavenFactory.queue XavenFactory.running XavenFactory.axiosCalls
       XavenFactory.releases XavenFactory.settled XavenFactory.nextId
       XavenFactory.settle XavenFactory.start_task
       XavenFactory.taskId XavenFactory.url] in *.

(* ================================================================== *)
(** * Properties *)
(* ================================================================== *)

(** ** The retry loop of both clients *)

(** ** Strings *)

Lemma prefix_append (t b : string) : String.prefix t (t +:+ b) = true.
Proof.
  induction t as [|c t IH]; simpl.
  - destruct b; reflexivity.
  - destruct (ascii_dec c c) as [_|Hne]; [exact IH | congruence].
Qed.

Lemma includes_of_prefix (s t : string) :
  String.prefix t s = true -> includes s t = true.
Proof. destruct s; cbn [includes]; intros ->; reflexivity. Qed.

Lemma includes_append (a t b : string) : includes (a +:+ t +:+ b) t = true.
Proof.
  induction a as [|c a IH].
  - change ("" +:+ t +:+ b) with (t +:+ b).
    apply includes_of_prefix, prefix_append.
  - change (String c a +:+ t +:+ b) with (String c (a +:+ t +:+ b)).
    cbn [includes]. rewrite IH.
    destruct (String.prefix t (String c (a +:+ t +:+ b))); reflexivity.
Qed.

Lemma includes_skip (a s t : string) :
  includes s t = true -> includes (a +:+ s) t = true.
Proof.
  intros H. induction a as [|c a IH]; [exact H|].
  change (String c a +:+ s) with (String c (a +:+ s)).
  cbn [includes]. rewrite IH.
  destruct (String.prefix t (String c (a +:+ s))); reflexivity.
Qed.

Lemma includes_suffix (a t : string) : includes (a +:+ t) t = true.
Proof.
  replace (a +:+ t) with (a +:+ t +:+ "").
  - apply includes_append.
  - f_equal. induction t as [|c t IH]; [reflexivity|].
    change (String c t +:+ "") with (String c (t +:+ "")). now rewrite IH.
Qed.

Section RetryFacts.
Context {W : Type}.
Variable uuidv4 : W -> string * W.
Variable postA : XavenAiEngine.Payload -> W
                 -> Outcome XavenAiEngine.XavenAiParsedResult * W.
Variable postO : XavenPurchaseOptimizer.Payload -> W
                 -> Outcome XavenPurchaseOptimizer.XavenOptimizationResult * W.

Lemma last_error_cons e errs before :
  last_error (e :: errs) before = last_error errs (Some e).
Proof.
  unfold last_error. revert e before.
  induction errs as [|e' errs IH]; intros e before; [reflexivity|].
  change (map Some (e :: e' :: errs)) with (Some e :: map Some (e' :: errs)).
  change (List.last (Some e :: map Some (e' :: errs)) before)
    with (List.last (map Some (e' :: errs)) before).
  rewrite !IH. reflexivity.
Qed.

Lemma repeat_snoc {A : Type} (x : A) (n : nat) :
  [x] ++ repeat x n = repeat x (S n).
Proof. reflexivity. Qed.

Lemma ai_loop_success cfg payload errs :
  forall fuel attempts lastError p v w',
    replay postA payload (S (length errs)) (XavenAiEngine.world p)
      = (map Rejected errs ++ [Resolved v], w') ->
    attempts + Z.of_nat (length errs) < XavenAiEngine.retryCount cfg ->
    (length errs < fuel)%nat ->
    XavenAiEngine.parseUserQuery_loop postA fuel cfg payload attempts lastError p
      = Some (Return v,
              XavenAiEngine.mkProcess (XavenAiEngine.asyncStore p) w'
                (XavenAiEngine.postCalls p ++ repeat payload (S (length errs)))).
Proof.
  induction errs as [|e errs IH]; intros fuel attempts lastError p v w' Hr Hlt Hf;
    (destruct fuel as [|fuel]; [simpl in Hf; lia|]);
    cbn [length] in Hlt, Hf;
    cbn [XavenAiEngine.parseUserQuery_loop];
    (destruct (Z.ltb_spec attempts (XavenAiEngine.retryCount cfg)); [|lia]);
    unfold XavenAiEngine.client_post;
    cbn [length] in Hr; unroll_replay Hr postA payload (XavenAiEngine.world p);
    destruct (postA payload (XavenAiEngine.world p)) as [o w1].
  - simpl in Hr. inversion Hr; subst. reflexivity.
  - destruct (replay postA payload (S (length errs)) w1) as [os w2] eqn:Hrest.
    cbn [map app] in Hr. inversion Hr; subst.
    rewrite (IH fuel (attempts + 1) (Some e)
                (XavenAiEngine.mkProcess (XavenAiEngine.asyncStore p) w1
                   (XavenAiEngine.postCalls p ++ [payload])) v w');
      [| exact Hrest | lia | lia].
    cbn [XavenAiEngine.asyncStore XavenAiEngine.postCalls].
    rewrite <- app_assoc, repeat_snoc. reflexivity.
Qed.

Lemma ai_loop_exhausted cfg payload errs :
  forall fuel attempts lastError p w',
    replay postA payload (length errs) (XavenAiEngine.world p)
      = (map Rejected errs, w') ->
    attempts + Z.of_nat (length errs) = XavenAiEngine.retryCount cfg ->
    (length errs < fuel)%nat ->
    XavenAiEngine.parseUserQuery_loop postA fuel cfg payload attempts lastError p
      = Some (Throw (mkError (XavenAiEngine.terminal_message cfg
                                (last_error errs lastError))),
              XavenAiEngine.mkProcess (XavenAiEngine.asyncStore p) w'
                (XavenAiEngine.postCalls p ++ repeat payload (length errs))).
Proof.
  induction errs as [|e errs IH]; intros fuel attempts lastError p w' Hr Hlt Hf;
    (destruct fuel as [|fuel]; [simpl in Hf; lia|]);
    cbn [length] in Hlt, Hf;
    cbn [XavenAiEngine.parseUserQuery_loop].
  - destruct (Z.ltb_spec attempts (XavenAiEngine.retryCount cfg)); [lia|].
    simpl in Hr. inversion Hr; subst. destruct p; simpl.
    rewrite app_nil_r. reflexivity.
  - destruct (Z.ltb_spec attempts (XavenAiEngine.retryCount cfg)); [|lia].
    unfold XavenAiEngine.client_post.
    cbn [length] in Hr; unroll_replay Hr postA payload (XavenAiEngine.world p).
    destruct (postA payload (XavenAiEngine.world p)) as [o w1].
    destruct (replay postA payload (length errs) w1) as [os w2] eqn:Hrest.
    cbn [map] in Hr. inversion Hr; subst.
    rewrite (IH fuel (attempts + 1) (Some e)
                (XavenAiEngine.mkProcess (XavenAiEngine.asyncStore p) w1
                   (XavenAiEngine.postCalls p ++ [payload])) w');
      [| exact Hrest | lia | lia].
    cbn [XavenAiEngine.asyncStore XavenAiEngine.postCalls].
    rewrite <- app_assoc, repeat_snoc, last_error_cons. reflexivity.
Qed.

Lemma opt_loop_success cfg body errs :
  forall fuel attempts lastError p v w',
    replay postO body (S (length errs)) (XavenPurchaseOptimizer.world p)
      = (map Rejected errs ++ [Resolved v], w') ->
    attempts + Z.of_nat (length errs) < XavenPurchaseOptimizer.retryCount cfg ->
    (length errs < fuel)%nat ->
    XavenPurchaseOptimizer.optimizePurchase_loop postO fuel cfg body attempts lastError p
      = Some (Return v,
              XavenPurchaseOptimizer.mkProcess (XavenPurchaseOptimizer.asyncStore p) w'
                (XavenPurchaseOptimizer.postCalls p ++ repeat body (S (length errs)))).
Proof.
  induction errs as [|e errs IH]; intros fuel attempts lastError p v w' Hr Hlt Hf;
    (destruct fuel as [|fuel]; [simpl in Hf; lia|]);
    cbn [length] in Hlt, Hf;
    cbn [XavenPurchaseOptimizer.optimizePurchase_loop];
    (destruct (Z.ltb_spec attempts (XavenPurchaseOptimizer.retryCount cfg)); [|lia]);
    unfold XavenPurchaseOptimizer.client_post;
    cbn [length] in Hr; unroll_replay Hr postO body (XavenPurchaseOptimizer.world p);
    destruct (postO body (XavenPurchaseOptimizer.world p)) as [o w1].
  - simpl in Hr. inversion Hr; subst. reflexivity.
  - destruct (replay postO body (S (length errs)) w1) as [os w2] eqn:Hrest.
    cbn [map app] in Hr. inversion Hr; subst.
    rewrite (IH fuel (attempts + 1) (Some e)
                (XavenPurchaseOptimizer.mkProcess (XavenPurchaseOptimizer.asyncStore p) w1
                   (XavenPurchaseOptimizer.postCalls p ++ [body])) v w');
      [| exact Hrest | lia | lia].
    cbn [XavenPurchaseOptimizer.asyncStore XavenPurchaseOptimizer.postCalls].
    rewrite <- app_assoc, repeat_snoc. reflexivity.
Qed.

Lemma opt_loop_exhausted cfg body errs :
  forall fuel attempts lastError p w',
    replay postO body (length errs) (XavenPurchaseOptimizer.world p)
      = (map Rejected errs, w') ->
    attempts + Z.of_nat (length errs) = XavenPurchaseOptimizer.retryCount cfg ->
    (length errs < fuel)%nat ->
    XavenPurchaseOptimizer.optimizePurchase_loop postO fuel cfg body attempts lastError p
      = Some (Throw (mkError (XavenPurchaseOptimizer.terminal_message cfg
                                (last_error errs lastError))),
              XavenPurchaseOptimizer.mkProcess (XavenPurchaseOptimizer.asyncStore p) w'
                (XavenPurchaseOptimizer.postCalls p ++ repeat body (length errs))).
Proof.
  induction errs as [|e errs IH]; intros fuel attempts lastError p w' Hr Hlt Hf;
    (destruct fuel as [|fuel]; [simpl in Hf; lia|]);
    cbn [length] in Hlt, Hf;
    cbn [XavenPurchaseOptimizer.optimizePurchase_loop].
  - destruct (Z.ltb_spec attempts (XavenPurchaseOptimizer.retryCount cfg)); [lia|].
    simpl in Hr. inversion Hr; subst. destruct p; simpl.
    rewrite app_nil_r. reflexivity.
  - destruct (Z.ltb_spec attempts (XavenPurchaseOptimizer.retryCount cfg)); [|lia].
    unfold XavenPurchaseOptimizer.client_post.
    cbn [length] in Hr; unroll_replay Hr postO body (XavenPurchaseOptimizer.world p).
    destruct (postO body (XavenPurchaseOptimizer.world p)) as [o w1].
    destruct (replay postO body (length errs) w1) as [os w2] eqn:Hrest.
    cbn [map] in Hr. inversion Hr; subst.
    rewrite (IH fuel (attempts + 1) (Some e)
                (XavenPurchaseOptimizer.mkProcess (XavenPurchaseOptimizer.asyncStore p) w1
                   (XavenPurchaseOptimizer.postCalls p ++ [body])) w');
      [| exact Hrest | lia | lia].
    cbn [XavenPurchaseOptimizer.asyncStore XavenPurchaseOptimizer.postCalls].
    rewrite <- app_assoc, repeat_snoc, last_error_cons. reflexivity.
Qed.

Lemma replay_length {P A : Type} (post : P -> W -> Outcome A * W) payload n :
  forall w, length (fst (replay post payload n w)) = n.
Proof.
  induction n as [|n IH]; intros w; [reflexivity|].
  simpl. destruct (post payload w) as [o w1].
  specialize (IH w1). destruct (replay post payload n w1) as [os w2].
  simpl in *. congruence.
Qed.

Lemma replay_rejected_length {P A : Type} (post : P -> W -> Outcome A * W)
      payload n w (errs : list Error) w' :
  replay post payload n w = (map Rejected errs, w') -> length errs = n.
Proof.
  intros H. pose proof (replay_length post payload n w) as Hl.
  rewrite H in Hl. simpl in Hl. rewrite length_map in Hl. exact Hl.
Qed.

(** Whatever the remote side answers, the loop of [parseUserQuery] ends
    within [retryCount] iterations, and every call it makes carries the
    one payload built before the loop. *)
Lemma ai_loop_total cfg payload :
  forall fuel attempts lastError p,
    (Z.to_nat (XavenAiEngine.retryCount cfg - attempts) < fuel)%nat ->
    exists r w' n,
      XavenAiEngine.parseUserQuery_loop postA fuel cfg payload attempts lastError p
        = Some (r, XavenAiEngine.mkProcess (XavenAiEngine.asyncStore p) w'
                     (XavenAiEngine.postCalls p ++ repeat payload n))
      /\ (n <= Z.to_nat (XavenAiEngine.retryCount cfg - attempts))%nat
      /\ (attempts < XavenAiEngine.retryCount cfg -> (1 <= n)%nat).
Proof.
  induction fuel as [|fuel IH]; intros attempts lastError p Hf; [lia|].
  cbn [XavenAiEngine.parseUserQuery_loop].
  destruct (Z.ltb_spec attempts (XavenAiEngine.retryCount cfg)) as [Hlt|Hge].
  - unfold XavenAiEngine.client_post.
    destruct (postA payload (XavenAiEngine.world p)) as [[data|err] w1].
    + exists (Return data), w1, 1%nat. repeat split; [lia|lia].
    + destruct (IH (attempts + 1) (Some err)
                  (XavenAiEngine.mkProcess (XavenAiEngine.asyncStore p) w1
                     (XavenAiEngine.postCalls p ++ [payload])))
        as (r & w' & n & Heq & Hn & _); [lia|].
      exists r, w', (S n). rewrite Heq.
      cbn [XavenAiEngine.asyncStore XavenAiEngine.postCalls].
      rewrite <- app_assoc, repeat_snoc. repeat split; lia.
  - exists (Throw (mkError (XavenAiEngine.terminal_message cfg lastError))),
      (XavenAiEngine.world p), 0%nat.
    destruct p; simpl. rewrite app_nil_r. repeat split; lia.
Qed.

Lemma opt_loop_total cfg body :
  forall fuel attempts lastError p,
    (Z.to_nat (XavenPurchaseOptimizer.retryCount cfg - attempts) < fuel)%nat ->
    exists r w' n,
      XavenPurchaseOptimizer.optimizePurchase_loop postO fuel cfg body attempts lastError p
        = Some (r, XavenPurchaseOptimizer.mkProcess
                     (XavenPurchaseOptimizer.asyncStore p) w'
                     (XavenPurchaseOptimizer.postCalls p ++ repeat body n))
      /\ (n <= Z.to_nat (XavenPurchaseOptimizer.retryCount cfg - attempts))%nat
      /\ (attempts < XavenPurchaseOptimizer.retryCount cfg -> (1 <= n)%nat).
Proof.
  induction fuel as [|fuel IH]; intros attempts lastError p Hf; [lia|].
  cbn [XavenPurchaseOptimizer.optimizePurchase_loop].
  destruct (Z.ltb_spec attempts (XavenPurchaseOptimizer.retryCount cfg)) as [Hlt|Hge].
  - unfold XavenPurchaseOptimizer.client_post.
    destruct (postO body (XavenPurchaseOptimizer.world p)) as [[data|err] w1].
    + exists (Return data), w1, 1%nat. repeat split; [lia|lia].
    + destruct (IH (attempts + 1) (Some err)
                  (XavenPurchaseOptimizer.mkProcess
                     (XavenPurchaseOptimizer.asyncStore p) w1
                     (XavenPurchaseOptimizer.postCalls p ++ [body])))
        as (r & w' & n & Heq & Hn & _); [lia|].
      exists r, w', (S n). rewrite Heq.
      cbn [XavenPurchaseOptimizer.asyncStore XavenPurchaseOptimizer.postCalls].
      rewrite <- app_assoc, repeat_snoc. repeat split; lia.
  - exists (Throw (mkError (XavenPurchaseOptimizer.terminal_message cfg lastError))),
      (XavenPurchaseOptimizer.world p), 0%nat.
    destruct p; simpl. rewrite app_nil_r. repeat split; lia.
Qed.

Lemma parseUserQuery_unfold fuel cfg q lang p :
  XavenAiEngine.parseUserQuery uuidv4 postA fuel cfg q lang p
  = XavenAiEngine.parseUserQuery_loop postA fuel cfg (XavenAiEngine.payload_of uuidv4 cfg q lang p)
      0 None
      (XavenAiEngine.mkProcess (XavenAiEngine.asyncStore p)
         (snd (uuidv4 (XavenAiEngine.world p))) (XavenAiEngine.postCalls p)).
Proof.
  unfold XavenAiEngine.parseUserQuery, XavenAiEngine.call_uuidv4, XavenAiEngine.payload_of.
  destruct (uuidv4 (XavenAiEngine.world p)) as [u w1]. reflexivity.
Qed.

Lemma optimizePurchase_unfold fuel cfg parsed uid p :
  XavenPurchaseOptimizer.optimizePurchase uuidv4 postO fuel cfg parsed uid p
  = XavenPurchaseOptimizer.optimizePurchase_loop postO fuel cfg
      (XavenPurchaseOptimizer.payload_of uuidv4 cfg parsed uid p) 0 None
      (XavenPurchaseOptimizer.mkProcess (XavenPurchaseOptimizer.asyncStore p)
         (snd (uuidv4 (XavenPurchaseOptimizer.world p)))
         (XavenPurchaseOptimizer.postCalls p)).
Proof.
  unfold XavenPurchaseOptimizer.optimizePurchase,
    XavenPurchaseOptimizer.call_uuidv4, XavenPurchaseOptimizer.payload_of.
  destruct (uuidv4 (XavenPurchaseOptimizer.world p)) as [u w1]. reflexivity.
Qed.

(** C2.  With a retry ceiling [N >= 1], for either client and whatever the
    remote operation does: when its first [k < N] calls fail and call [k+1]
    succeeds with [v], the method returns [v] after exactly [k+1] calls;
    when its first [N] calls all fail, the method throws after exactly [N]
    calls.  The final process records the calls made and the world they
    left, so nothing is called after the success. *)
Theorem retry_invokes_at_most_ceiling
        (N : Z) (fuel : nat)
        (cfgA : XavenAiEngine.XavenAiEngineConfig)
        (cfgO : XavenPurchaseOptimizer.XavenPurchaseOptimizerConfig)
        (userQuery : string) (preferredLanguage : option string)
        (aiParsed : XavenAiEngine.XavenAiParsedResult) (userId : option string)
        (pA : XavenAiEngine.Process W) (pO : XavenPurchaseOptimizer.Process W) :
  1 <= N ->
  XavenAiEngine.retryCount cfgA = N ->
  XavenPurchaseOptimizer.retryCount cfgO = N ->
  (Z.to_nat N < fuel)%nat ->
  let payloadA := XavenAiEngine.payload_of uuidv4 cfgA userQuery preferredLanguage pA in
  let payloadO := XavenPurchaseOptimizer.payload_of uuidv4 cfgO aiParsed userId pO in
  let wA := snd (uuidv4 (XavenAiEngine.world pA)) in
  let wO := snd (uuidv4 (XavenPurchaseOptimizer.world pO)) in
  (forall errs v w',
      Z.of_nat (length errs) < N ->
      replay postA payloadA (S (length errs)) wA
        = (map Rejected errs ++ [Resolved v], w') ->
      XavenAiEngine.parseUserQuery uuidv4 postA fuel cfgA userQuery preferredLanguage pA
        = Some (Return v,
                XavenAiEngine.mkProcess (XavenAiEngine.asyncStore pA) w'
                  (XavenAiEngine.postCalls pA
                     ++ repeat payloadA (S (length errs)))))
  /\ (forall errs w',
      replay postA payloadA (Z.to_nat N) wA = (map Rejected errs, w') ->
      XavenAiEngine.parseUserQuery uuidv4 postA fuel cfgA userQuery preferredLanguage pA
        = Some (Throw (mkError (XavenAiEngine.terminal_message cfgA
                                  (last_error errs None))),
                XavenAiEngine.mkProcess (XavenAiEngine.asyncStore pA) w'
                  (XavenAiEngine.postCalls pA ++ repeat payloadA (Z.to_nat N))))
  /\ (forall errs v w',
      Z.of_nat (length errs) < N ->
      replay postO payloadO (S (length errs)) wO
        = (map Rejected errs ++ [Resolved v], w') ->
      XavenPurchaseOptimizer.optimizePurchase uuidv4 postO fuel cfgO aiParsed userId pO
        = Some (Return v,
                XavenPurchaseOptimizer.mkProcess
                  (XavenPurchaseOptimizer.asyncStore pO) w'
                  (XavenPurchaseOptimizer.postCalls pO
                     ++ repeat payloadO (S (length errs)))))
  /\ (forall errs w',
      replay postO payloadO (Z.to_nat N) wO = (map Rejected errs, w') ->
      XavenPurchaseOptimizer.optimizePurchase uuidv4 postO fuel cfgO aiParsed userId pO
        = Some (Throw (mkError (XavenPurchaseOptimizer.terminal_message cfgO
                                  (last_error errs None))),
                XavenPurchaseOptimizer.mkProcess
                  (XavenPurchaseOptimizer.asyncStore pO) w'
                  (XavenPurchaseOptimizer.postCalls pO
                     ++ repeat payloadO (Z.to_nat N)))).
Proof.
  intros HN HA HO Hfuel payloadA payloadO wA wO.
  repeat split.
  - intros errs v w' Hk Hr. rewrite parseUserQuery_unfold.
    apply (ai_loop_success cfgA payloadA errs fuel 0 None
             (XavenAiEngine.mkProcess (XavenAiEngine.asyncStore pA) wA
                (XavenAiEngine.postCalls pA)) v w' Hr); lia.
  - intros errs w' Hr. rewrite parseUserQuery_unfold.
    pose proof (replay_rejected_length _ _ _ _ _ _ Hr) as Hlen.
    rewrite <- Hlen in Hr |- *.
    apply (ai_loop_exhausted cfgA payloadA errs fuel 0 None
             (XavenAiEngine.mkProcess (XavenAiEngine.asyncStore pA) wA
                (XavenAiEngine.postCalls pA)) w' Hr); lia.
  - intros errs v w' Hk Hr. rewrite optimizePurchase_unfold.
    apply (opt_loop_success cfgO payloadO errs fuel 0 None
             (XavenPurchaseOptimizer.mkProcess
                (XavenPurchaseOptimizer.asyncStore pO) wO
                (XavenPurchaseOptimizer.postCalls pO)) v w' Hr); lia.
  - intros errs w' Hr. rewrite optimizePurchase_unfold.
    pose proof (replay_rejected_length _ _ _ _ _ _ Hr) as Hlen.
    rewrite <- Hlen in Hr |- *.
    apply (opt_loop_exhausted cfgO payloadO errs fuel 0 None
             (XavenPurchaseOptimizer.mkProcess
                (XavenPurchaseOptimizer.asyncStore pO) wO
                (XavenPurchaseOptimizer.postCalls pO)) w' Hr); lia.
Qed.

Lemma last_error_snoc errs e before :
  last_error (errs ++ [e]) before = Some e.
Proof.
  revert before. induction errs as [|e' errs IH]; intros before.
  - reflexivity.
  - change ((e' :: errs) ++ [e]) with (e' :: (errs ++ [e])).
    rewrite last_error_cons. apply IH.
Qed.

(** C6.  With a retry ceiling [N >= 1], when all [N] calls of either
    client fail, the method throws an [Error] after exactly [N] calls, and
    the message of that error contains the decimal rendering of [N] and
    the message of the error of the last call. *)
Theorem terminal_error_reports_attempts_and_cause
        (N : Z) (fuel : nat)
        (cfgA : XavenAiEngine.XavenAiEngineConfig)
        (cfgO : XavenPurchaseOptimizer.XavenPurchaseOptimizerConfig)
        (userQuery : string) (preferredLanguage : option string)
        (aiParsed : XavenAiEngine.XavenAiParsedResult) (userId : option string)
        (pA : XavenAiEngine.Process W) (pO : XavenPurchaseOptimizer.Process W) :
  1 <= N ->
  XavenAiEngine.retryCount cfgA = N ->
  XavenPurchaseOptimizer.retryCount cfgO = N ->
  (Z.to_nat N < fuel)%nat ->
  (forall errs lastErr w',
      replay postA
        (XavenAiEngine.payload_of uuidv4 cfgA userQuery preferredLanguage pA)
        (Z.to_nat N) (snd (uuidv4 (XavenAiEngine.world pA)))
        = (map Rejected (errs ++ [lastErr]), w') ->
      exists e p',
        XavenAiEngine.parseUserQuery uuidv4 postA fuel cfgA userQuery
          preferredLanguage pA = Some (Throw e, p')
        /\ length (XavenAiEngine.postCalls p')
           = (length (XavenAiEngine.postCalls pA) + Z.to_nat N)%nat
        /\ includes (message e) (string_of_number N) = true
        /\ includes (message e) (message lastErr) = true)
  /\ (forall errs lastErr w',
      replay postO
        (XavenPurchaseOptimizer.payload_of uuidv4 cfgO aiParsed userId pO)
        (Z.to_nat N) (snd (uuidv4 (XavenPurchaseOptimizer.world pO)))
        = (map Rejected (errs ++ [lastErr]), w') ->
      exists e p',
        XavenPurchaseOptimizer.optimizePurchase uuidv4 postO fuel cfgO aiParsed
          userId pO = Some (Throw e, p')
        /\ length (XavenPurchaseOptimizer.postCalls p')
           = (length (XavenPurchaseOptimizer.postCalls pO) + Z.to_nat N)%nat
        /\ includes (message e) (string_of_number N) = true
        /\ includes (message e) (message lastErr) = true).
Proof.
  intros HN HA HO Hfuel. split.
  - intros errs lastErr w' Hr. rewrite parseUserQuery_unfold.
    pose proof (replay_rejected_length _ _ _ _ _ _ Hr) as Hlen.
    rewrite <- Hlen in Hr.
    rewrite (ai_loop_exhausted cfgA _ (errs ++ [lastErr]) fuel 0 None
               (XavenAiEngine.mkProcess (XavenAiEngine.asyncStore pA)
                  (snd (uuidv4 (XavenAiEngine.world pA)))
                  (XavenAiEngine.postCalls pA)) w' Hr);
      [| lia | lia].
    eexists _, _. split; [reflexivity|].
    cbn [XavenAiEngine.postCalls XavenAiEngine.asyncStore message].
    rewrite length_app, repeat_length, Hlen, last_error_snoc.
    unfold XavenAiEngine.terminal_message. rewrite HA.
    cbn [string_of_optional_message].
    repeat split.
    + apply includes_append.
    + apply includes_skip, includes_skip, includes_suffix.
  - intros errs lastErr w' Hr. rewrite optimizePurchase_unfold.
    pose proof (replay_rejected_length _ _ _ _ _ _ Hr) as Hlen.
    rewrite <- Hlen in Hr.
    rewrite (opt_loop_exhausted cfgO _ (errs ++ [lastErr]) fuel 0 None
               (XavenPurchaseOptimizer.mkProcess
                  (XavenPurchaseOptimizer.asyncStore pO)
                  (snd (uuidv4 (XavenPurchaseOptimizer.world pO)))
                  (XavenPurchaseOptimizer.postCalls pO)) w' Hr);
      [| lia | lia].
    eexists _, _. split; [reflexivity|].
    cbn [XavenPurchaseOptimizer.postCalls XavenPurchaseOptimizer.asyncStore message].
    rewrite length_app, repeat_length, Hlen, last_error_snoc.
    unfold XavenPurchaseOptimizer.terminal_message. rewrite HO.
    cbn [string_of_optional_message].
    repeat split.
    + apply includes_append.
    + apply includes_skip, includes_skip, includes_suffix.
Qed.

(** C10.  [parseUserQuery] always finishes, every call it makes carries
    one and the same payload, and the [language] of that payload is the
    configured default when [preferredLanguage] is [undefined] or [""],
    and [preferredLanguage] itself when that is a non-empty string.  At
    least one call is made when the retry ceiling is at least 1. *)
Theorem falsy_language_sends_default
        (fuel : nat) (cfg : XavenAiEngine.XavenAiEngineConfig)
        (userQuery : string) (preferredLanguage : option string)
        (p : XavenAiEngine.Process W) :
  (Z.to_nat (XavenAiEngine.retryCount cfg) < fuel)%nat ->
  let sent := XavenAiEngine.payload_of uuidv4 cfg userQuery preferredLanguage p in
  (exists r w' n,
      XavenAiEngine.parseUserQuery uuidv4 postA fuel cfg userQuery
        preferredLanguage p
      = Some (r, XavenAiEngine.mkProcess (XavenAiEngine.asyncStore p) w'
                   (XavenAiEngine.postCalls p ++ repeat sent n))
      /\ (1 <= XavenAiEngine.retryCount cfg -> (1 <= n)%nat))
  /\ XavenAiEngine.userQuery sent = userQuery
  /\ (preferredLanguage = None \/ preferredLanguage = Some "" ->
      XavenAiEngine.language sent = XavenAiEngine.defaultLanguage cfg)
  /\ (forall s, preferredLanguage = Some s -> s <> "" ->
                XavenAiEngine.language sent = s).
Proof.
  intros Hfuel sent. repeat split.
  - rewrite parseUserQuery_unfold.
    destruct (ai_loop_total cfg sent fuel 0 None
                (XavenAiEngine.mkProcess (XavenAiEngine.asyncStore p)
                   (snd (uuidv4 (XavenAiEngine.world p)))
                   (XavenAiEngine.postCalls p)))
      as (r & w' & n & Heq & _ & Hn).
    + rewrite Z.sub_0_r. exact Hfuel.
    + exists r, w', n. split; [exact Heq | intros; apply Hn; lia].
  - intros [-> | ->]; reflexivity.
  - intros s -> Hs. destruct s; [congruence | reflexivity].
Qed.

(** C5 (as the code has it).  Whatever AsyncLocalStorage binding [store]
    is in force, both clients finish, and every call they make carries a
    payload whose [correlationId] is the identifier [uuidv4()] returned at
    the start of that invocation; the binding itself is handed on
    untouched.  At least one call is made when the retry ceiling is at
    least 1. *)
Theorem correlation_id_is_generated_per_call
        (fuel : nat)
        (cfgA : XavenAiEngine.XavenAiEngineConfig)
        (cfgO : XavenPurchaseOptimizer.XavenPurchaseOptimizerConfig)
        (userQuery : string) (preferredLanguage : option string)
        (aiParsed : XavenAiEngine.XavenAiParsedResult) (userId : option string)
        (store : option XavenContext.XavenContextData) (w : W)
        (callsA : list XavenAiEngine.Payload)
        (callsO : list XavenPurchaseOptimizer.Payload) :
  (Z.to_nat (XavenAiEngine.retryCount cfgA) < fuel)%nat ->
  (Z.to_nat (XavenPurchaseOptimizer.retryCount cfgO) < fuel)%nat ->
  (exists r w' n sent,
      XavenAiEngine.parseUserQuery uuidv4 postA fuel cfgA userQuery
        preferredLanguage (XavenAiEngine.mkProcess store w callsA)
      = Some (r, XavenAiEngine.mkProcess store w' (callsA ++ repeat sent n))
      /\ XavenAiEngine.correlationId sent = fst (uuidv4 w)
      /\ (1 <= XavenAiEngine.retryCount cfgA -> (1 <= n)%nat))
  /\ (exists r w' n sent,
      XavenPurchaseOptimizer.optimizePurchase uuidv4 postO fuel cfgO aiParsed
        userId (XavenPurchaseOptimizer.mkProcess store w callsO)
      = Some (r, XavenPurchaseOptimizer.mkProcess store w'
                   (callsO ++ repeat sent n))
      /\ XavenPurchaseOptimizer.correlationId sent = fst (uuidv4 w)
      /\ (1 <= XavenPurchaseOptimizer.retryCount cfgO -> (1 <= n)%nat)).
Proof.
  intros HfA HfO. split.
  - rewrite parseUserQuery_unfold.
    destruct (ai_loop_total cfgA
                (XavenAiEngine.payload_of uuidv4 cfgA userQuery preferredLanguage
                   (XavenAiEngine.mkProcess store w callsA))
                fuel 0 None
                (XavenAiEngine.mkProcess store (snd (uuidv4 w)) callsA))
      as (r & w' & n & Heq & _ & Hn).
    + rewrite Z.sub_0_r. exact HfA.
    + exists r, w', n. eexists. split; [exact Heq|].
      split; [reflexivity | intros; apply Hn; lia].
  - rewrite optimizePurchase_unfold.
    destruct (opt_loop_total cfgO
                (XavenPurchaseOptimizer.payload_of uuidv4 cfgO aiParsed userId
                   (XavenPurchaseOptimizer.mkProcess store w callsO))
                fuel 0 None
                (XavenPurchaseOptimizer.mkProcess store (snd (uuidv4 w)) callsO))
      as (r & w' & n & Heq & _ & Hn).
    + rewrite Z.sub_0_r. exact HfO.
    + exists r, w', n. eexists. split; [exact Heq|].
      split; [reflexivity | intros; apply Hn; lia].
Qed.

End RetryFacts.

(** ** The seeding policy *)

Section SeedingFacts.
Import XavenContext.

Lemma hex_high_nibble (x : Byte.byte) :
  inClass Hex (hexDigit (N.shiftr (Byte.to_N x) 4)) = true.
Proof. destruct x; reflexivity. Qed.

Lemma hex_low_nibble (x : Byte.byte) :
  inClass Hex (hexDigit (N.land (Byte.to_N x) 15)) = true.
Proof. destruct x; reflexivity. Qed.

Lemma version_high_nibble (x : Byte.byte) :
  inClass Version4
    (hexDigit (N.shiftr (N.lor (N.land (Byte.to_N x) 15) 64) 4)) = true.
Proof. destruct x; reflexivity. Qed.

Lemma version_low_nibble (x : Byte.byte) :
  inClass Hex (hexDigit (N.land (N.lor (N.land (Byte.to_N x) 15) 64) 15)) = true.
Proof. destruct x; reflexivity. Qed.

Lemma variant_high_nibble (x : Byte.byte) :
  inClass Variant
    (hexDigit (N.shiftr (N.lor (N.land (Byte.to_N x) 63) 128) 4)) = true.
Proof. destruct x; reflexivity. Qed.

Lemma variant_low_nibble (x : Byte.byte) :
  inClass Hex (hexDigit (N.land (N.lor (N.land (Byte.to_N x) 63) 128) 15)) = true.
Proof. destruct x; reflexivity. Qed.

Lemma randomUUID_is_v4 (rnd : nat -> Byte.byte) : isUuidV4 (randomUUID rnd) = true.
Proof.
  cbv -[hexDigit N.shiftr N.land N.lor Byte.to_N inClass].
  rewrite !hex_high_nibble, !hex_low_nibble, version_high_nibble,
    version_low_nibble, variant_high_nibble, variant_low_nibble.
  reflexivity.
Qed.

Lemma trimStart_split (s : string) :
  exists a, s = a +:+ trimStart s /\ allWhiteSpace a = true.
Proof.
  induction s as [|c s (a & Hs & Ha)].
  - exists "". split; reflexivity.
  - cbn [trimStart]. destruct (isWhiteSpace c) eqn:Hc.
    + exists (String c a). split.
      * change (String c a +:+ trimStart s) with (String c (a +:+ trimStart s)).
        now rewrite <- Hs.
      * cbn [allWhiteSpace]. now rewrite Hc, Ha.
    + exists "". split; reflexivity.
Qed.

Lemma trimEnd_split (s : string) :
  exists b, s = trimEnd s +:+ b /\ allWhiteSpace b = true.
Proof.
  induction s as [|c s (b & Hs & Hb)].
  - exists "". split; reflexivity.
  - cbn [trimEnd]. destruct (trimEnd s) as [|d r] eqn:Ht.
    + destruct (isWhiteSpace c) eqn:Hc.
      * exists (String c b). split.
        -- change ("" +:+ b) with b in Hs. now rewrite <- Hs.
        -- cbn [allWhiteSpace]. now rewrite Hc, Hb.
      * exists b. split; [|exact Hb].
        change ("" +:+ b) with b in Hs. now rewrite <- Hs.
    + exists b. split; [|exact Hb].
      change (String c (String d r) +:+ b) with (String c (String d r +:+ b)).
      now rewrite <- Hs.
Qed.

(** [trim] removes white space at both ends and nothing else. *)
Lemma trim_split (s : string) :
  exists a b, s = a +:+ trim s +:+ b
              /\ allWhiteSpace a = true /\ allWhiteSpace b = true.
Proof.
  destruct (trimStart_split s) as (a & Hs & Ha).
  destruct (trimEnd_split (trimStart s)) as (b & Ht & Hb).
  exists a, b. unfold trim. now rewrite <- Ht, <- Hs.
Qed.

Lemma trimStart_blank (s : string) :
  allWhiteSpace s = true -> trimStart s = "".
Proof.
  induction s as [|c s IH]; [reflexivity|].
  cbn [allWhiteSpace trimStart]. intros [Hc Hs]%andb_prop.
  rewrite Hc. now apply IH.
Qed.

Lemma trim_blank (s : string) : allWhiteSpace s = true -> trim s = "".
Proof. intros H. unfold trim. now rewrite (trimStart_blank s H). Qed.

Lemma allWhiteSpace_append (a b : string) :
  allWhiteSpace a = true -> allWhiteSpace b = true ->
  allWhiteSpace (a +:+ b) = true.
Proof.
  intros Ha Hb. induction a as [|c a IH]; [exact Hb|].
  cbn [allWhiteSpace] in Ha. apply andb_prop in Ha as [Hc Ha].
  change (String c a +:+ b) with (String c (a +:+ b)).
  cbn [allWhiteSpace]. now rewrite Hc, IH.
Qed.

Lemma trim_nonblank (s : string) : allWhiteSpace s = false -> trim s <> "".
Proof.
  intros H Ht. destruct (trim_split s) as (a & b & Hs & Ha & Hb).
  rewrite Ht in Hs. change ("" +:+ b) with b in Hs.
  rewrite Hs, (allWhiteSpace_append a b Ha Hb) in H. discriminate.
Qed.

End SeedingFacts.

(** ** Propagation of the request context *)

Section ContextFacts.
Import XavenContext.

Lemma exec_sound (c : Code) :
  forall o store ts obs,
    exec o store c = (ts, obs) ->
    Forall (fun t => origin t = o /\ captured t = store) ts
    /\ Forall (fun p => p = (o, observe store)) obs.
Proof.
  induction c as [|k IH|callback _ k IH]; intros o store ts obs He;
    cbn [exec] in He.
  - inversion He; subst. split; constructor.
  - destruct (exec o store (k (observe store))) as [ts' obs'] eqn:E.
    inversion He; subst. destruct (IH _ _ _ _ _ E) as [Ht Ho].
    split; [exact Ht | constructor; [reflexivity | exact Ho]].
  - destruct (exec o store k) as [ts' obs'] eqn:E.
    inversion He; subst. destruct (IH _ _ _ _ E) as [Ht Ho].
    split; [constructor; [split; reflexivity | exact Ht] | exact Ho].
Qed.

Lemma bound_to_grows sd c o store :
  bound_to sd o store -> bound_to (sd ++ [c]) o store.
Proof.
  destruct o as [rid|]; cbn [bound_to]; [|trivial].
  intros (c' & Hl & Hs). exists c'. split; [|exact Hs].
  now apply lookup_app_l_Some.
Qed.

(** Scheduling and observing under a rightful binding keeps the loop
    consistent. *)
Lemma consistent_extend l sd' o store c ts obs rest :
  (forall o' st, bound_to (seeded l) o' st -> bound_to sd' o' st) ->
  bound_to sd' o store ->
  exec o store c = (ts, obs) ->
  Forall (fun t => bound_to (seeded l) (origin t) (captured t)) rest ->
  consistent l ->
  consistent (mkLoop (rest ++ ts) sd' (observed l ++ obs)).
Proof.
  intros Hmono Hb He Hrest [_ Hobs].
  destruct (exec_sound c o store ts obs He) as [Hts Hos].
  split; cbn [pending seeded observed]; apply Forall_app; split.
  - eapply Forall_impl; [exact Hrest|]. intros t Ht. now apply Hmono.
  - eapply Forall_impl; [exact Hts|]. intros t [-> ->]. exact Hb.
  - eapply Forall_impl; [exact Hobs|]. intros [o' seen] (st & Hst & ->).
    exists st. split; [now apply Hmono | reflexivity].
  - eapply Forall_impl; [exact Hos|]. intros p ->.
    exists store. split; [exact Hb | reflexivity].
Qed.

Lemma step_consistent l e : consistent l -> consistent (step l e).
Proof.
  intros Hc. destruct e as [req rnd next | i | c]; cbn [step].
  - unfold xavenContextMiddleware.
    destruct (exec (FromRequest (length (seeded l)))
                (Some (contextData req rnd)) next) as [ts obs] eqn:E.
    eapply consistent_extend; [| | exact E | apply Hc | exact Hc].
    + intros o' st. apply bound_to_grows.
    + cbn [bound_to]. exists (contextData req rnd). split; [|reflexivity].
      rewrite lookup_app_r by lia. now rewrite Nat.sub_diag.
  - destruct (pending l !! i) as [t|] eqn:Hi; [|exact Hc].
    destruct (exec (origin t) (captured t) (body t)) as [ts obs] eqn:E.
    eapply consistent_extend; [| | exact E | | exact Hc].
    + trivial.
    + destruct Hc as [Hp _]. rewrite Forall_lookup in Hp. exact (Hp i t Hi).
    + destruct Hc as [Hp _]. now apply Forall_delete.
  - destruct (exec Outside None c) as [ts obs] eqn:E.
    eapply consistent_extend; [| | exact E | apply Hc | exact Hc].
    + trivial.
    + reflexivity.
Qed.

Lemma run_events_consistent evs :
  forall l, consistent l -> consistent (run_events evs l).
Proof.
  unfold run_events. induction evs as [|e evs IH]; intros l Hc; [exact Hc|].
  cbn [fold_left]. apply IH, step_consistent, Hc.
Qed.

Lemma idle_consistent : consistent idle.
Proof. split; constructor. Qed.

(** C7.  The context the middleware seeds for a request is
    [contextData req rnd], and it is what the rest of the chain observes
    while the middleware runs it.  When the x-correlation-id header is a string
    that is not all white space, its [correlationId] is exactly the
    trimmed header; when the header is absent, is an array, or is a
    string of white space only (the empty string included), it is the
    identifier [randomUUID] generates, which has UUID v4 format. *)
Theorem correlation_id_seeding
        (req : Request) (rnd : nat -> Byte.byte) (next : Code) (l : Loop) :
  let ctx := contextData req rnd in
  (seeded (xavenContextMiddleware req rnd next l) = seeded l ++ [ctx]
   /\ forall o seen,
       In (o, seen) (observed (xavenContextMiddleware req rnd next l)) ->
       In (o, seen) (observed l)
       \/ seenCorrelationId seen = Return (Some (correlationId ctx)))
  /\ (forall s,
         headers req !! "x-correlation-id" = Some (HString s) ->
         allWhiteSpace s = false ->
         correlationId ctx = trim s)
  /\ (headers req !! "x-correlation-id" = None
      \/ (exists vs, headers req !! "x-correlation-id" = Some (HArray vs))
      \/ (exists s, headers req !! "x-correlation-id" = Some (HString s)
                    /\ allWhiteSpace s = true) ->
      correlationId ctx = randomUUID rnd
      /\ isUuidV4 (correlationId ctx) = true).
Proof.
  intros ctx. split; [|split].
  - unfold xavenContextMiddleware. fold ctx.
    destruct (exec (FromRequest (length (seeded l))) (Some ctx) next)
      as [ts obs] eqn:E.
    split; [reflexivity|]. cbn [observed]. intros o seen Hin.
    apply in_app_or in Hin as [Hin | Hin]; [now left | right].
    destruct (exec_sound next _ _ _ _ E) as [_ Hobs].
    rewrite Forall_forall in Hobs. apply list_elem_of_In in Hin.
    specialize (Hobs _ Hin). now inversion Hobs.
  - intros s Hh Hs. unfold ctx, contextData. rewrite Hh.
    cbn [correlationId].
    pose proof (trim_nonblank s Hs) as Hne.
    destruct (trim s); [congruence | reflexivity].
  - intros H.
    assert (correlationId ctx = randomUUID rnd) as Heq.
    { unfold ctx, contextData.
      destruct H as [Hh | [(vs & Hh) | (s & Hh & Hs)]]; rewrite Hh;
        cbn [correlationId]; try reflexivity.
      now rewrite (trim_blank s Hs). }
    split; [exact Heq|]. rewrite Heq. apply randomUUID_is_v4.
Qed.

(** C1.  Start the event loop idle and let requests arrive, callbacks
    fire and background code run, in any order.  Whatever code running on
    behalf of request [r1] observes, at arrival or in a callback deferred
    any number of times, is the context [c1] seeded for [r1]; it never
    observes the context or the correlation id of another request [r2]
    whose correlation id differs. *)
Theorem request_contexts_are_isolated
        (evs : list Event) (r1 : nat) (seen : Observation) :
  In (FromRequest r1, seen) (observed (run_events evs idle)) ->
  exists c1,
    seeded (run_events evs idle) !! r1 = Some c1
    /\ seenContext seen = Return (Some c1)
    /\ seenCorrelationId seen = Return (Some (correlationId c1))
    /\ seenUserId seen = Return (userId c1)
    /\ forall r2 c2,
        seeded (run_events evs idle) !! r2 = Some c2 ->
        correlationId c2 <> correlationId c1 ->
        seenContext seen <> Return (Some c2)
        /\ seenCorrelationId seen <> Return (Some (correlationId c2)).
Proof.
  intros Hin.
  destruct (run_events_consistent evs idle idle_consistent) as [_ Hobs].
  rewrite Forall_forall in Hobs.
  apply list_elem_of_In in Hin.
  destruct (Hobs _ Hin) as (store & (c1 & Hl & ->) & ->).
  exists c1. repeat split; try assumption; try reflexivity.
  - cbn. intros Heq. inversion Heq; subst. congruence.
  - cbn. intros Heq. inversion Heq. congruence.
Qed.

(** C8.  The three accessors return normally on every store: outside any
    [run] scope all three return [undefined]; inside, the context and
    its two fields.  In every run of the event loop no observation is a
    throw, and code that belongs to no request observes [undefined]. *)
Theorem accessors_never_throw :
  (getXavenContext None = Return None
   /\ getCorrelationId None = Return None
   /\ getUserId None = Return None)
  /\ (forall ctx,
         getXavenContext (Some ctx) = Return (Some ctx)
         /\ getCorrelationId (Some ctx) = Return (Some (correlationId ctx))
         /\ getUserId (Some ctx) = Return (userId ctx))
  /\ (forall evs o seen,
         In (o, seen) (observed (run_events evs idle)) ->
         (exists a b c, seen = mkObservation (Return a) (Return b) (Return c))
         /\ (o = Outside -> seen = observe None)).
Proof.
  split; [repeat split | split; [intros ctx; repeat split|]].
  intros evs o seen Hin.
  destruct (run_events_consistent evs idle idle_consistent) as [_ Hobs].
  rewrite Forall_forall in Hobs. apply list_elem_of_In in Hin.
  destruct (Hobs _ Hin) as (store & Hb & ->). split.
  - destruct store as [ctx|]; eexists _, _, _; reflexivity.
  - intros ->. cbn [bound_to] in Hb. now subst.
Qed.

End ContextFacts.

(** ** The cached, concurrency-limited fetch *)

Section FactoryFacts.
Import XavenFactory.

Lemma sorted_snoc (l : list nat) (n : nat) :
  StronglySorted lt l -> Forall (fun x => (x < n)%nat) l ->
  StronglySorted lt (l ++ [n]).
Proof.
  induction 1 as [|a l Hs IH Ha]; intros Hn; cbn [app].
  - constructor; constructor.
  - apply Forall_cons_1 in Hn as [Han Hn].
    constructor; [now apply IH|].
    apply Forall_app. split; [exact Ha | constructor; [exact Han | constructor]].
Qed.

Lemma Forall_lt_S (l : list nat) (n : nat) :
  Forall (fun x => (x < n)%nat) l -> Forall (fun x => (x < S n)%nat) l.
Proof. intros H. eapply Forall_impl; [exact H|]. intros x Hx. cbn in Hx. lia. Qed.

Lemma gate_ok_init : gate_ok init.
Proof.
  constructor; cbn; try constructor; try lia; try congruence.
Qed.

Lemma gate_ok_tick dt s : gate_ok s -> gate_ok (tick dt s).
Proof. intros [? ? ? ? ? ? ? ?]. constructor; assumption. Qed.

Lemma gate_ok_fetch u s : gate_ok s -> gate_ok (fetchWithCache u s).
Proof.
  intros [Hact Hbound Hfull Hfifo Hfresh Hslots Hcalls Hrel].
  unfold fetchWithCache. fields.
  destruct (truthy (cache_get (cache s) u (now s))).
  - (* served from the cache *)
    constructor; fields; try assumption.
    + now apply Forall_lt_S.
    + by_counting.
    + eapply Forall_impl; [exact Hrel|]. intros id Hid.
      rewrite map_app. apply in_or_app. now left.
  - unfold limit. fields.
    destruct (Nat.ltb_spec (activeCount s) concurrency) as [Hfree|Hbusy].
    + (* a slot is free: the queue is empty and the task starts *)
      assert (queue s = []) as Hq.
      { destruct (queue s) eqn:E; [reflexivity|].
        rewrite Hfull in Hact by congruence. lia. }
      constructor; fields; rewrite ?Hq in *;
        cbn [map] in *; rewrite ?length_app, ?app_nil_r in *;
        cbn [length]; try assumption.
      * lia.
      * lia.
      * congruence.
      * rewrite map_app. cbn [map fst]. now apply sorted_snoc.
      * rewrite map_app. cbn [map fst].
        apply Forall_app. split; [now apply Forall_lt_S|].
        constructor; [lia | constructor].
      * by_counting.
      * by_counting.
    + (* all slots taken: the task waits at the end of the queue *)
      constructor; fields; try assumption.
      * intros _. lia.
      * rewrite map_app, app_assoc. cbn [map taskId].
        now apply sorted_snoc.
      * rewrite map_app, app_assoc. cbn [map taskId].
        apply Forall_app. split; [now apply Forall_lt_S|].
        constructor; [lia | constructor].
      * by_counting.
Qed.

Lemma count_seq_le_1 (a n x : nat) : (count_occ Nat.eq_dec (seq a n) x <= 1)%nat.
Proof.
  revert a. induction n as [|n IH]; intros a; cbn [seq count_occ]; [lia|].
  destruct (Nat.eq_dec a x) as [->|Hne]; [|apply IH].
  assert (count_occ Nat.eq_dec (seq (S x) n) x = 0%nat) as ->; [|lia].
  apply count_occ_not_In. rewrite in_seq. lia.
Qed.

Lemma find_running_some id s t :
  find_running id s = Some t -> taskId t = id /\ In t (running s).
Proof.
  unfold find_running. intros H. apply find_some in H as [Hin Heq].
  split; [now apply Nat.eqb_eq | exact Hin].
Qed.

Lemma count_removed (id : nat) (ts : list Task) (x : nat) :
  count_occ Nat.eq_dec
    (map taskId (List.filter (fun t => negb (taskId t =? id)%nat) ts)) x
  = if Nat.eq_dec id x then 0%nat else count_occ Nat.eq_dec (map taskId ts) x.
Proof.
  induction ts as [|t ts IH]; cbn [List.filter map count_occ].
  - destruct (Nat.eq_dec id x); reflexivity.
  - destruct (Nat.eqb_spec (taskId t) id) as [Heq|Hne]; cbn [negb map count_occ];
      rewrite IH; destruct (Nat.eq_dec id x), (Nat.eq_dec (taskId t) x);
      congruence.
Qed.

Lemma length_removed (id : nat) (ts : list Task) :
  (length (List.filter (fun t => negb (taskId t =? id)%nat) ts)
   + count_occ Nat.eq_dec (map taskId ts) id)%nat = length ts.
Proof.
  induction ts as [|t ts IH]; cbn [List.filter map count_occ length]; [reflexivity|].
  destruct (Nat.eqb_spec (taskId t) id) as [Heq|Hne]; cbn [negb length];
    destruct (Nat.eq_dec (taskId t) id); try congruence; lia.
Qed.

Lemma count_running_once id s t :
  gate_ok s -> find_running id s = Some t ->
  count_occ Nat.eq_dec (map taskId (running s)) id = 1%nat.
Proof.
  intros Hok Hf. apply find_running_some in Hf as [Hid Hin].
  pose proof (ok_calls s Hok) as Hc.
  rewrite (Permutation_count_occ Nat.eq_dec) in Hc. specialize (Hc id).
  pose proof (count_seq_le_1 0 (nextId s) id) as Hle.
  unfold ids in Hc. rewrite !count_occ_app in Hc.
  assert (count_occ Nat.eq_dec (map taskId (running s)) id > 0)%nat.
  { apply count_occ_In. subst id. now apply in_map. }
  lia.
Qed.

Lemma gate_ok_respond id o s : gate_ok s -> gate_ok (respond id o s).
Proof.
  intros Hok. unfold respond.
  destruct (find_running id s) as [t|] eqn:Hfind; [|exact Hok].
  pose proof (count_running_once id s t Hok Hfind) as Hone.
  pose proof (length_removed id (running s)) as Hlen.
  pose proof (count_removed id (running s)) as Hrm.
  pose proof (count_seq_le_1 0 (nextId s)) as Hseq.
  destruct Hok as [Hact Hbound Hfull Hfifo Hfresh Hslots Hcalls Hrel].
  assert (Forall (fun i => In i (map fst (settled s) ++ [id]))
                 (releases s ++ [id])) as Hrel'.
  { apply Forall_app. split.
    - eapply Forall_impl; [exact Hrel|]. intros i Hi. apply in_or_app. now left.
    - constructor; [|constructor]. apply in_or_app. right. now left. }
  unfold release, remove_running.
  destruct o as [data|err]; fields;
    (destruct (queue s) as [|t' waiting] eqn:Hq;
     [ constructor; fields; rewrite ?map_app; cbn [map fst];
       try assumption; try congruence; try lia; try by_counting
     | assert (length (running s) = concurrency) as Hfill
         by (apply Hfull; congruence);
       constructor; fields; rewrite ?map_app, ?length_app; cbn [map fst length];
       rewrite <- ?app_assoc; cbn [app];
       try assumption; try congruence; try lia; try by_counting ]).
Qed.

Lemma gate_ok_step s e : gate_ok s -> gate_ok (step s e).
Proof.
  destruct e; cbn [step];
    [apply gate_ok_fetch | apply gate_ok_respond | apply gate_ok_tick].
Qed.

Lemma gate_ok_run evs : forall s, gate_ok s -> gate_ok (run_events evs s).
Proof.
  unfold run_events. induction evs as [|e evs IH]; intros s Hok; [exact Hok|].
  cbn [fold_left]. apply IH, gate_ok_step, Hok.
Qed.

Lemma find_running_in id s :
  In id (ids (running s)) -> exists t, find_running id s = Some t.
Proof.
  unfold find_running, ids. induction (running s) as [|t ts IH]; cbn [map In List.find].
  - intros [].
  - destruct (Nat.eqb_spec (taskId t) id) as [Heq|Hne].
    + intros _. now exists t.
    + intros [Heq | Hin]; [congruence | now apply IH].
Qed.

(** An answer for a call in flight takes one call off the combined
    length of the running set and the queue, and leaves the numbering of
    calls alone. *)
Lemma respond_measure id o s :
  gate_ok s -> In id (ids (running s)) ->
  (length (running (respond id o s)) + length (queue (respond id o s)) + 1
   = length (running s) + length (queue s))%nat
  /\ nextId (respond id o s) = nextId s.
Proof.
  intros Hok Hin. destruct (find_running_in id s Hin) as [t Hfind].
  pose proof (count_running_once id s t Hok Hfind) as Hone.
  pose proof (length_removed id (running s)) as Hlen.
  unfold respond. rewrite Hfind. unfold release, remove_running.
  destruct o as [data|err]; fields;
    destruct (queue s) as [|t' waiting]; fields;
    rewrite ?length_app; cbn [length]; split; try reflexivity; lia.
Qed.

Lemma gate_ok_respond_all rs :
  forall s, gate_ok s -> gate_ok (respond_all rs s).
Proof.
  unfold respond_all. induction rs as [|[id o] rs IH]; intros s Hok; [exact Hok|].
  cbn [fold_left fst snd]. apply IH, gate_ok_respond, Hok.
Qed.

(** Once no further call arrives and the upstream keeps answering calls
    in flight, the running set and the queue run empty after as many
    answers as there were calls running or waiting. *)
Lemma respond_all_drains rs :
  forall s, gate_ok s -> answers s rs ->
            length rs = (length (running s) + length (queue s))%nat ->
            running (respond_all rs s) = []
            /\ queue (respond_all rs s) = []
            /\ nextId (respond_all rs s) = nextId s.
Proof.
  induction rs as [|[id o] rs IH]; intros s Hok Hans Hlen.
  - cbn [length] in Hlen. unfold respond_all. cbn [fold_left].
    destruct (running s), (queue s); cbn [length] in Hlen; try lia.
    repeat split.
  - cbn [answers] in Hans. destruct Hans as [Hin Hans].
    destruct (respond_measure id o s Hok Hin) as [Hm Hn].
    cbn [length] in Hlen.
    destruct (IH (respond id o s) (gate_ok_respond id o s Hok) Hans)
      as (Hr & Hq & Hn'); [lia|].
    unfold respond_all in *. cbn [fold_left fst snd].
    rewrite Hr, Hq, Hn', Hn. repeat split.
Qed.

Lemma all_calls_settled s :
  gate_ok s -> running s = [] -> queue s = [] ->
  forall id, (id < nextId s)%nat -> In id (map fst (settled s)).
Proof.
  intros Hok Hr Hq id Hid. pose proof (ok_calls s Hok) as Hc.
  rewrite Hr, Hq in Hc. cbn [ids map] in Hc. rewrite !app_nil_r in Hc.
  eapply Permutation_in; [exact Hc|]. apply in_seq. lia.
Qed.

Lemma sorted_count_le_1 (l : list nat) (x : nat) :
  StronglySorted lt l -> (count_occ Nat.eq_dec l x <= 1)%nat.
Proof.
  induction 1 as [|a l Hs IH Ha]; cbn [count_occ]; [lia|].
  destruct (Nat.eq_dec a x) as [->|Hne]; [|exact IH].
  assert (count_occ Nat.eq_dec l x = 0%nat) as ->; [|lia].
  apply count_occ_not_In. intros Hin.
  rewrite Forall_forall in Ha. apply list_elem_of_In in Hin.
  specialize (Ha x Hin). cbn in Ha. lia.
Qed.

Lemma sorted_app_l (l1 l2 : list nat) :
  StronglySorted lt (l1 ++ l2) -> StronglySorted lt l1.
Proof.
  induction l1 as [|a l1 IH]; cbn [app]; intros H; [constructor|].
  apply StronglySorted_inv in H as [Hs Ha].
  constructor; [now apply IH|].
  apply Forall_app in Ha. apply Ha.
Qed.

(** As long as calls are running or waiting, some call is running, so
    the upstream always has a call to answer. *)
Lemma answers_exist (n : nat) :
  forall s, gate_ok s ->
            (length (running s) + length (queue s))%nat = n ->
            exists rs, answers s rs /\ length rs = n.
Proof.
  induction n as [|n IH]; intros s Hok Hn.
  - exists []. split; [exact I | reflexivity].
  - destruct (running s) as [|t ts] eqn:Hr.
    + pose proof (ok_full s Hok) as Hfull. rewrite Hr in Hfull.
      destruct (queue s); [cbn in Hn; lia|].
      cbn in Hfull. discriminate Hfull. congruence.
    + assert (In (taskId t) (ids (running s))) as Hin
          by (rewrite Hr; now left).
      destruct (respond_measure (taskId t) (Resolved JNull) s Hok Hin) as [Hm _].
      destruct (IH (respond (taskId t) (Resolved JNull) s)
                  (gate_ok_respond _ _ s Hok)) as (rs & Hans & Hlen).
      * rewrite Hr in Hm. lia.
      * exists ((taskId t, Resolved JNull) :: rs).
        split; [split; assumption | cbn [length]; now rewrite Hlen].
Qed.

Lemma release_hands_over id o s t' waiting :
  In id (ids (running s)) -> queue s = t' :: waiting ->
  queue (respond id o s) = waiting
  /\ In t' (running (respond id o s))
  /\ axiosCalls (respond id o s) = axiosCalls s ++ [(taskId t', url t')].
Proof.
  intros Hin Hq. destruct (find_running_in id s Hin) as [t Hfind].
  unfold respond. rewrite Hfind. unfold release, remove_running.
  destruct o as [data|err]; fields; rewrite Hq; fields;
    (split; [reflexivity | split; [|reflexivity]]);
    apply in_or_app; right; now left.
Qed.

(** C9.  In every state the service reaches from [init], with the gate
    built by [pLimit(3)]:
    - at most 3 task bodies are executing, and the gate's count of taken
      slots is their number;
    - the started calls are exactly the running ones together with those
      whose slot was given back, no call occurring twice, and a slot is
      given back only for a call that has settled;
    - calls start in the order they arrived, the waiting ones being next
      in line in that same order; when a running call is answered while
      calls wait, the one at the head of the queue starts;
    - nothing waits while nothing runs, so the upstream always has a
      call to answer while any is running or waiting; when no further
      call arrives and the upstream answers calls in flight one after the
      other, after as many answers as calls were running or waiting every
      call ever made has settled. *)
Theorem gate_limits_and_serves_in_order (evs : list Event) :
  let s := run_events evs init in
  ((length (running s) <= 3)%nat /\ activeCount s = length (running s))
  /\ (Permutation (started s) (releases s ++ ids (running s))
      /\ (forall id, (count_occ Nat.eq_dec (started s) id <= 1)%nat)
      /\ (forall id, In id (releases s) -> In id (map fst (settled s))))
  /\ (StronglySorted lt (started s ++ ids (queue s))
      /\ (forall id o t' waiting,
             In id (ids (running s)) -> queue s = t' :: waiting ->
             queue (respond id o s) = waiting
             /\ In t' (running (respond id o s))))
  /\ ((running s = [] -> queue s = [])
      /\ (exists rs, answers s rs
                     /\ length rs = (length (running s) + length (queue s))%nat)
      /\ (forall rs,
             answers s rs ->
             length rs = (length (running s) + length (queue s))%nat ->
             running (respond_all rs s) = []
             /\ queue (respond_all rs s) = []
             /\ forall id, (id < nextId s)%nat ->
                           In id (map fst (settled (respond_all rs s))))).
Proof.
  intros s.
  assert (gate_ok s) as Hok by (apply gate_ok_run, gate_ok_init).
  repeat split.
  - apply (ok_bound s Hok).
  - apply (ok_active s Hok).
  - apply (ok_slots s Hok).
  - intros id. apply sorted_count_le_1.
    apply (sorted_app_l _ (ids (queue s))), (ok_fifo s Hok).
  - intros id Hid. pose proof (ok_released s Hok) as Hrel.
    rewrite Forall_forall in Hrel. apply Hrel. now apply list_elem_of_In.
  - apply (ok_fifo s Hok).
  - now apply (release_hands_over id o s t' waiting).
  - now apply (release_hands_over id o s t' waiting).
  - intros Hr. destruct (queue s) eqn:Hq; [reflexivity|].
    pose proof (ok_full s Hok) as Hfull. rewrite Hq, Hr in Hfull.
    cbn in Hfull. discriminate Hfull. congruence.
  - now apply (answers_exist _ s Hok).
  - now apply respond_all_drains.
  - now apply respond_all_drains.
  - intros id Hid.
    match goal with
    | Ha : answers s rs, Hl : length rs = _ |- _ =>
        destruct (respond_all_drains rs s Hok Ha Hl) as (Hr & Hq & Hn)
    end.
    apply all_calls_settled; [now apply gate_ok_respond_all | exact Hr | exact Hq |].
    now rewrite Hn.
Qed.

Lemma fetch_hit u s :
  truthy (cache_get (cache s) u (now s)) = true ->
  fetchWithCache u s
  = mkState (cache s) (now s) (activeCount s) (queue s) (running s)
            (axiosCalls s) (releases s)
            (settled s ++ [(nextId s, Return (cache_get (cache s) u (now s)))])
            (S (nextId s)).
Proof. intros H. unfold fetchWithCache. fields. now rewrite H. Qed.

Lemma fetch_miss_free u s :
  truthy (cache_get (cache s) u (now s)) = false ->
  (activeCount s < concurrency)%nat ->
  fetchWithCache u s
  = mkState (cache s) (now s) (S (activeCount s)) (queue s)
            (running s ++ [mkTask (nextId s) u])
            (axiosCalls s ++ [(nextId s, u)]) (releases s) (settled s)
            (S (nextId s)).
Proof.
  intros H Hfree. unfold fetchWithCache, limit. fields. rewrite H.
  destruct (Nat.ltb_spec (activeCount s) concurrency); [reflexivity | lia].
Qed.

Lemma live_entry_get s key v :
  live_entry s key = Some v -> cache_get (cache s) key (now s) = v.
Proof.
  unfold live_entry, cache_get.
  destruct (cache s !! key) as [[v' e]|]; [|discriminate].
  destruct (now s <? e); [|discriminate]. congruence.
Qed.

(** The part of C3 the code keeps: a live entry whose value JavaScript
    takes for true is returned, and neither [axios.get] nor the gate is
    touched. *)
Lemma truthy_entry_served_from_cache s key v :
  live_entry s key = Some v -> truthy v = true ->
  let s' := fetchWithCache key s in
  settled s' = settled s ++ [(nextId s, Return v)]
  /\ axiosCalls s' = axiosCalls s
  /\ activeCount s' = activeCount s
  /\ queue s' = queue s
  /\ running s' = running s
  /\ cache s' = cache s.
Proof.
  intros Hl Ht s'. apply live_entry_get in Hl.
  unfold s'. rewrite fetch_hit by now rewrite Hl.
  rewrite Hl. repeat split.
Qed.

(** C4.  When [axios.get] rejects for a call in flight, the call settles
    with that very error and the cache stays as it was.  Starting with a
    free gate and no usable entry for [u]: a call for [u] whose request
    fails leaves the error with the caller and the cache unchanged, and
    the next call for [u] issues [axios.get(u)] again. *)
Theorem loader_error_propagates_uncached
        (s : State) (u : string) (err : Error) :
  activeCount s = 0%nat -> queue s = [] -> running s = [] ->
  truthy (cache_get (cache s) u (now s)) = false ->
  (forall s0 id t,
      find_running id s0 = Some t ->
      settled (respond id (Rejected err) s0) = settled s0 ++ [(id, Throw err)]
      /\ cache (respond id (Rejected err) s0) = cache s0)
  /\ (let s1 := respond (nextId s) (Rejected err) (fetchWithCache u s) in
      settled s1 = settled s ++ [(nextId s, Throw err)]
      /\ cache s1 = cache s
      /\ axiosCalls s1 = axiosCalls s ++ [(nextId s, u)]
      /\ axiosCalls (fetchWithCache u s1)
         = axiosCalls s ++ [(nextId s, u); (S (nextId s), u)]).
Proof.
  intros Hact Hq Hr Hmiss. split.
  - intros s0 id t Hfind. unfold respond. rewrite Hfind.
    unfold release, remove_running. fields.
    destruct (queue s0); fields; split; reflexivity.
  - rewrite (fetch_miss_free u s Hmiss) by (rewrite Hact; cbv; lia).
    unfold respond, find_running. fields. rewrite Hr, Hq.
    cbn [app List.find taskId]. rewrite Nat.eqb_refl.
    unfold release, remove_running. fields.
    cbn [List.filter taskId]. rewrite Nat.eqb_refl. cbn [negb]. fields.
    repeat split.
    rewrite fetch_miss_free; fields.
    + rewrite <- app_assoc. reflexivity.
    + exact Hmiss.
    + rewrite Hact. cbv. lia.
Qed.

End FactoryFacts.

(** ** Concrete runs *)

Section Runs.
Import Scenario.

(** Three attempts allowed, two failures, then success: three calls.
    Three attempts allowed, the service down: three calls, then the
    terminal error. *)
Lemma retry_invokes_at_most_ceiling_run :
  XavenAiEngine.parseUserQuery uuid (flakyParse 2) 4 (aiConfig 3)
    "I need a tablet" None aiOutside
  = Some (Return tablet,
          XavenAiEngine.mkProcess None 3%nat
            (repeat (XavenAiEngine.mkPayload
                       "f47ac10b-58cc-4372-a567-0e02b2c3d479"
                       "I need a tablet" "en") 3))
  /\ XavenPurchaseOptimizer.optimizePurchase uuid downOptimize 4
       (optimizerConfig 3) tablet (Some "user-123") optimizerOutside
     = Some (Throw (mkError "[XavenPurchaseOptimizer] optimizePurchase failed after 3 attempts. Last error: Service unavailable"),
             XavenPurchaseOptimizer.mkProcess None 3%nat
               (repeat (XavenPurchaseOptimizer.mkPayload
                          "f47ac10b-58cc-4372-a567-0e02b2c3d479"
                          (Some "user-123")
                          (XavenPurchaseOptimizer.mkInner tablet None false)) 3)).
Proof.
  destruct (retry_invokes_at_most_ceiling uuid (flakyParse 2) downOptimize
              3 4 (aiConfig 3) (optimizerConfig 3) "I need a tablet" None
              tablet (Some "user-123") aiOutside optimizerOutside)
    as (Hs & _ & _ & He); [lia | reflexivity | reflexivity | cbv; lia |].
  split.
  - exact (Hs [networkError; networkError] tablet 3%nat
              ltac:(cbn; lia) eq_refl).
  - exact (He [unavailable; unavailable; unavailable] 3%nat eq_refl).
Defined.

(** Two attempts allowed, the service down: the message of the terminal
    error contains "2" and "Service unavailable". *)
Lemma terminal_error_reports_attempts_and_cause_run :
  exists e p',
    XavenAiEngine.parseUserQuery uuid downParse 3 (aiConfig 2)
      "I need a smartwatch" None aiOutside = Some (Throw e, p')
    /\ length (XavenAiEngine.postCalls p') = 2%nat
    /\ includes (message e) "2" = true
    /\ includes (message e) "Service unavailable" = true.
Proof.
  destruct (terminal_error_reports_attempts_and_cause uuid downParse
              downOptimize 2 3 (aiConfig 2) (optimizerConfig 2)
              "I need a smartwatch" None tablet None aiOutside
              optimizerOutside)
    as (Ha & _); [lia | reflexivity | reflexivity | cbv; lia |].
  exact (Ha [unavailable] unavailable 2%nat eq_refl).
Defined.

(** No language given: "en", the default, is sent. *)
Lemma falsy_language_sends_default_run :
  XavenAiEngine.language
    (XavenAiEngine.payload_of uuid XavenAiEngine.defaultConfig
       "Need a laptop under 1500" (Some "") aiOutside) = "en"
  /\ XavenAiEngine.language
       (XavenAiEngine.payload_of uuid XavenAiEngine.defaultConfig
          "Need a laptop under 1500" (Some "es") aiOutside) = "es".
Proof.
  split.
  - destruct (falsy_language_sends_default uuid (flakyParse 0) 3
                XavenAiEngine.defaultConfig "Need a laptop under 1500"
                (Some "") aiOutside) as (_ & _ & Hd & _); [cbv; lia|].
    apply Hd. now right.
  - destruct (falsy_language_sends_default uuid (flakyParse 0) 3
                XavenAiEngine.defaultConfig "Need a laptop under 1500"
                (Some "es") aiOutside) as (_ & _ & _ & Hs); [cbv; lia|].
    apply Hs; [reflexivity | discriminate].
Defined.

(** C5, as stated, fails: called while the context of request "req-1" is
    active, both clients post a payload whose [correlationId] is the
    identifier from [uuidv4()], not "req-1". *)
Lemma payload_ignores_active_context :
  XavenContext.getCorrelationId (XavenAiEngine.asyncStore aiInScope)
  = Return (Some "req-1")
  /\ map XavenAiEngine.correlationId sentByParse
     = ["f47ac10b-58cc-4372-a567-0e02b2c3d479"]
  /\ map XavenPurchaseOptimizer.correlationId sentByOptimize
     = ["f47ac10b-58cc-4372-a567-0e02b2c3d479"]
  /\ ~ (forall pl, In pl sentByParse ->
                   XavenContext.getCorrelationId
                     (XavenAiEngine.asyncStore aiInScope)
                   = Return (Some (XavenAiEngine.correlationId pl)))
  /\ ~ (forall pl, In pl sentByOptimize ->
                   XavenContext.getCorrelationId
                     (XavenPurchaseOptimizer.asyncStore optimizerInScope)
                   = Return (Some (XavenPurchaseOptimizer.correlationId pl))).
Proof.
  repeat split.
  - intros H. specialize (H _ (or_introl eq_refl)). discriminate H.
  - intros H. specialize (H _ (or_introl eq_refl)). discriminate H.
Qed.

(** In scope or not, the identifier posted is the one [uuidv4()] gave. *)
Lemma correlation_id_is_generated_per_call_run :
  exists r w' n sent,
    XavenAiEngine.parseUserQuery uuid (flakyParse 0) 3
      XavenAiEngine.defaultConfig "Need a laptop under 1500" None aiInScope
    = Some (r, XavenAiEngine.mkProcess (Some activeContext) w' (repeat sent n))
    /\ XavenAiEngine.correlationId sent = "f47ac10b-58cc-4372-a567-0e02b2c3d479"
    /\ (1 <= n)%nat.
Proof.
  destruct (correlation_id_is_generated_per_call uuid (flakyParse 0)
              (flakyOptimize 0) 3 XavenAiEngine.defaultConfig
              XavenPurchaseOptimizer.defaultConfig "Need a laptop under 1500"
              None tablet None (Some activeContext) 0%nat [] [])
    as ((r & w' & n & sent & Heq & Hid & Hn) & _); [cbv; lia | cbv; lia |].
  exists r, w', n, sent. split; [exact Heq|].
  split; [exact Hid | apply Hn; cbv; discriminate].
Defined.

(** A header with white space around it is trimmed; without a header
    the identifier is generated. *)
Lemma correlation_id_seeding_run :
  XavenContext.correlationId (XavenContext.contextData requestA zeros)
  = "trimmed-correlation-id"
  /\ XavenContext.correlationId (XavenContext.contextData requestB zeros)
     = "00000000-0000-4000-8000-000000000000"
  /\ XavenContext.isUuidV4
       (XavenContext.correlationId (XavenContext.contextData requestB zeros))
     = true.
Proof.
  destruct (correlation_id_seeding requestA zeros XavenContext.Done
              XavenContext.idle) as (_ & Ha & _).
  destruct (correlation_id_seeding requestB zeros XavenContext.Done
              XavenContext.idle) as (_ & _ & Hb).
  split; [| split].
  - exact (Ha "   trimmed-correlation-id   " eq_refl eq_refl).
  - exact (proj1 (Hb (or_introl eq_refl))).
  - exact (proj2 (Hb (or_introl eq_refl))).
Defined.

(** Two requests in flight at once: the timer of the first fires after
    the second request arrived and sees the context of the first. *)
Lemma request_contexts_are_isolated_run :
  exists c1,
    XavenContext.seeded (XavenContext.run_events twoRequests XavenContext.idle)
      !! 0%nat = Some c1
    /\ XavenContext.correlationId c1 = "trimmed-correlation-id"
    /\ XavenContext.seenCorrelationId
         (XavenContext.observe
            (Some (XavenContext.contextData requestA zeros)))
       <> Return (Some "00000000-0000-4000-8000-000000000000").
Proof.
  destruct (request_contexts_are_isolated twoRequests 0
              (XavenContext.observe
                 (Some (XavenContext.contextData requestA zeros))))
    as (c1 & Hl & _ & _ & _ & Hother).
  - vm_compute. right. right. right. right. left. reflexivity.
  - exists c1. split; [exact Hl|].
    assert (c1 = XavenContext.contextData requestA zeros) as ->
        by (vm_compute in Hl |- *; congruence).
    split; [reflexivity|].
    apply (Hother 1%nat (XavenContext.contextData requestB zeros));
      [reflexivity | vm_compute; discriminate].
Defined.

(** Code that belongs to no request observes [undefined], also from a
    timer it set itself. *)
Lemma accessors_never_throw_run :
  XavenContext.observe None
  = XavenContext.mkObservation (Return None) (Return None) (Return None)
  /\ forall seen,
      In (XavenContext.Outside, seen)
         (XavenContext.observed
            (XavenContext.run_events twoRequests XavenContext.idle)) ->
      seen = XavenContext.observe None.
Proof.
  split; [reflexivity|]. intros seen Hin.
  destruct accessors_never_throw as (_ & _ & Hloop).
  destruct (Hloop twoRequests XavenContext.Outside seen Hin) as [_ Hout].
  exact (Hout eq_refl).
Defined.

(** The repository's caching test: the second call within the TTL is
    served from the cache; once the 10 seconds have passed the resource
    is fetched again. *)
Lemma cached_post_is_fetched_once_within_ttl :
  let s2 := XavenFactory.run_events
              [XavenFactory.Call url789;
               XavenFactory.Respond 0 (Resolved post789);
               XavenFactory.Call url789] XavenFactory.init in
  XavenFactory.axiosCalls s2 = [(0%nat, url789)]
  /\ XavenFactory.settled s2
     = [(0%nat, Return post789); (1%nat, Return post789)]
  /\ XavenFactory.activeCount s2 = 0%nat
  /\ XavenFactory.axiosCalls
       (XavenFactory.run_events
          [XavenFactory.Tick 10001; XavenFactory.Call url789] s2)
     = [(0%nat, url789); (2%nat, url789)].
Proof. vm_compute. repeat split. Qed.

(** C3 at a value JavaScript takes for false.  The upstream answers
    [null] for post 456.  The cache then holds a live entry for the URL,
    yet the next call within the TTL takes a slot of the gate and issues
    [axios.get] a second time. *)
Theorem falsy_cached_value_is_fetched_again :
  let s1 := XavenFactory.run_events
              [XavenFactory.Call url456;
               XavenFactory.Respond 0 (Resolved XavenFactory.JNull)]
              XavenFactory.init in
  let s2 := XavenFactory.fetchWithCache url456 s1 in
  XavenFactory.live_entry s1 url456 = Some XavenFactory.JNull
  /\ XavenFactory.axiosCalls s1 = [(0%nat, url456)]
  /\ XavenFactory.axiosCalls s2 = [(0%nat, url456); (1%nat, url456)]
  /\ XavenFactory.activeCount s2 = 1%nat
  /\ XavenFactory.settled s2 = XavenFactory.settled s1.
Proof. vm_compute. repeat split. Qed.

(** The request for post 456 fails: the caller gets the error, nothing
    is cached, and the next call fetches again. *)
Lemma loader_error_propagates_uncached_run :
  let s1 := XavenFactory.respond 0 (Rejected networkError)
              (XavenFactory.fetchWithCache url456 XavenFactory.init) in
  XavenFactory.settled s1 = [(0%nat, Throw networkError)]
  /\ XavenFactory.cache s1 = ∅
  /\ XavenFactory.axiosCalls (XavenFactory.fetchWithCache url456 s1)
     = [(0%nat, url456); (1%nat, url456)].
Proof.
  destruct (loader_error_propagates_uncached XavenFactory.init url456
              networkError eq_refl eq_refl eq_refl eq_refl)
    as (_ & Hs & Hc & _ & Ha).
  exact (conj Hs (conj Hc Ha)).
Defined.

(** Ten calls at once: three run, seven wait; ten answers later all ten
    have settled. *)
Lemma gate_limits_and_serves_in_order_run :
  length (XavenFactory.running
            (XavenFactory.run_events tenCalls XavenFactory.init)) = 3%nat
  /\ length (XavenFactory.queue
               (XavenFactory.run_events tenCalls XavenFactory.init)) = 7%nat
  /\ forall id, (id < 10)%nat ->
       In id (map fst
                (XavenFactory.settled
                   (XavenFactory.respond_all tenAnswers
                      (XavenFactory.run_events tenCalls XavenFactory.init)))).
Proof.
  split; [reflexivity | split; [reflexivity|]].
  destruct (gate_limits_and_serves_in_order tenCalls)
    as (_ & _ & _ & _ & _ & Hdrain).
  apply (Hdrain tenAnswers).
  - vm_compute. repeat split; auto 12.
  - reflexivity.
Defined.

End Runs.

(* ================================================================== *)
(** * Further properties *)
(* ================================================================== *)

(** ** The retry loops, for every behaviour of the remote side *)

Section RetryOutcomes.
Context {W : Type}.
Variable uuidv4 : W -> string * W.
Variable postA : XavenAiEngine.Payload -> W
                 -> Outcome XavenAiEngine.XavenAiParsedResult * W.
Variable postO : XavenPurchaseOptimizer.Payload -> W
                 -> Outcome XavenPurchaseOptimizer.XavenOptimizationResult * W.

Lemma ai_loop_outcomes cfg payload :
  forall fuel attempts lastError p,
    (Z.to_nat (XavenAiEngine.retryCount cfg - attempts) < fuel)%nat ->
    exists r w' n outs,
      XavenAiEngine.parseUserQuery_loop postA fuel cfg payload attempts lastError p
        = Some (r, XavenAiEngine.mkProcess (XavenAiEngine.asyncStore p) w'
                     (XavenAiEngine.postCalls p ++ repeat payload n))
      /\ replay postA payload n (XavenAiEngine.world p) = (outs, w')
      /\ match r with
         | Return v =>
             (n <= Z.to_nat (XavenAiEngine.retryCount cfg - attempts))%nat
             /\ exists errs, outs = map Rejected errs ++ [Resolved v]
         | Throw e =>
             n = Z.to_nat (XavenAiEngine.retryCount cfg - attempts)
             /\ exists errs,
                 outs = map Rejected errs
                 /\ e = mkError (XavenAiEngine.terminal_message cfg
                                   (last_error errs lastError))
         end.
Proof.
  induction fuel as [|fuel IH]; intros attempts lastError p Hf; [lia|].
  cbn [XavenAiEngine.parseUserQuery_loop].
  destruct (Z.ltb_spec attempts (XavenAiEngine.retryCount cfg)) as [Hlt|Hge].
  - unfold XavenAiEngine.client_post.
    destruct (postA payload (XavenAiEngine.world p)) as [[data|err] w1] eqn:Hp.
    + exists (Return data), w1, 1%nat, [Resolved data].
      split; [reflexivity|]. split; [cbn [replay]; now rewrite Hp|].
      split; [lia | now exists []].
    + destruct (IH (attempts + 1) (Some err)
                  (XavenAiEngine.mkProcess (XavenAiEngine.asyncStore p) w1
                     (XavenAiEngine.postCalls p ++ [payload])))
        as (r & w' & n & outs & Heq & Hr & Hshape); [lia|].
      cbn [XavenAiEngine.asyncStore XavenAiEngine.postCalls XavenAiEngine.world]
        in Heq, Hr.
      exists r, w', (S n), (Rejected err :: outs).
      split; [rewrite Heq, <- app_assoc; reflexivity|].
      split; [cbn [replay]; now rewrite Hp, Hr|].
      destruct r as [v|e].
      * destruct Hshape as [Hn (errs & ->)].
        split; [lia | now exists (err :: errs)].
      * destruct Hshape as [Hn (errs & -> & ->)].
        split; [lia|]. exists (err :: errs).
        split; [reflexivity | now rewrite last_error_cons].
  - exists (Throw (mkError (XavenAiEngine.terminal_message cfg lastError))),
      (XavenAiEngine.world p), 0%nat, [].
    split; [destruct p; cbn; now rewrite app_nil_r|].
    split; [reflexivity|]. split; [lia | now exists []].
Qed.

Lemma opt_loop_outcomes cfg body :
  forall fuel attempts lastError p,
    (Z.to_nat (XavenPurchaseOptimizer.retryCount cfg - attempts) < fuel)%nat ->
    exists r w' n outs,
      XavenPurchaseOptimizer.optimizePurchase_loop postO fuel cfg body attempts
        lastError p
        = Some (r, XavenPurchaseOptimizer.mkProcess
                     (XavenPurchaseOptimizer.asyncStore p) w'
                     (XavenPurchaseOptimizer.postCalls p ++ repeat body n))
      /\ replay postO body n (XavenPurchaseOptimizer.world p) = (outs, w')
      /\ match r with
         | Return v =>
             (n <= Z.to_nat (XavenPurchaseOptimizer.retryCount cfg - attempts))%nat
             /\ exists errs, outs = map Rejected errs ++ [Resolved v]
         | Throw e =>
             n = Z.to_nat (XavenPurchaseOptimizer.retryCount cfg - attempts)
             /\ exists errs,
                 outs = map Rejected errs
                 /\ e = mkError (XavenPurchaseOptimizer.terminal_message cfg
                                   (last_error errs lastError))
         end.
Proof.
  induction fuel as [|fuel IH]; intros attempts lastError p Hf; [lia|].
  cbn [XavenPurchaseOptimizer.optimizePurchase_loop].
  destruct (Z.ltb_spec attempts (XavenPurchaseOptimizer.retryCount cfg))
    as [Hlt|Hge].
  - unfold XavenPurchaseOptimizer.client_post.
    destruct (postO body (XavenPurchaseOptimizer.world p)) as [[data|err] w1] eqn:Hp.
    + exists (Return data), w1, 1%nat, [Resolved data].
      split; [reflexivity|]. split; [cbn [replay]; now rewrite Hp|].
      split; [lia | now exists []].
    + destruct (IH (attempts + 1) (Some err)
                  (XavenPurchaseOptimizer.mkProcess
                     (XavenPurchaseOptimizer.asyncStore p) w1
                     (XavenPurchaseOptimizer.postCalls p ++ [body])))
        as (r & w' & n & outs & Heq & Hr & Hshape); [lia|].
      cbn [XavenPurchaseOptimizer.asyncStore XavenPurchaseOptimizer.postCalls
             XavenPurchaseOptimizer.world] in Heq, Hr.
      exists r, w', (S n), (Rejected err :: outs).
      split; [rewrite Heq, <- app_assoc; reflexivity|].
      split; [cbn [replay]; now rewrite Hp, Hr|].
      destruct r as [v|e].
      * destruct Hshape as [Hn (errs & ->)].
        split; [lia | now exists (err :: errs)].
      * destruct Hshape as [Hn (errs & -> & ->)].
        split; [lia|]. exists (err :: errs).
        split; [reflexivity | now rewrite last_error_cons].
  - exists (Throw (mkError (XavenPurchaseOptimizer.terminal_message cfg lastError))),
      (XavenPurchaseOptimizer.world p), 0%nat, [].
    split; [destruct p; cbn; now rewrite app_nil_r|].
    split; [reflexivity|]. split; [lia | now exists []].
Qed.

(** X1.  Whatever the remote side does, each client calls it [n] times
    with one payload, [n] at most the retry ceiling.  It returns [v] when
    the [n]-th call is the first to succeed, [v] being its data; it
    throws when all [n] calls failed and [n] is the ceiling (0 for a
    ceiling that is not positive), the message naming the last failure. *)
Theorem retry_outcome_follows_remote
        (fuel : nat)
        (cfgA : XavenAiEngine.XavenAiEngineConfig)
        (cfgO : XavenPurchaseOptimizer.XavenPurchaseOptimizerConfig)
        (userQuery : string) (preferredLanguage : option string)
        (aiParsed : XavenAiEngine.XavenAiParsedResult) (userId : option string)
        (pA : XavenAiEngine.Process W) (pO : XavenPurchaseOptimizer.Process W) :
  (Z.to_nat (XavenAiEngine.retryCount cfgA) < fuel)%nat ->
  (Z.to_nat (XavenPurchaseOptimizer.retryCount cfgO) < fuel)%nat ->
  let sentA := XavenAiEngine.payload_of uuidv4 cfgA userQuery preferredLanguage pA in
  let sentO := XavenPurchaseOptimizer.payload_of uuidv4 cfgO aiParsed userId pO in
  (exists r w' n outs,
      XavenAiEngine.parseUserQuery uuidv4 postA fuel cfgA userQuery
        preferredLanguage pA
      = Some (r, XavenAiEngine.mkProcess (XavenAiEngine.asyncStore pA) w'
                   (XavenAiEngine.postCalls pA ++ repeat sentA n))
      /\ replay postA sentA n (snd (uuidv4 (XavenAiEngine.world pA))) = (outs, w')
      /\ match r with
         | Return v =>
             (n <= Z.to_nat (XavenAiEngine.retryCount cfgA))%nat
             /\ exists errs, outs = map Rejected errs ++ [Resolved v]
         | Throw e =>
             n = Z.to_nat (XavenAiEngine.retryCount cfgA)
             /\ exists errs,
                 outs = map Rejected errs
                 /\ e = mkError (XavenAiEngine.terminal_message cfgA
                                   (last_error errs None))
         end)
  /\ (exists r w' n outs,
      XavenPurchaseOptimizer.optimizePurchase uuidv4 postO fuel cfgO aiParsed
        userId pO
      = Some (r, XavenPurchaseOptimizer.mkProcess
                   (XavenPurchaseOptimizer.asyncStore pO) w'
                   (XavenPurchaseOptimizer.postCalls pO ++ repeat sentO n))
      /\ replay postO sentO n (snd (uuidv4 (XavenPurchaseOptimizer.world pO)))
         = (outs, w')
      /\ match r with
         | Return v =>
             (n <= Z.to_nat (XavenPurchaseOptimizer.retryCount cfgO))%nat
             /\ exists errs, outs = map Rejected errs ++ [Resolved v]
         | Throw e =>
             n = Z.to_nat (XavenPurchaseOptimizer.retryCount cfgO)
             /\ exists errs,
                 outs = map Rejected errs
                 /\ e = mkError (XavenPurchaseOptimizer.terminal_message cfgO
                                   (last_error errs None))
         end).
Proof.
  intros HfA HfO sentA sentO. split.
  - rewrite parseUserQuery_unfold.
    destruct (ai_loop_outcomes cfgA sentA fuel 0 None
                (XavenAiEngine.mkProcess (XavenAiEngine.asyncStore pA)
                   (snd (uuidv4 (XavenAiEngine.world pA)))
                   (XavenAiEngine.postCalls pA)))
      as (r & w' & n & outs & Heq & Hr & Hshape);
      [rewrite Z.sub_0_r; exact HfA|].
    rewrite Z.sub_0_r in Hshape. exists r, w', n, outs. repeat split; assumption.
  - rewrite optimizePurchase_unfold.
    destruct (opt_loop_outcomes cfgO sentO fuel 0 None
                (XavenPurchaseOptimizer.mkProcess
                   (XavenPurchaseOptimizer.asyncStore pO)
                   (snd (uuidv4 (XavenPurchaseOptimizer.world pO)))
                   (XavenPurchaseOptimizer.postCalls pO)))
      as (r & w' & n & outs & Heq & Hr & Hshape);
      [rewrite Z.sub_0_r; exact HfO|].
    rewrite Z.sub_0_r in Hshape. exists r, w', n, outs. repeat split; assumption.
Qed.

(** X2.  With a retry ceiling of 0 or less neither client calls the
    remote side at all: the method throws at once, and since no error was
    ever caught the message ends in "Last error: undefined". *)
Theorem nonpositive_ceiling_never_calls
        (fuel : nat)
        (cfgA : XavenAiEngine.XavenAiEngineConfig)
        (cfgO : XavenPurchaseOptimizer.XavenPurchaseOptimizerConfig)
        (userQuery : string) (preferredLanguage : option string)
        (aiParsed : XavenAiEngine.XavenAiParsedResult) (userId : option string)
        (pA : XavenAiEngine.Process W) (pO : XavenPurchaseOptimizer.Process W) :
  XavenAiEngine.retryCount cfgA <= 0 ->
  XavenPurchaseOptimizer.retryCount cfgO <= 0 ->
  (1 <= fuel)%nat ->
  XavenAiEngine.parseUserQuery uuidv4 postA fuel cfgA userQuery
    preferredLanguage pA
  = Some (Throw (mkError ("[XavenAiEngine] parseUserQuery failed after "
                            +:+ string_of_number (XavenAiEngine.retryCount cfgA)
                            +:+ " attempts. Last error: undefined")),
          XavenAiEngine.mkProcess (XavenAiEngine.asyncStore pA)
            (snd (uuidv4 (XavenAiEngine.world pA)))
            (XavenAiEngine.postCalls pA))
  /\ XavenPurchaseOptimizer.optimizePurchase uuidv4 postO fuel cfgO aiParsed
       userId pO
     = Some (Throw (mkError ("[XavenPurchaseOptimizer] optimizePurchase failed after "
                               +:+ string_of_number
                                     (XavenPurchaseOptimizer.retryCount cfgO)
                               +:+ " attempts. Last error: undefined")),
             XavenPurchaseOptimizer.mkProcess
               (XavenPurchaseOptimizer.asyncStore pO)
               (snd (uuidv4 (XavenPurchaseOptimizer.world pO)))
               (XavenPurchaseOptimizer.postCalls pO)).
Proof.
  intros HA HO Hf. destruct fuel as [|fuel]; [lia|]. split.
  - rewrite parseUserQuery_unfold. cbn [XavenAiEngine.parseUserQuery_loop].
    destruct (Z.ltb_spec 0 (XavenAiEngine.retryCount cfgA)); [lia | reflexivity].
  - rewrite optimizePurchase_unfold.
    cbn [XavenPurchaseOptimizer.optimizePurchase_loop].
    destruct (Z.ltb_spec 0 (XavenPurchaseOptimizer.retryCount cfgO));
      [lia | reflexivity].
Qed.

(** X3.  Clients built by their constructors: a value supplied in the
    partial config is used as it is, also when it is 0, [""] or [false];
    a value left out gets its default.  So the AI client calls at most
    [retryCount] times (twice when none was supplied) and falls back to
    the supplied default language ("en" when none was supplied); the
    optimizer calls at most [retryCount] times (twice by default) and
    posts the supplied concurrency override, if any, and the supplied
    invalidation flag ([false] by default). *)
Theorem constructed_clients_use_supplied_or_default
        (fuel : nat)
        (configA : option XavenAiEngineCtor.PartialConfig)
        (configO : option XavenPurchaseOptimizerCtor.PartialConfig)
        (userQuery : string) (preferredLanguage : option string)
        (aiParsed : XavenAiEngine.XavenAiParsedResult) (userId : option string)
        (pA : XavenAiEngine.Process W) (pO : XavenPurchaseOptimizer.Process W) :
  let ceilingA :=
    match configA ≫= XavenAiEngineCtor.retryCount_opt with
    | Some r => r | None => 2 end in
  let ceilingO :=
    match configO ≫= XavenPurchaseOptimizerCtor.retryCount_opt with
    | Some r => r | None => 2 end in
  let fallback :=
    match configA ≫= XavenAiEngineCtor.defaultLanguage_opt with
    | Some l => l | None => "en" end in
  let flag :=
    match configO ≫= XavenPurchaseOptimizerCtor.enableCacheInvalidation_opt with
    | Some b => b | None => false end in
  (Z.to_nat ceilingA < fuel)%nat ->
  (Z.to_nat ceilingO < fuel)%nat ->
  (exists r w' n,
      XavenAiEngine.parseUserQuery uuidv4 postA fuel
        (XavenAiEngineCtor.finalConfig configA) userQuery preferredLanguage pA
      = Some (r, XavenAiEngine.mkProcess (XavenAiEngine.asyncStore pA) w'
                   (XavenAiEngine.postCalls pA
                      ++ repeat (XavenAiEngine.mkPayload
                                   (fst (uuidv4 (XavenAiEngine.world pA)))
                                   userQuery
                                   (or_string preferredLanguage fallback)) n))
      /\ (n <= Z.to_nat ceilingA)%nat)
  /\ (exists r w' n,
      XavenPurchaseOptimizer.optimizePurchase uuidv4 postO fuel
        (XavenPurchaseOptimizerCtor.finalConfig configO) aiParsed userId pO
      = Some (r, XavenPurchaseOptimizer.mkProcess
                   (XavenPurchaseOptimizer.asyncStore pO) w'
                   (XavenPurchaseOptimizer.postCalls pO
                      ++ repeat (XavenPurchaseOptimizer.mkPayload
                                   (fst (uuidv4 (XavenPurchaseOptimizer.world pO)))
                                   userId
                                   (XavenPurchaseOptimizer.mkInner aiParsed
                                      (configO ≫= XavenPurchaseOptimizerCtor.concurrencyOverride_opt)
                                      flag)) n))
      /\ (n <= Z.to_nat ceilingO)%nat).
Proof.
  intros ceilingA ceilingO fallback flag HfA HfO. split.
  - rewrite parseUserQuery_unfold.
    destruct (ai_loop_total postA (XavenAiEngineCtor.finalConfig configA)
                (XavenAiEngine.payload_of uuidv4
                   (XavenAiEngineCtor.finalConfig configA) userQuery
                   preferredLanguage pA) fuel 0 None
                (XavenAiEngine.mkProcess (XavenAiEngine.asyncStore pA)
                   (snd (uuidv4 (XavenAiEngine.world pA)))
                   (XavenAiEngine.postCalls pA)))
      as (r & w' & n & Heq & Hn & _).
    + rewrite Z.sub_0_r. exact HfA.
    + rewrite Z.sub_0_r in Hn. exists r, w', n. split; [exact Heq | exact Hn].
  - rewrite optimizePurchase_unfold.
    destruct (opt_loop_total postO (XavenPurchaseOptimizerCtor.finalConfig configO)
                (XavenPurchaseOptimizer.payload_of uuidv4
                   (XavenPurchaseOptimizerCtor.finalConfig configO) aiParsed
                   userId pO) fuel 0 None
                (XavenPurchaseOptimizer.mkProcess
                   (XavenPurchaseOptimizer.asyncStore pO)
                   (snd (uuidv4 (XavenPurchaseOptimizer.world pO)))
                   (XavenPurchaseOptimizer.postCalls pO)))
      as (r & w' & n & Heq & Hn & _).
    + rewrite Z.sub_0_r. exact HfO.
    + rewrite Z.sub_0_r in Hn. exists r, w', n. split; [exact Heq | exact Hn].
Qed.

End RetryOutcomes.

(** ** [forceCacheInvalidation] *)

Section InvalidationFacts.
Context {W D : Type}.
Variable delete : string -> string -> W -> Outcome D * W.

(** X4.  [forceCacheInvalidation] never throws.  With invalidation
    disabled it sends nothing; enabled, it sends exactly one [delete] to
    "/cache" carrying the reason, and a failure of that request is
    swallowed, without a second attempt. *)
Theorem invalidation_sends_at_most_once_and_swallows
        (cfg : XavenPurchaseOptimizer.XavenPurchaseOptimizerConfig)
        (reason : string) (c : XavenPurchaseOptimizerCtor.CacheClient W) :
  let out := XavenPurchaseOptimizerCtor.forceCacheInvalidation delete cfg reason c in
  fst out = Return tt
  /\ (XavenPurchaseOptimizer.enableCacheInvalidation cfg = false -> snd out = c)
  /\ (XavenPurchaseOptimizer.enableCacheInvalidation cfg = true ->
      snd out
      = XavenPurchaseOptimizerCtor.mkCacheClient
          (snd (delete "/cache" reason (XavenPurchaseOptimizerCtor.remote c)))
          (XavenPurchaseOptimizerCtor.deleteCalls c ++ [("/cache", reason)])).
Proof.
  unfold XavenPurchaseOptimizerCtor.forceCacheInvalidation,
    XavenPurchaseOptimizerCtor.client_delete.
  destruct (XavenPurchaseOptimizer.enableCacheInvalidation cfg); cbn [negb].
  - destruct (delete "/cache" reason (XavenPurchaseOptimizerCtor.remote c))
      as [[d|e] w']; cbn; repeat split; congruence.
  - cbn. repeat split; congruence.
Qed.

End InvalidationFacts.

(** ** More on the seeding of the context *)

Section SeedingMore.
Import XavenContext.

Lemma uuid_v4_nonempty (s : string) : isUuidV4 s = true -> s <> "".
Proof. intros H ->. discriminate H. Qed.

Lemma contextData_id_nonempty (req : Request) (rnd : nat -> Byte.byte) :
  correlationId (contextData req rnd) <> "".
Proof.
  unfold contextData. cbn [correlationId].
  pose proof (uuid_v4_nonempty _ (randomUUID_is_v4 rnd)) as Hu.
  destruct (headers req !! "x-correlation-id") as [[s|vs]|]; try exact Hu.
  destruct (trim s) as [|c r] eqn:Ht; cbn; [exact Hu | discriminate].
Qed.

Lemma step_seeded_nonempty l e :
  Forall (fun c => correlationId c <> "") (seeded l) ->
  Forall (fun c => correlationId c <> "") (seeded (step l e)).
Proof.
  intros H. destruct e as [req rnd next | i | c]; cbn [step].
  - unfold xavenContextMiddleware.
    destruct (exec _ _ next) as [ts obs]. cbn [seeded].
    apply Forall_app. split; [exact H|].
    constructor; [apply contextData_id_nonempty | constructor].
  - destruct (pending l !! i) as [t|]; [|exact H].
    destruct (exec _ _ (body t)). exact H.
  - destruct (exec Outside None c). exact H.
Qed.

Lemma run_seeded_nonempty evs :
  forall l, Forall (fun c => correlationId c <> "") (seeded l) ->
            Forall (fun c => correlationId c <> "") (seeded (run_events evs l)).
Proof.
  unfold run_events. induction evs as [|e evs IH]; intros l H; [exact H|].
  cbn [fold_left]. apply IH, step_seeded_nonempty, H.
Qed.

(** X5.  The correlation id the middleware seeds is never the empty
    string, whatever the request carries.  Hence, in every run of the
    event loop, code running for a request always reads a non-empty
    correlation id from [getCorrelationId]. *)
Theorem seeded_correlation_id_never_empty :
  (forall req rnd, correlationId (contextData req rnd) <> "")
  /\ (forall evs r seen,
         In (FromRequest r, seen) (observed (run_events evs idle)) ->
         exists id, seenCorrelationId seen = Return (Some id) /\ id <> "").
Proof.
  split; [apply contextData_id_nonempty|].
  intros evs r seen Hin.
  destruct (run_events_consistent evs idle idle_consistent) as [_ Hobs].
  rewrite Forall_forall in Hobs. apply list_elem_of_In in Hin.
  destruct (Hobs _ Hin) as (store & (c & Hl & ->) & ->).
  exists (correlationId c). split; [reflexivity|].
  pose proof (run_seeded_nonempty evs idle (Forall_nil_2 _)) as Hne.
  rewrite Forall_forall in Hne. apply Hne.
  apply list_elem_of_lookup. now exists r.
Qed.

(** X6.  The user id of a request is copied into its context when it is
    a non-empty string; an absent or empty user id gives a context
    without user id, so [getUserId] never returns the empty string.  The
    rest of the chain, run by the middleware, reads exactly that. *)
Theorem user_id_seeding
        (req : Request) (rnd : nat -> Byte.byte) (next : Code) (l : Loop) :
  let ctx := contextData req rnd in
  (reqUserId req = None \/ reqUserId req = Some "" -> userId ctx = None)
  /\ (forall u, reqUserId req = Some u -> u <> "" -> userId ctx = Some u)
  /\ userId ctx <> Some ""
  /\ (forall o seen,
         In (o, seen) (observed (xavenContextMiddleware req rnd next l)) ->
         In (o, seen) (observed l) \/ seenUserId seen = Return (userId ctx)).
Proof.
  intros ctx. repeat split.
  - intros [H | H]; unfold ctx, contextData; cbn [userId]; now rewrite H.
  - intros u H Hu. unfold ctx, contextData. cbn [userId]. rewrite H.
    destruct u; [congruence | reflexivity].
  - unfold ctx, contextData. cbn [userId].
    destruct (reqUserId req) as [[|c u]|]; discriminate.
  - intros o seen Hin. unfold xavenContextMiddleware in Hin. fold ctx in Hin.
    destruct (exec (FromRequest (length (seeded l))) (Some ctx) next)
      as [ts obs] eqn:E.
    cbn [observed] in Hin.
    apply in_app_or in Hin as [Hin | Hin]; [now left | right].
    destruct (exec_sound next _ _ _ _ E) as [_ Hobs].
    rewrite Forall_forall in Hobs. apply list_elem_of_In in Hin.
    specialize (Hobs _ Hin). now inversion Hobs.
Qed.

End SeedingMore.

(** ** The services and routes of the factory *)

Section RoutesFacts.
Import XavenFactory XavenFactoryRoutes.





Lemma fetch_miss u s :
  truthy (cache_get (cache s) u (now s)) = false ->
  fetchWithCache u s
  = limit (mkTask (nextId s) u)
      (mkState (cache s) (now s) (activeCount s) (queue s) (running s)
               (axiosCalls s) (releases s) (settled s) (S (nextId s))).
Proof. intros H. unfold fetchWithCache. fields. now rewrite H. Qed.

Lemma getPostsInBulk_cons id ids s :
  getPostsInBulk (id :: ids) s = getPostsInBulk ids (getPostById id s).
Proof. reflexivity. Qed.

Lemma bulk_miss_shape (ids : list Z) :
  forall s,
    (forall id, In id ids ->
                truthy (cache_get (cache s) (postUrl id) (now s)) = false) ->
    let s' := getPostsInBulk ids s in
    let free := (concurrency - activeCount s)%nat in
    (cache s' = cache s /\ now s' = now s /\ settled s' = settled s
     /\ releases s' = releases s /\ nextId s' = (nextId s + length ids)%nat)
    /\ activeCount s' = (activeCount s + Nat.min free (length ids))%nat
    /\ map url (running s') = map url (running s) ++ take free (map postUrl ids)
    /\ map snd (axiosCalls s')
       = map snd (axiosCalls s) ++ take free (map postUrl ids)
    /\ map url (queue s') = map url (queue s) ++ drop free (map postUrl ids).
Proof.
  induction ids as [|id ids IH]; intros s Hmiss s' free.
  - subst s'. cbn [getPostsInBulk fold_left map length].
    rewrite take_nil, drop_nil, !app_nil_r, Nat.min_0_r, !Nat.add_0_r.
    repeat split.
  - subst s'. rewrite getPostsInBulk_cons. unfold getPostById.
    rewrite (fetch_miss _ s) by (apply Hmiss; now left).
    unfold limit. cbn [activeCount].
    destruct (Nat.ltb_spec (activeCount s) concurrency) as [Hfree|Hbusy].
    + match goal with
      | |- context [getPostsInBulk ids ?s1] =>
          destruct (IH s1) as ((Hc & Hn & Hs & Hr & Hi) & Ha & Hrun & Hax & Hq)
      end.
      { fields. intros i Hi. apply Hmiss. now right. }
      rewrite Hc, Hn, Hs, Hr, Hi, Ha, Hrun, Hax, Hq. fields.
      rewrite !map_app. cbn [map url snd length].
      subst free. unfold concurrency in *.
      destruct (3 - activeCount s)%nat as [|f] eqn:Hf; [lia|].
      replace (3 - S (activeCount s))%nat with f by lia.
      cbn [take drop]. rewrite <- !app_assoc. cbn [app].
      repeat split; lia.
    + match goal with
      | |- context [getPostsInBulk ids ?s1] =>
          destruct (IH s1) as ((Hc & Hn & Hs & Hr & Hi) & Ha & Hrun & Hax & Hq)
      end.
      { fields. intros i Hi. apply Hmiss. now right. }
      rewrite Hc, Hn, Hs, Hr, Hi, Ha, Hrun, Hax, Hq. fields.
      rewrite !map_app. cbn [map url snd length].
      subst free. unfold concurrency in *.
      replace (3 - activeCount s)%nat with 0%nat by lia.
      cbn [take drop]. rewrite <- !app_assoc, !app_nil_r. cbn [app].
      repeat split; lia.
Qed.

(** X8.  [getPostsInBulk] on safe integers none of which has a usable
    cache entry:
    every id becomes a task of its own, repeated ids included (there is
    no coalescing).  The first ids, as many as slots are free, are
    fetched at once in the order given; the others wait in that order;
    nothing is answered or cached yet. *)
Theorem bulk_fetch_schedules_in_order (ids : list Z) (s : State) :
  Forall safeInteger ids ->
  (forall id, In id ids ->
              truthy (cache_get (cache s) (postUrl id) (now s)) = false) ->
  let s' := getPostsInBulk ids s in
  let free := (3 - activeCount s)%nat in
  map snd (axiosCalls s') = map snd (axiosCalls s) ++ take free (map postUrl ids)
  /\ map url (running s') = map url (running s) ++ take free (map postUrl ids)
  /\ map url (queue s') = map url (queue s) ++ drop free (map postUrl ids)
  /\ activeCount s' = (activeCount s + Nat.min free (length ids))%nat
  /\ nextId s' = (nextId s + length ids)%nat
  /\ settled s' = settled s
  /\ cache s' = cache s.
Proof.
  intros _ Hmiss s' free.
  destruct (bulk_miss_shape ids s Hmiss)
    as ((Hc & Hn & Hs & Hr & Hi) & Ha & Hrun & Hax & Hq).
  repeat split; assumption.
Qed.

Lemma respond_resolved_cache id t data s :
  find_running id s = Some t ->
  cache (respond id (Resolved data) s) = cache_set (cache s) (url t) data (now s)
  /\ now (respond id (Resolved data) s) = now s
  /\ settled (respond id (Resolved data) s) = settled s ++ [(id, Return data)]
  /\ nextId (respond id (Resolved data) s) = nextId s.
Proof.
  intros Hfind. unfold respond. rewrite Hfind. unfold release, remove_running.
  fields. destruct (queue s); fields; repeat split.
Qed.

(** X9.  A response is cached for 10 seconds counted from the moment it
    arrives, not from the call: the entry written for the URL expires at
    the time of the response plus 10000 ms.  A later call for the URL
    less than 10 s after the response gets a value JavaScript takes for
    true from the cache, without request and without waiting; a call
    more than 10 s after it goes to the gate like a first call. *)
Theorem entry_lives_ten_seconds_from_response
        (s : State) (id : nat) (t : Task) (data : Json) (dt : N) :
  find_running id s = Some t ->
  let s1 := respond id (Resolved data) s in
  cache s1 !! url t = Some (data, now s + 10000)
  /\ (truthy data = true -> Z.of_N dt < 10000 ->
      let s2 := fetchWithCache (url t) (tick dt s1) in
      settled s2 = settled s1 ++ [(nextId s1, Return data)]
      /\ axiosCalls s2 = axiosCalls s1
      /\ queue s2 = queue s1
      /\ activeCount s2 = activeCount s1)
  /\ (10000 < Z.of_N dt ->
      fetchWithCache (url t) (tick dt s1)
      = limit (mkTask (nextId s1) (url t))
          (mkState (cache s1) (now s + Z.of_N dt) (activeCount s1) (queue s1)
                   (running s1) (axiosCalls s1) (releases s1) (settled s1)
                   (S (nextId s1)))).
Proof.
  intros Hfind s1.
  destruct (respond_resolved_cache id t data s Hfind) as (Hc & Hn & Hs & Hi).
  fold s1 in Hc, Hn, Hs, Hi.
  assert (cache s1 !! url t = Some (data, now s + 10000)) as Hentry.
  { rewrite Hc. unfold cache_set, stdTTL. now rewrite lookup_insert_eq. }
  split; [exact Hentry|]. split.
  - intros Ht Hdt s2.
    assert (cache_get (cache (tick dt s1)) (url t) (now (tick dt s1)) = data)
      as Hget.
    { unfold cache_get, tick. fields. rewrite Hentry, Hn.
      destruct (Z.ltb_spec (now s + Z.of_N dt) (now s + 10000)); [reflexivity | lia]. }
    unfold s2. rewrite fetch_hit by now rewrite Hget.
    rewrite Hget. unfold tick. fields. repeat split.
  - intros Hdt.
    assert (cache_get (cache (tick dt s1)) (url t) (now (tick dt s1)) = JUndefined)
      as Hget.
    { unfold cache_get, tick. fields. rewrite Hentry, Hn.
      destruct (Z.ltb_spec (now s + Z.of_N dt) (now s + 10000)); [lia | reflexivity]. }
    rewrite fetch_miss by now rewrite Hget.
    unfold tick. fields. now rewrite Hn.
Qed.

Lemma running_ids_below s t :
  gate_ok s -> In t (running s) -> (taskId t < nextId s)%nat.
Proof.
  intros Hok Hin. pose proof (ok_calls s Hok) as Hc.
  assert (In (taskId t) (seq 0 (nextId s))) as Hs.
  { eapply Permutation_in; [symmetry; exact Hc|].
    apply in_or_app. right. apply in_or_app. left.
    unfold ids. now apply in_map. }
  apply in_seq in Hs. lia.
Qed.

Lemma find_last_started (l : list Task) (n : nat) (u : string) :
  (forall t, In t l -> (taskId t < n)%nat) ->
  List.find (fun t => (taskId t =? n)%nat) (l ++ [mkTask n u]) = Some (mkTask n u).
Proof.
  induction l as [|t l IH]; intros H; cbn [app List.find taskId].
  - now rewrite Nat.eqb_refl.
  - destruct (Nat.eqb_spec (taskId t) n) as [Heq|Hne].
    + specialize (H t (or_introl eq_refl)). lia.
    + apply IH. intros t' Ht'. apply H. now right.
Qed.

Lemma respond_settles id t o s :
  find_running id s = Some t ->
  settled (respond id o s)
  = settled s ++ [(id, match o with
                       | Resolved data => Return data
                       | Rejected err => Throw err
                       end)].
Proof.
  intros Hfind. unfold respond. rewrite Hfind. unfold release, remove_running.
  destruct o; fields; destruct (queue s); fields; reflexivity.
Qed.

Lemma postByIdRoute_numeric str s :
  numericString str = true ->
  postByIdRoute (Some (QString str)) s
  = (AwaitingPost (nextId s) str, getPostById (parseInt10 str) s).
Proof.
  intros H. unfold postByIdRoute. cbn [postByIdQuerySchema_parse].
  now rewrite H.
Qed.

(** X10.  [GET /post-by-id].  A [postId] that is missing, not a string,
    empty or not all decimal digits is answered 400 "Validation failed"
    and neither the cache nor the upstream is touched.  For a numeric
    [postId] of at most 15 digits, in any state the service can reach, with a free slot and no
    usable cache entry: [axios.get] is issued for the URL of the parsed
    number, and once the upstream answers, the response is 200 with the
    body when JavaScript takes it for true, 404 "Post with ID <postId>
    not found" (the [postId] as it was sent) when it does not, and 500
    "Internal Server Error" when the request failed, whatever the error
    says. *)
Theorem post_by_id_route_outcomes
        (evs : list Event) (q : option QueryValue) (str : string)
        (o : Outcome Json) :
  let s := run_events evs init in
  ((q = None \/ q = Some QOther
    \/ (exists bad, q = Some (QString bad) /\ numericString bad = false)) ->
   exists issues,
     postByIdRoute q s = (Responded (mkResponse 400 (ValidationBody issues)), s))
  /\ (numericString str = true ->
      (String.length str <= 15)%nat ->
      (activeCount s < 3)%nat ->
      truthy (cache_get (cache s) (postUrl (parseInt10 str)) (now s)) = false ->
      let s1 := snd (postByIdRoute (Some (QString str)) s) in
      let s2 := respond (nextId s) o s1 in
      fst (postByIdRoute (Some (QString str)) s) = AwaitingPost (nextId s) str
      /\ axiosCalls s1 = axiosCalls s ++ [(nextId s, postUrl (parseInt10 str))]
      /\ exists r,
          settled s2 = settled s ++ [(nextId s, r)]
          /\ postByIdRoute_resume str r
             = match o with
               | Resolved data =>
                   if truthy data then mkResponse 200 (PostBody data)
                   else mkResponse 404
                          (ErrorBody ("Post with ID " +:+ str +:+ " not found")
                                     None)
               | Rejected _ => mkResponse 500 InternalErrorBody
               end).
Proof.
  intros s. split.
  - intros [-> | [-> | (bad & -> & Hbad)]]; unfold postByIdRoute;
      cbn [postByIdQuerySchema_parse]; rewrite ?Hbad; eexists; reflexivity.
  - intros Hnum _ Hfree Hmiss s1 s2.
    assert (gate_ok s) as Hok by (apply gate_ok_run, gate_ok_init).
    subst s2 s1. rewrite (postByIdRoute_numeric str s Hnum). cbn [fst snd].
    set (s1 := getPostById (parseInt10 str) s).
    split; [reflexivity|].
    assert (s1 = mkState (cache s) (now s) (S (activeCount s)) (queue s)
                         (running s ++ [mkTask (nextId s) (postUrl (parseInt10 str))])
                         (axiosCalls s ++ [(nextId s, postUrl (parseInt10 str))])
                         (releases s) (settled s) (S (nextId s))) as Hs1.
    { unfold s1, getPostById. now apply fetch_miss_free. }
    split; [now rewrite Hs1|].
    assert (find_running (nextId s) s1
            = Some (mkTask (nextId s) (postUrl (parseInt10 str)))) as Hfind.
    { rewrite Hs1. unfold find_running. fields.
      apply find_last_started. intros t Ht. now apply running_ids_below. }
    eexists. split.
    + rewrite (respond_settles _ _ o s1 Hfind). now rewrite Hs1.
    + destruct o as [data|err]; cbn [postByIdRoute_resume errorHandler];
        [destruct (truthy data)|]; reflexivity.
Qed.

Lemma values_of_length calls done posts :
  values_of calls done = Some posts -> length posts = length calls.
Proof.
  revert posts. induction calls as [|id calls IH]; intros posts H;
    cbn [values_of] in H.
  - inversion H. reflexivity.
  - destruct (value_of id done); [|discriminate].
    destruct (values_of calls done) as [vs|]; [|discriminate].
    inversion H. cbn [length]. now rewrite (IH vs).
Qed.

Lemma first_rejection_some calls done id e :
  In (id, Throw e) done -> In id calls ->
  exists e', first_rejection calls done = Some e'.
Proof.
  intros Hin Hid. induction done as [|[id' r] done IH]; [destruct Hin|].
  cbn [first_rejection]. destruct r as [v|e0].
  - destruct Hin as [Heq|Hin]; [discriminate | now apply IH].
  - destruct (existsb (Nat.eqb id') calls) eqn:Hex; [now exists e0|].
    destruct Hin as [Heq|Hin]; [|now apply IH].
    inversion Heq; subst.
    assert (existsb (Nat.eqb id) calls = true) as Hyes.
    { apply existsb_exists. exists id. split; [exact Hid | apply Nat.eqb_refl]. }
    congruence.
Qed.

(** X11.  [POST /bulk-fetch].  An empty [postIds] is answered 400 with
    "Must provide at least one postId.", a missing or ill-typed one 400,
    in both cases without any call.  For a list of numbers the route
    makes one call per id.  When all calls have returned, the response
    is 200 with [count] the number of ids requested and the bodies as
    they came, falsy ones included (no 404 here); when one call failed,
    the response is 500, whatever the other calls returned. *)
Theorem bulk_fetch_route_outcomes
        (s : State) (ids : list Z) (done : list (nat * Completion Json)) :
  (exists issues,
      bulkFetchRoute (Some []) s
      = (Responded (mkResponse 400 (ValidationBody issues)), s)
      /\ In (CustomIssue "Must provide at least one postId.") issues)
  /\ (exists issues,
         bulkFetchRoute None s
         = (Responded (mkResponse 400 (ValidationBody issues)), s))
  /\ (forall items,
         numbers_of items = None ->
         exists issues,
           bulkFetchRoute (Some items) s
           = (Responded (mkResponse 400 (ValidationBody issues)), s))
  /\ (ids <> [] ->
      let calls := seq (nextId s) (length ids) in
      bulkFetchRoute (Some (map ItemNumber ids)) s
      = (AwaitingPosts calls, getPostsInBulk ids s)
      /\ (forall posts,
             promise_all calls done = Some (Return posts) ->
             length posts = length ids
             /\ bulkFetchRoute_resume (Return posts)
                = mkResponse 200 (BulkBody (length ids) posts))
      /\ (forall id e,
             In id calls -> In (id, Throw e) done ->
             exists e',
               promise_all calls done = Some (Throw e')
               /\ bulkFetchRoute_resume (Throw e')
                  = mkResponse 500 InternalErrorBody)).
Proof.
  split; [|split; [|split]].
  - eexists. split; [reflexivity | now left].
  - eexists. reflexivity.
  - intros items Hn. unfold bulkFetchRoute, bulkFetchSchema_parse.
    destruct items as [|i items]; [discriminate Hn|].
    rewrite Hn. eexists. reflexivity.
  - intros Hne calls.
    assert (numbers_of (map ItemNumber ids) = Some ids) as Hnum.
    { clear. induction ids as [|i ids IH]; [reflexivity|].
      cbn [map numbers_of]. now rewrite IH. }
    split; [|split].
    + unfold bulkFetchRoute, bulkFetchSchema_parse. rewrite Hnum.
      destruct ids as [|i ids']; [congruence | reflexivity].
    + intros posts Hp. unfold promise_all in Hp.
      destruct (first_rejection calls done); [discriminate|].
      destruct (values_of calls done) as [vs|] eqn:Hv; [|discriminate].
      inversion Hp; subst vs.
      pose proof (values_of_length _ _ _ Hv) as Hl.
      unfold calls in Hl. rewrite length_seq in Hl.
      split; [exact Hl|]. cbn [bulkFetchRoute_resume]. now rewrite Hl.
    + intros id e Hid Hin.
      destruct (first_rejection_some calls done id e Hin Hid) as [e' He'].
      exists e'. unfold promise_all. rewrite He'. split; reflexivity.
Qed.

Lemma find_running_after_respond id1 o id2 t2 s :
  id1 <> id2 ->
  find_running id2 s = Some t2 ->
  find_running id2 (respond id1 o s) = Some t2.
Proof.
  intros Hne Hf2. unfold respond.
  destruct (find_running id1 s) as [t1|] eqn:Hf1; [|exact Hf2].
  assert (forall extra,
             List.find (fun t => (taskId t =? id2)%nat)
               (List.filter (fun t => negb (taskId t =? id1)%nat) (running s)
                  ++ extra) = Some t2) as Hkeep.
  { intros extra. unfold find_running in Hf2.
    induction (running s) as [|t l IH]; [discriminate|].
    cbn [List.find] in Hf2. cbn [List.filter].
    destruct (Nat.eqb_spec (taskId t) id2) as [E2|N2].
    - inversion Hf2; subst t2.
      destruct (Nat.eqb_spec (taskId t) id1) as [E1|N1]; [congruence|].
      cbn [negb app List.find]. destruct (Nat.eqb_spec (taskId t) id2); congruence.
    - destruct (Nat.eqb_spec (taskId t) id1) as [E1|N1]; cbn [negb app List.find].
      + now apply IH.
      + destruct (Nat.eqb_spec (taskId t) id2); [congruence | now apply IH]. }
  unfold release, remove_running, find_running.
  destruct o as [data|err]; fields;
    destruct (queue s) as [|t' waiting]; fields;
    first [ apply Hkeep | rewrite <- (app_nil_r (List.filter _ _)); apply Hkeep ].
Qed.

(** X18.  Two calls for one URL in flight at the same time both write the
    cache when they are answered, and the later answer wins: the entry
    holds its data and expires 10 s after it arrived. *)
Theorem concurrent_misses_last_write_wins
        (s : State) (id1 id2 : nat) (t1 t2 : Task) (d1 d2 : Json) (dt : N) :
  id1 <> id2 ->
  find_running id1 s = Some t1 ->
  find_running id2 s = Some t2 ->
  url t1 = url t2 ->
  let s1 := respond id1 (Resolved d1) s in
  let s2 := respond id2 (Resolved d2) (tick dt s1) in
  cache s1 !! url t1 = Some (d1, now s + 10000)
  /\ cache s2 !! url t1 = Some (d2, now s + Z.of_N dt + 10000)
  /\ settled s2 = settled s ++ [(id1, Return d1); (id2, Return d2)].
Proof.
  intros Hne Hf1 Hf2 Hu s1 s2.
  destruct (respond_resolved_cache id1 t1 d1 s Hf1) as (Hc1 & Hn1 & Hs1 & _).
  fold s1 in Hc1, Hn1, Hs1.
  assert (find_running id2 (tick dt s1) = Some t2) as Hf2'.
  { unfold find_running, tick. fields.
    exact (find_running_after_respond id1 (Resolved d1) id2 t2 s Hne Hf2). }
  destruct (respond_resolved_cache id2 t2 d2 (tick dt s1) Hf2')
    as (Hc2 & _ & Hs2 & _).
  fold s2 in Hc2, Hs2. split; [|split].
  - rewrite Hc1. unfold cache_set, stdTTL. now rewrite lookup_insert_eq.
  - rewrite Hc2, Hu. unfold cache_set, stdTTL, tick. fields.
    now rewrite lookup_insert_eq, Hn1.
  - rewrite Hs2. unfold tick. fields. rewrite Hs1, <- app_assoc. reflexivity.
Qed.

(** X19.  The cache is looked up only when [fetchWithCache] is called,
    not again when a waiting call gets its slot.  When an answer caches
    the data for a URL while another call for that URL waits at the head
    of the queue, that call still issues [axios.get] for the URL. *)
Theorem queued_call_fetches_though_cached
        (s : State) (id : nat) (t t' : Task) (data : Json)
        (waiting : list Task) :
  find_running id s = Some t ->
  queue s = t' :: waiting ->
  url t' = url t ->
  let s1 := respond id (Resolved data) s in
  cache s1 !! url t' = Some (data, now s + 10000)
  /\ axiosCalls s1 = axiosCalls s ++ [(taskId t', url t')]
  /\ In t' (running s1).
Proof.
  intros Hfind Hq Hu s1.
  destruct (respond_resolved_cache id t data s Hfind) as (Hc & _).
  fold s1 in Hc.
  assert (In id (ids (running s))) as Hin.
  { apply find_running_some in Hfind as [Hid Ht]. subst id.
    unfold ids. now apply in_map. }
  destruct (release_hands_over id (Resolved data) s t' waiting Hin Hq)
    as (_ & Hrun & Hax).
  fold s1 in Hrun, Hax. split; [|split; assumption].
  rewrite Hc, Hu. unfold cache_set, stdTTL. now rewrite lookup_insert_eq.
Qed.

End RoutesFacts.

(** ** The dependency injector *)

Section InjectorFacts.
Import XavenFactory DependencyInjector.
Context {W : Type}.

Lemma token_eqb_refl (t : Token) : token_eqb t t = true.
Proof. destruct t; cbn; [apply String.eqb_refl | apply Nat.eqb_refl]. Qed.

Lemma map_get_app_none token m m' :
  map_get token m = None -> map_get token (m ++ m') = map_get token m'.
Proof.
  induction m as [|[k r] m IH]; cbn [app map_get]; [reflexivity|].
  destruct (token_eqb k token); [discriminate | exact IH].
Qed.

Lemma map_get_snoc_other token other ref m :
  token_eqb token other = false ->
  map_get other (m ++ [(token, ref)]) = map_get other m.
Proof.
  intros H. induction m as [|[k r] m IH]; cbn [app map_get].
  - now rewrite H.
  - destruct (token_eqb k other); [reflexivity | exact IH].
Qed.

Lemma register_free token ref (st : Injector W) :
  map_get token (providers st) = None ->
  register token ref st
  = (Return tt,
     mkInjector (heap st) (providers st ++ [(token, ref)]) (world st)
                (invoked st)).
Proof. intros H. unfold register, map_has. now rewrite H. Qed.

(** X12.  The registry is write-once per token.  Registering a token
    that is free succeeds, makes the token resolve to the provider given
    and leaves every other token as it was; registering a token that is
    taken throws "Provider for token <token> is already registered." and
    changes nothing, so the first provider stays. *)
Theorem register_is_write_once
        (token : Token) (provider : nat) (st : Injector W) :
  (map_get token (providers st) = None ->
   let st' := snd (register token provider st) in
   fst (register token provider st) = Return tt
   /\ map_get token (providers st') = Some provider
   /\ (forall other, token_eqb token other = false ->
                     map_get other (providers st') = map_get other (providers st))
   /\ heap st' = heap st /\ world st' = world st /\ invoked st' = invoked st)
  /\ (forall first,
         map_get token (providers st) = Some first ->
         register token provider st
         = (Throw (mkError ("Provider for token " +:+ string_of_token token
                              +:+ " is already registered.")), st)).
Proof.
  split.
  - intros Hfree st'. subst st'. unfold register, map_has. rewrite Hfree.
    cbn [fst snd providers heap world invoked]. repeat split.
    + rewrite (map_get_app_none _ _ _ Hfree). cbn [map_get].
      now rewrite token_eqb_refl.
    + intros other Hne. now apply map_get_snoc_other.
  - intros first Htaken. unfold register, map_has. now rewrite Htaken.
Qed.

(** X13.  A value registered under a free token comes back from
    [resolve], any number of times, without any factory being invoked;
    a token that was never registered makes [resolve] throw "No provider
    found for token: <token>". *)
Theorem resolve_returns_registered_value
        (token : Token) (v : Json) (st : Injector W) :
  map_get token (providers st) = None ->
  let ref := fst (allocate (ValueProvider v) st) in
  let st2 := snd (register token ref (snd (allocate (ValueProvider v) st))) in
  (forall n, resolve_times n token st2 = (repeat (Return v) n, st2))
  /\ invoked st2 = invoked st
  /\ (forall other,
         map_get other (providers st2) = None ->
         resolve other st2
         = (Throw (mkError ("No provider found for token: "
                              +:+ string_of_token other)), st2)).
Proof.
  intros Hfree ref st2.
  assert (st2 = mkInjector (heap st ++ [ValueProvider v])
                           (providers st ++ [(token, length (heap st))])
                           (world st) (invoked st)) as Hst2.
  { unfold st2, ref, allocate. cbn [fst snd].
    now rewrite register_free by exact Hfree. }
  assert (resolve token st2 = (Return v, st2)) as Hres.
  { rewrite Hst2. unfold resolve. cbn [providers heap].
    rewrite (map_get_app_none _ _ _ Hfree). cbn [map_get].
    rewrite token_eqb_refl. cbn [mbind option_bind].
    rewrite lookup_app_r by lia. rewrite Nat.sub_diag. reflexivity. }
  split; [|split].
  - induction n as [|n IH]; [reflexivity|].
    cbn [resolve_times repeat]. now rewrite Hres, IH.
  - now rewrite Hst2.
  - intros other Hother. unfold resolve. now rewrite Hother.
Qed.

Lemma resolve_at token ref p (st : Injector W) :
  map_get token (providers st) = Some ref -> heap st !! ref = Some p ->
  resolve token st = provider_get ref p st.
Proof.
  intros Hm Hh. unfold resolve. rewrite Hm. cbn [mbind option_bind].
  now rewrite Hh.
Qed.

(** X14.  A [SingletonProvider] whose factory returns a value JavaScript
    takes for true invokes the factory on the first [resolve] only: any
    number of resolutions return that one value with a single
    invocation, also through another token registered for the same
    provider object. *)
Theorem singleton_invokes_factory_once
        (token : Token) (ref : nat) (inst : Json) (f : Factory W)
        (st : Injector W) (v : Json) (w' : W) (n : nat) :
  map_get token (providers st) = Some ref ->
  heap st !! ref = Some (SingletonProvider inst f) ->
  truthy inst = false ->
  invoke f (world st) = (Return v, w') ->
  truthy v = true ->
  let st1 := mkInjector (<[ref := SingletonProvider v f]> (heap st))
                        (providers st) w' (invoked st ++ [label f]) in
  resolve_times (S n) token st = (repeat (Return v) (S n), st1)
  /\ (forall alias,
         map_get alias (providers st) = Some ref ->
         resolve alias st1 = (Return v, st1)).
Proof.
  intros Hm Hh Hinst Hf Hv st1.
  assert (heap st1 !! ref = Some (SingletonProvider v f)) as Hh1.
  { unfold st1. cbn [heap]. apply list_lookup_insert_eq.
    now apply lookup_lt_Some in Hh. }
  assert (forall alias, map_get alias (providers st) = Some ref ->
                        resolve alias st1 = (Return v, st1)) as Hagain.
  { intros alias Ha. rewrite (resolve_at alias ref _ st1 Ha Hh1).
    cbn [provider_get]. now rewrite Hv. }
  split; [|exact Hagain].
  cbn [resolve_times repeat].
  rewrite (resolve_at token ref _ st Hm Hh). cbn [provider_get].
  rewrite Hinst. cbn [negb]. unfold call_factory. rewrite Hf.
  cbn [heap providers world invoked]. fold st1.
  assert (forall k, resolve_times k token st1 = (repeat (Return v) k, st1)) as Hk.
  { induction k as [|k IH]; [reflexivity|].
    cbn [resolve_times repeat]. now rewrite (Hagain token Hm), IH. }
  now rewrite Hk.
Qed.

(** X15.  A [SingletonProvider] tests its instance with [!this.instance]:
    when the factory returns a value JavaScript takes for false, nothing
    is kept, and every [resolve] invokes the factory again. *)
Theorem singleton_reinvokes_factory_on_falsy
        (token : Token) (ref : nat) (f : Factory W) (v : Json) (n : nat) :
  (forall w, invoke f w = (Return v, w)) ->
  truthy v = false ->
  forall (inst : Json) (st : Injector W),
    map_get token (providers st) = Some ref ->
    heap st !! ref = Some (SingletonProvider inst f) ->
    truthy inst = false ->
    fst (resolve_times n token st) = repeat (Return v) n
    /\ invoked (snd (resolve_times n token st))
       = invoked st ++ repeat (label f) n.
Proof.
  intros Hf Hv. induction n as [|n IH]; intros inst st Hm Hh Hinst.
  - cbn. now rewrite app_nil_r.
  - cbn [resolve_times repeat].
    rewrite (resolve_at token ref _ st Hm Hh). cbn [provider_get].
    rewrite Hinst. cbn [negb]. unfold call_factory. rewrite Hf.
    cbn [heap providers world invoked].
    match goal with
    | |- context [resolve_times n token ?st1] =>
        destruct (IH v st1) as [Hr Hi];
        [ exact Hm
        | cbn [heap]; apply list_lookup_insert_eq; now apply lookup_lt_Some in Hh
        | exact Hv
        | destruct (resolve_times n token st1) as [rs st2] ]
    end.
    cbn [fst snd] in *. rewrite Hr, Hi. cbn [invoked].
    split; [reflexivity | now rewrite <- app_assoc].
Qed.

(** X16.  A [FactoryProvider] keeps nothing: [n] resolutions invoke the
    factory [n] times, and each returns (or throws) what the factory
    did then. *)
Theorem factory_provider_invokes_every_time
        (token : Token) (ref : nat) (f : Factory W) (n : nat) :
  forall st : Injector W,
    map_get token (providers st) = Some ref ->
    heap st !! ref = Some (FactoryProvider f) ->
    fst (resolve token st) = fst (invoke f (world st))
    /\ length (fst (resolve_times n token st)) = n
    /\ invoked (snd (resolve_times n token st))
       = invoked st ++ repeat (label f) n
    /\ heap (snd (resolve_times n token st)) = heap st.
Proof.
  induction n as [|n IH]; intros st Hm Hh.
  - rewrite (resolve_at token ref _ st Hm Hh). cbn [provider_get].
    unfold call_factory. destruct (invoke f (world st)) as [r w1].
    cbn. now rewrite app_nil_r.
  - cbn [resolve_times repeat].
    rewrite (resolve_at token ref _ st Hm Hh). cbn [provider_get].
    unfold call_factory. destruct (invoke f (world st)) as [r w1].
    match goal with
    | |- context [resolve_times n token ?st1] =>
        destruct (IH st1) as (_ & Hl & Hi & Hp); [exact Hm | exact Hh |];
        destruct (resolve_times n token st1) as [rs st2]
    end.
    cbn [fst snd length invoked heap] in *.
    rewrite Hl, Hi, Hp. repeat split. now rewrite <- app_assoc.
Qed.

Lemma instances_get_snoc scope v m :
  instances_get scope m = None ->
  instances_get scope (m ++ [(scope, v)]) = Some v.
Proof.
  induction m as [|[k x] m IH]; cbn [app instances_get].
  - now rewrite String.eqb_refl.
  - destruct (String.eqb k scope); [discriminate | exact IH].
Qed.

Lemma instances_get_snoc_other scope other v m :
  String.eqb scope other = false ->
  instances_get other (m ++ [(scope, v)]) = instances_get other m.
Proof.
  intros H. induction m as [|[k x] m IH]; cbn [app instances_get].
  - now rewrite H.
  - destruct (String.eqb k other); [reflexivity | exact IH].
Qed.

(** X17.  A [ScopedProvider] creates one instance per scope, and tests
    with [instances.has]: after the first [get(scope)] every further
    [get] for that scope returns the same value without invoking the
    factory, also when the value is [null], 0 or [false]; the instances
    of other scopes are not affected. *)
Theorem scoped_provider_creates_once_per_scope
        (scope : string) (sp : ScopedProvider W) (w w' : W)
        (log : list string) (v : Json) :
  instances_get scope (instances sp) = None ->
  scopedFactory sp scope w = (Return v, w') ->
  let sp1 := mkScoped (instances sp ++ [(scope, v)]) (scopedFactory sp) in
  scoped_get scope sp w log = (Return v, sp1, w', log ++ [scope])
  /\ (forall w2 log2, scoped_get scope sp1 w2 log2 = (Return v, sp1, w2, log2))
  /\ (forall other, String.eqb scope other = false ->
                    instances_get other (instances sp1)
                    = instances_get other (instances sp)).
Proof.
  intros Hnone Hf sp1. split; [|split].
  - unfold scoped_get. now rewrite Hnone, Hf.
  - intros w2 log2. unfold scoped_get, sp1. cbn [instances].
    now rewrite (instances_get_snoc scope v _ Hnone).
  - intros other Hne. unfold sp1. cbn [instances].
    now apply instances_get_snoc_other.
Qed.

End InjectorFacts.

(** ** More concrete runs *)

Section MoreRunsFacts.
Import Scenario MoreRuns.

(** One failure, then success, with three attempts allowed: the client
    returns and has made no more than three calls. *)
Lemma retry_outcome_follows_remote_run :
  exists r p',
    XavenAiEngine.parseUserQuery uuid (flakyParse 1) 4 (aiConfig 3)
      "I need a tablet" None aiOutside = Some (r, p')
    /\ (length (XavenAiEngine.postCalls p') <= 3)%nat.
Proof.
  destruct (retry_outcome_follows_remote uuid (flakyParse 1) downOptimize 4
              (aiConfig 3) (optimizerConfig 3) "I need a tablet" None tablet
              None aiOutside optimizerOutside)
    as ((r & w' & n & outs & Heq & _ & Hshape) & _); [cbv; lia | cbv; lia |].
  exists r. eexists. split; [exact Heq|].
  cbn [XavenAiEngine.postCalls aiOutside app]. rewrite repeat_length.
  destruct r; destruct Hshape as [Hn _]; cbn in Hn; lia.
Defined.

(** A ceiling of 0 for one client and of -1 for the other. *)
Lemma nonpositive_ceiling_never_calls_run :
  XavenAiEngine.parseUserQuery uuid downParse 1 (aiConfig 0)
    "I need a tablet" None aiOutside
  = Some (Throw (mkError "[XavenAiEngine] parseUserQuery failed after 0 attempts. Last error: undefined"),
          aiOutside)
  /\ XavenPurchaseOptimizer.optimizePurchase uuid downOptimize 1
       (optimizerConfig (-1)) tablet None optimizerOutside
     = Some (Throw (mkError "[XavenPurchaseOptimizer] optimizePurchase failed after -1 attempts. Last error: undefined"),
             optimizerOutside).
Proof.
  exact (nonpositive_ceiling_never_calls uuid downParse downOptimize 1
           (aiConfig 0) (optimizerConfig (-1)) "I need a tablet" None tablet
           None aiOutside optimizerOutside
           ltac:(cbv; discriminate) ltac:(cbv; discriminate) ltac:(lia)).
Defined.

(** Built with [{ retryCount: 0, defaultLanguage: "" }] the AI client
    makes no call; built without config the optimizer makes at most
    two. *)
Lemma constructed_clients_use_supplied_or_default_run :
  (exists r w',
      XavenAiEngine.parseUserQuery uuid downParse 3
        (XavenAiEngineCtor.finalConfig (Some zeroRetries)) "I need a tablet"
        None aiOutside
      = Some (r, XavenAiEngine.mkProcess None w' []))
  /\ (exists r p',
         XavenPurchaseOptimizer.optimizePurchase uuid downOptimize 3
           (XavenPurchaseOptimizerCtor.finalConfig None) tablet None
           optimizerOutside = Some (r, p')
         /\ (length (XavenPurchaseOptimizer.postCalls p') <= 2)%nat).
Proof.
  destruct (constructed_clients_use_supplied_or_default uuid downParse
              downOptimize 3 (Some zeroRetries) None "I need a tablet" None
              tablet None aiOutside optimizerOutside)
    as ((rA & wA & nA & HA & HnA) & (rO & wO & nO & HO & HnO));
    [cbv; lia | cbv; lia |].
  split.
  - exists rA, wA. rewrite HA. cbn in HnA.
    assert (nA = 0%nat) as -> by lia. reflexivity.
  - exists rO. eexists. split; [exact HO|].
    cbn [XavenPurchaseOptimizer.postCalls optimizerOutside app].
    rewrite repeat_length. cbn in HnO. lia.
Defined.

(** Invalidation enabled, the endpoint down: one request, no error. *)
Lemma invalidation_sends_at_most_once_and_swallows_run :
  XavenPurchaseOptimizerCtor.forceCacheInvalidation downDelete invalidationOn
    "stale prices" freshClient
  = (Return tt,
     XavenPurchaseOptimizerCtor.mkCacheClient 1%nat [("/cache", "stale prices")]).
Proof.
  destruct (invalidation_sends_at_most_once_and_swallows downDelete
              invalidationOn "stale prices" freshClient) as (Hr & _ & Hon).
  specialize (Hon eq_refl).
  destruct (XavenPurchaseOptimizerCtor.forceCacheInvalidation downDelete
              invalidationOn "stale prices" freshClient) as [r c].
  cbn [fst snd] in Hr, Hon. now rewrite Hr, Hon.
Defined.

(** A request without header gets a generated, non-empty id. *)
Lemma seeded_correlation_id_never_empty_run :
  XavenContext.correlationId (XavenContext.contextData requestB zeros) <> "".
Proof. exact (proj1 seeded_correlation_id_never_empty requestB zeros). Defined.

(** A user id is copied; an empty one is dropped. *)
Lemma user_id_seeding_run :
  XavenContext.userId (XavenContext.contextData requestWithUser zeros)
  = Some "user-123"
  /\ XavenContext.userId (XavenContext.contextData requestWithEmptyUser zeros)
     = None.
Proof.
  split.
  - destruct (user_id_seeding requestWithUser zeros XavenContext.Done
                XavenContext.idle) as (_ & H & _).
    apply H; [reflexivity | discriminate].
  - destruct (user_id_seeding requestWithEmptyUser zeros XavenContext.Done
                XavenContext.idle) as (H & _).
    apply H. now right.
Defined.


(** Five ids, one of them twice, on the idle service: three requests go
    out, two calls wait. *)
Lemma bulk_fetch_schedules_in_order_run :
  let s' := XavenFactoryRoutes.getPostsInBulk [1; 2; 2; 3; 4] XavenFactory.init in
  map snd (XavenFactory.axiosCalls s')
  = map XavenFactoryRoutes.postUrl [1; 2; 2]
  /\ map XavenFactory.url (XavenFactory.queue s')
     = map XavenFactoryRoutes.postUrl [3; 4].
Proof.
  destruct (bulk_fetch_schedules_in_order [1; 2; 2; 3; 4] XavenFactory.init)
    as (Ha & _ & Hq & _).
  - repeat constructor; cbv; discriminate.
  - intros id _. unfold XavenFactory.cache_get, XavenFactory.init.
    cbn [XavenFactory.cache]. now rewrite lookup_empty.
  - split; [exact Ha | exact Hq].
Defined.

(** The answer for post 789 arrives; 5 seconds later the post is served
    from the cache. *)
Lemma entry_lives_ten_seconds_from_response_run :
  let s1 := XavenFactory.respond 0 (Resolved post789) oneInFlight in
  XavenFactory.settled
    (XavenFactory.fetchWithCache url789 (XavenFactory.tick 5000 s1))
  = [(0%nat, Return post789); (1%nat, Return post789)].
Proof.
  destruct (entry_lives_ten_seconds_from_response oneInFlight 0
              (XavenFactory.mkTask 0 url789) post789 5000 eq_refl)
    as (_ & Hhit & _).
  destruct (Hhit eq_refl ltac:(lia)) as (Hs & _).
  exact Hs.
Defined.

(** "007" is numeric: post 7 is fetched, and a [null] answer gives the
    404 that names "007". *)
Lemma post_by_id_route_outcomes_run :
  XavenFactory.axiosCalls
    (snd (XavenFactoryRoutes.postByIdRoute
            (Some (XavenFactoryRoutes.QString "007")) XavenFactory.init))
  = [(0%nat, "https://api.xavenai.com//7")]
  /\ XavenFactoryRoutes.postByIdRoute_resume "007" (Return XavenFactory.JNull)
     = XavenFactoryRoutes.mkResponse 404
         (XavenFactoryRoutes.ErrorBody "Post with ID 007 not found" None).
Proof.
  destruct (post_by_id_route_outcomes [] None "007" (Resolved XavenFactory.JNull))
    as (_ & Hvalid).
  destruct (Hvalid eq_refl ltac:(cbv; lia) ltac:(cbv; lia) eq_refl)
    as (_ & Hax & r & Hs & Hr).
  split; [exact Hax|].
  assert (r = Return XavenFactory.JNull) as -> by (vm_compute in Hs; congruence).
  exact Hr.
Defined.

(** Two ids requested, both answered, one with [null]: 200, count 2. *)
Lemma bulk_fetch_route_outcomes_run :
  XavenFactoryRoutes.bulkFetchRoute_resume
    (Return [XavenFactory.JNull; post789])
  = XavenFactoryRoutes.mkResponse 200
      (XavenFactoryRoutes.BulkBody 2 [XavenFactory.JNull; post789]).
Proof.
  destruct (bulk_fetch_route_outcomes XavenFactory.init [456; 789]
              [(1%nat, Return post789); (0%nat, Return XavenFactory.JNull)])
    as (_ & _ & _ & Hok).
  destruct (Hok ltac:(discriminate)) as (_ & Hall & _).
  exact (proj2 (Hall [XavenFactory.JNull; post789] eq_refl)).
Defined.

(** Registering "config" twice: the second attempt throws. *)
Lemma register_is_write_once_run :
  DependencyInjector.register configToken 1
    (snd (DependencyInjector.register configToken 0 emptyInjector))
  = (Throw (mkError "Provider for token config is already registered."),
     DependencyInjector.mkInjector [] [(configToken, 0%nat)] 0%nat []).
Proof.
  destruct (register_is_write_once configToken 1
              (snd (DependencyInjector.register configToken 0 emptyInjector)))
    as (_ & Htaken).
  exact (Htaken 0%nat eq_refl).
Defined.

(** A value registered under the symbol token comes back. *)
Lemma resolve_returns_registered_value_run :
  DependencyInjector.resolve serviceToken
    (DependencyInjector.mkInjector
       [DependencyInjector.ValueProvider (XavenFactory.JNumber 0)]
       [(serviceToken, 0%nat)] 0%nat [])
  = (Return (XavenFactory.JNumber 0),
     DependencyInjector.mkInjector
       [DependencyInjector.ValueProvider (XavenFactory.JNumber 0)]
       [(serviceToken, 0%nat)] 0%nat []).
Proof.
  destruct (resolve_returns_registered_value serviceToken
              (XavenFactory.JNumber 0) emptyInjector eq_refl) as (Hn & _).
  specialize (Hn 1%nat). cbn [DependencyInjector.resolve_times repeat] in Hn.
  destruct (DependencyInjector.resolve serviceToken _) as [r st] eqn:E in Hn.
  cbn in E. inversion Hn; subst. exact E.
Defined.

(** Three resolutions of the singleton: one invocation. *)
Lemma singleton_invokes_factory_once_run :
  DependencyInjector.invoked
    (snd (DependencyInjector.resolve_times 3 serviceToken wired))
  = ["counter"]
  /\ fst (DependencyInjector.resolve_times 3 serviceToken wired)
     = repeat (Return (XavenFactory.JNumber 1)) 3.
Proof.
  destruct (singleton_invokes_factory_once serviceToken 0 XavenFactory.JNull
              counter wired (XavenFactory.JNumber 1) 1%nat 2
              eq_refl eq_refl eq_refl eq_refl eq_refl) as (H & _).
  rewrite H. split; reflexivity.
Defined.

(** Three resolutions of the singleton whose factory returns [null]:
    three invocations. *)
Lemma singleton_reinvokes_factory_on_falsy_run :
  DependencyInjector.invoked
    (snd (DependencyInjector.resolve_times 3 (DependencyInjector.TString "nothing")
            wired))
  = ["nothing"; "nothing"; "nothing"].
Proof.
  exact (proj2 (singleton_reinvokes_factory_on_falsy
                  (DependencyInjector.TString "nothing") 1 nothing
                  XavenFactory.JNull 3 (fun w => eq_refl) eq_refl
                  XavenFactory.JNull wired eq_refl eq_refl eq_refl)).
Defined.

(** Two resolutions of the factory provider: two invocations. *)
Lemma factory_provider_invokes_every_time_run :
  DependencyInjector.invoked
    (snd (DependencyInjector.resolve_times 2 (DependencyInjector.TString "fresh")
            wired))
  = ["counter"; "counter"].
Proof.
  destruct (factory_provider_invokes_every_time
              (DependencyInjector.TString "fresh") 2 counter 2 wired
              eq_refl eq_refl) as (_ & _ & H & _).
  exact H.
Defined.

(** The instance of tenant "acme" is created once. *)
Lemma scoped_provider_creates_once_per_scope_run :
  DependencyInjector.scoped_get "acme" perTenant 0%nat []
  = (Return (XavenFactory.JString "acme"),
     DependencyInjector.mkScoped [("acme", XavenFactory.JString "acme")]
       (DependencyInjector.scopedFactory perTenant),
     1%nat, ["acme"]).
Proof.
  destruct (scoped_provider_creates_once_per_scope "acme" perTenant 0%nat 1%nat
              [] (XavenFactory.JString "acme") eq_refl eq_refl) as (H & _).
  exact H.
Defined.

(** Two calls for post 789 in flight; both are answered. *)
Lemma concurrent_misses_last_write_wins_run :
  XavenFactory.cache
    (XavenFactory.respond 1 (Resolved XavenFactory.JNull)
       (XavenFactory.tick 250
          (XavenFactory.respond 0 (Resolved post789) twoInFlight)))
    !! url789 = Some (XavenFactory.JNull, 10250).
Proof.
  destruct (concurrent_misses_last_write_wins twoInFlight 0 1
              (XavenFactory.mkTask 0 url789) (XavenFactory.mkTask 1 url789)
              post789 XavenFactory.JNull 250
              ltac:(discriminate) eq_refl eq_refl eq_refl) as (_ & H & _).
  exact H.
Defined.

(** Four calls for post 789 at once: the fourth waits, and fetches when
    the first is answered. *)
Lemma queued_call_fetches_though_cached_run :
  XavenFactory.axiosCalls
    (XavenFactory.respond 0 (Resolved post789) fourForOne)
  = [(0%nat, url789); (1%nat, url789); (2%nat, url789); (3%nat, url789)].
Proof.
  destruct (queued_call_fetches_though_cached fourForOne 0
              (XavenFactory.mkTask 0 url789) (XavenFactory.mkTask 3 url789)
              post789 [] eq_refl eq_refl eq_refl) as (_ & H & _).
  exact H.
Defined.

End MoreRunsFacts.
